(** * The uxarray user-guide notebooks, embedded and verified

    The repository consists of nine Jupyter notebooks.  A notebook is a list
    of cells; a markdown cell carries prose, a code cell carries Python
    source.  Each code cell is embedded as the abstract syntax tree of its
    source (the node names follow Python's [ast] module), each markdown cell
    as its lines of text.

    On top of the syntax the development defines
    - syntactic observations on cells: which calls occur, which statement
      kinds occur, which names are bound;
    - an executable semantics of the Python fragment the notebooks use.
      Every object that comes from an imported package is kept symbolic: a
      call into the toolkit evaluates to a term that records the callee and
      the evaluated arguments, and is appended to the trace of the run.  A
      notebook has several runs when it tests such an object, and, in the
      mode in which calls may raise, one more for every call;
    - observations on the runs: the calls made, the values displayed and
      printed, the files written and loaded.

    The properties are stated on these, first those that hold of any
    notebook (exceptions propagate where nothing handles them), then those
    of the nine notebooks. *)

From Stdlib Require Import ZArith List String Ascii Bool Lia.
From Stdlib Require Import DecimalString.
Import ListNotations.
Open Scope string_scope.
Open Scope list_scope.

Set Implicit Arguments.
Set Warnings "-register-all".

(** ** Python abstract syntax *)

Module Py.

Inductive unaryop := UNot | USub | UAdd | UInvert.

Inductive operator :=
| Add | Sub | Mult | Div | FloorDiv | Mod | Pow | MatMult
| LShift | RShift | BitOr | BitXor | BitAnd.

Inductive boolop := BAnd | BOr.

Inductive cmpop :=
| CEq | CNotEq | CLt | CLtE | CGt | CGtE | CIs | CIsNot | CIn | CNotIn.

(** Expressions.  A keyword argument [(Some k, e)] is [k=e]; [(None, e)] is
    the unpacking [**e].  A dictionary item [(None, e)] is likewise [**e].
    A float literal is kept exact, as the decimal [m * 10^e] it is written
    as. *)
Inductive expr :=
| EName (id : string)
| EInt (n : Z)
| EFloat (m e : Z)
| EStr (s : string)
| EBool (b : bool)
| ENone
| EAttribute (value : expr) (attr : string)
| ESubscript (value index : expr)
| ECall (func : expr) (args : list expr)
        (keywords : list (option string * expr))
| EList (elts : list expr)
| ETuple (elts : list expr)
| EDict (items : list (option expr * expr))
| EBinOp (left : expr) (op : operator) (right : expr)
| EUnaryOp (op : unaryop) (operand : expr)
| EBoolOp (op : boolop) (values : list expr)
| ECompare (left : expr) (rest : list (cmpop * expr))
| EIfExp (test body orelse : expr)
| EJoinedStr (values : list expr)
| EFormattedValue (value : expr)
| EStarred (value : expr)
| ELambda (params : list string) (body : expr)
| EComp (elt : expr) (generators : list (bool * expr * expr))
| EAwait (value : expr)
| EYield (value : option expr).

Record alias := { name : string; asname : option string }.

(** Statements.  The two [bool] fields of [SFor], [SWith] and
    [SFunctionDef] are Python's [async] marker. *)
Inductive stmt :=
| SImport (names : list alias)
| SImportFrom (module : string) (names : list alias)
| SAssign (targets : list expr) (value : expr)
| SAugAssign (target : expr) (op : operator) (value : expr)
| SAnnAssign (target annotation : expr) (value : option expr)
| SExpr (value : expr)
| SFor (is_async : bool) (target iter : expr) (body orelse : list stmt)
| SWhile (test : expr) (body orelse : list stmt)
| SIf (test : expr) (body orelse : list stmt)
| SWith (is_async : bool) (items : list (expr * option expr)) (body : list stmt)
| STry (body : list stmt) (handlers : list (option expr * list stmt))
       (orelse finalbody : list stmt)
| SRaise (exc : option expr)
| SAssert (test : expr)
| SFunctionDef (is_async : bool) (name : string) (params : list string)
               (body : list stmt)
| SClassDef (name : string) (bases : list expr) (body : list stmt)
| SReturn (value : option expr)
| SDelete (targets : list expr)
| SGlobal (names : list string)
| SNonlocal (names : list string)
| SPass
| SBreak
| SContinue.

End Py.
Import Py.

(** ** Notebooks *)

Inductive cell :=
| Markdown (source : list string)
| Code (source : list stmt).

Record notebook := {
  file : string;      (* the file under src/ that holds the notebook *)
  first_line : nat;   (* line of that file at which the notebook starts *)
  cells : list cell
}.

(** The double quote, for prose that contains one. *)
Definition dq : string := String (ascii_of_nat 34) EmptyString.

(** ** The nine notebooks

    Each cell is preceded by the lines of the file it comes from and, for a
    code cell, by its Python source. *)

(** *** Cross-Sections  (src/unnamed/part_000, from line 1) *)

Module CrossSections.

(* lines 8-10, prose *)
Definition cell_00 : cell :=
  Markdown
    [ "# Cross-Sections";
      "";
      "This section demonstrates how to extract cross-sections from an unstructured grid using UXarray, which allows the analysis and visualization across slices of grids. Cross-sections can be performed directly on a `ux.Grid` object or on a `ux.UxDataArray`";
      "" ].

(* lines 20-26:
     import cartopy.crs as ccrs
     import geoviews as gv
     import geoviews.feature as gf

     import uxarray as ux

     projection = ccrs.Robinson()
*)
Definition cell_01 : cell :=
  Code
    [ SImport [{| name := "cartopy.crs"; asname := Some "ccrs" |}];
      SImport [{| name := "geoviews"; asname := Some "gv" |}];
      SImport [{| name := "geoviews.feature"; asname := Some "gf" |}];
      SImport [{| name := "uxarray"; asname := Some "ux" |}];
      SAssign
        [EName "projection"]
        (ECall (EAttribute (EName "ccrs") "Robinson") [] []) ].

(* lines 36-46:
     base_path = "../../test/meshfiles/ugrid/outCSne30/"
     grid_path = base_path + "outCSne30.ug"
     data_path = base_path + "outCSne30_vortex.nc"

     uxds = ux.open_dataset(grid_path, data_path)
     uxds["psi"].plot(
         cmap="inferno",
         periodic_elements="split",
         projection=projection,
         title="Global Plot",
     )
*)
Definition cell_02 : cell :=
  Code
    [ SAssign
        [EName "base_path"]
        (EStr "../../test/meshfiles/ugrid/outCSne30/");
      SAssign
        [EName "grid_path"]
        (EBinOp (EName "base_path") Add (EStr "outCSne30.ug"));
      SAssign
        [EName "data_path"]
        (EBinOp (EName "base_path") Add (EStr "outCSne30_vortex.nc"));
      SAssign
        [EName "uxds"]
        (ECall
          (EAttribute (EName "ux") "open_dataset")
          [EName "grid_path"; EName "data_path"]
          []);
      SExpr
        (ECall
          (EAttribute (ESubscript (EName "uxds") (EStr "psi")) "plot")
          []
          [ (Some "cmap", EStr "inferno");
            (Some "periodic_elements", EStr "split");
            (Some "projection", EName "projection");
            (Some "title", EStr "Global Plot") ]) ].

(* lines 54-56, prose *)
Definition cell_03 : cell :=
  Markdown
    [ "## Constant Latitude";
      "";
      "Cross-sections along constant latitude lines can be obtained by using the  ``.cross_section.constant_latitude(lat)`` method. The sliced grid will be made up of the faces that contain at least one edge that intersects with a line of constant latitude.";
      "" ].

(* lines 64-64, prose *)
Definition cell_04 : cell :=
  Markdown
    [ "For example, we can obtain a cross-section at 0 degrees latitude by doing the following:" ].

(* lines 74-76:
     lat = 0

     uxda_constant_lat = uxds["psi"].cross_section.constant_latitude(lat)
*)
Definition cell_05 : cell :=
  Code
    [ SAssign [EName "lat"] (EInt 0);
      SAssign
        [EName "uxda_constant_lat"]
        (ECall
          (EAttribute
            (EAttribute
              (ESubscript (EName "uxds") (EStr "psi"))
              "cross_section")
            "constant_latitude")
          [EName "lat"]
          []) ].

(* lines 84-84, prose *)
Definition cell_06 : cell :=
  Markdown
    [ "Since the result is a new ``UxDataArray``, we can directly plot the result to see the cross-section." ].

(* lines 94-105:
     (
         uxda_constant_lat.plot(
             rasterize=False,
             backend="bokeh",
             cmap="inferno",
             projection=projection,
             global_extent=True,
             coastline=True,
             title=f"Cross Section at {lat} degrees latitude",
         )
         * gf.grid(projection=projection)
     )
*)
Definition cell_07 : cell :=
  Code
    [ SExpr
        (EBinOp
          (ECall
            (EAttribute (EName "uxda_constant_lat") "plot")
            []
            [ (Some "rasterize", EBool false);
              (Some "backend", EStr "bokeh");
              (Some "cmap", EStr "inferno");
              (Some "projection", EName "projection");
              (Some "global_extent", EBool true);
              (Some "coastline", EBool true);
              ( Some "title",
                EJoinedStr
                  [ EStr "Cross Section at ";
                    EFormattedValue (EName "lat");
                    EStr " degrees latitude" ] ) ])
          Mult
          (ECall
            (EAttribute (EName "gf") "grid")
            []
            [(Some "projection", EName "projection")])) ].

(* lines 113-113, prose *)
Definition cell_08 : cell :=
  Markdown
    [ "You can also perform operations on the cross-section, such as taking the mean." ].

(* lines 123-124:
     print(f"Global Mean: {uxds['psi'].data.mean()}")
     print(f"Mean at {lat} degrees lat: {uxda_constant_lat.data.mean()}")
*)
Definition cell_09 : cell :=
  Code
    [ SExpr
        (ECall
          (EName "print")
          [ EJoinedStr
              [ EStr "Global Mean: ";
                EFormattedValue
                  (ECall
                    (EAttribute
                      (EAttribute
                        (ESubscript (EName "uxds") (EStr "psi"))
                        "data")
                      "mean")
                    []
                    []) ] ]
          []);
      SExpr
        (ECall
          (EName "print")
          [ EJoinedStr
              [ EStr "Mean at ";
                EFormattedValue (EName "lat");
                EStr " degrees lat: ";
                EFormattedValue
                  (ECall
                    (EAttribute
                      (EAttribute (EName "uxda_constant_lat") "data")
                      "mean")
                    []
                    []) ] ]
          []) ].

(* lines 132-135, prose *)
Definition cell_10 : cell :=
  Markdown
    [ "## Constant Longitude";
      "";
      "";
      "Cross-sections along constant longitude lines can be obtained using the ``.cross_section.constant_longitude(lon)`` method. The sliced grid will be made up of the faces that contain at least one edge that intersects with a line of constant longitude.";
      "" ].

(* lines 145-147:
     lon = 90

     uxda_constant_lon = uxds["psi"].cross_section.constant_longitude(lon)
*)
Definition cell_11 : cell :=
  Code
    [ SAssign [EName "lon"] (EInt 90);
      SAssign
        [EName "uxda_constant_lon"]
        (ECall
          (EAttribute
            (EAttribute
              (ESubscript (EName "uxds") (EStr "psi"))
              "cross_section")
            "constant_longitude")
          [EName "lon"]
          []) ].

(* lines 157-169:
     (
         uxda_constant_lon.plot(
             rasterize=False,
             backend="bokeh",
             cmap="inferno",
             projection=projection,
             global_extent=True,
             coastline=True,
             title=f"Cross Section at {lon} degrees longitude",
             periodic_elements="split",
         )
         * gf.grid(projection=projection)
     )
*)
Definition cell_12 : cell :=
  Code
    [ SExpr
        (EBinOp
          (ECall
            (EAttribute (EName "uxda_constant_lon") "plot")
            []
            [ (Some "rasterize", EBool false);
              (Some "backend", EStr "bokeh");
              (Some "cmap", EStr "inferno");
              (Some "projection", EName "projection");
              (Some "global_extent", EBool true);
              (Some "coastline", EBool true);
              ( Some "title",
                EJoinedStr
                  [ EStr "Cross Section at ";
                    EFormattedValue (EName "lon");
                    EStr " degrees longitude" ] );
              (Some "periodic_elements", EStr "split") ])
          Mult
          (ECall
            (EAttribute (EName "gf") "grid")
            []
            [(Some "projection", EName "projection")])) ].

(* lines 177-179, prose *)
Definition cell_13 : cell :=
  Markdown
    [ "## Constant Latitude Interval";
      "";
      "Cross-sections between two lines of latitudes can be obtained using the ``.cross_section.constant_lats_interval(lats)`` method. The sliced grid will contain faces that are strictly between the latitude interval." ].

(* lines 189-191:
     lats = [-20, 20]

     uxda_constant_lat_interval = uxds["psi"].cross_section.constant_latitude_interval(lats)
*)
Definition cell_14 : cell :=
  Code
    [ SAssign [EName "lats"] (EList [EUnaryOp USub (EInt 20); EInt 20]);
      SAssign
        [EName "uxda_constant_lat_interval"]
        (ECall
          (EAttribute
            (EAttribute
              (ESubscript (EName "uxds") (EStr "psi"))
              "cross_section")
            "constant_latitude_interval")
          [EName "lats"]
          []) ].

(* lines 201-213:
     (
         uxda_constant_lat_interval.plot(
             rasterize=False,
             backend="bokeh",
             cmap="inferno",
             projection=projection,
             global_extent=True,
             coastline=True,
             title=f"Cross Section between {lats[0]} and {lats[1]} degrees latitude",
             periodic_elements="split",
         )
         * gf.grid(projection=projection)
     )
*)
Definition cell_15 : cell :=
  Code
    [ SExpr
        (EBinOp
          (ECall
            (EAttribute (EName "uxda_constant_lat_interval") "plot")
            []
            [ (Some "rasterize", EBool false);
              (Some "backend", EStr "bokeh");
              (Some "cmap", EStr "inferno");
              (Some "projection", EName "projection");
              (Some "global_extent", EBool true);
              (Some "coastline", EBool true);
              ( Some "title",
                EJoinedStr
                  [ EStr "Cross Section between ";
                    EFormattedValue (ESubscript (EName "lats") (EInt 0));
                    EStr " and ";
                    EFormattedValue (ESubscript (EName "lats") (EInt 1));
                    EStr " degrees latitude" ] );
              (Some "periodic_elements", EStr "split") ])
          Mult
          (ECall
            (EAttribute (EName "gf") "grid")
            []
            [(Some "projection", EName "projection")])) ].

(* lines 221-223, prose *)
Definition cell_16 : cell :=
  Markdown
    [ "## Constant Longitude Interval";
      "";
      "Cross-sections between two lines of longitude can be obtained using the ``.cross_section.constant_lons_interval(lons)`` method. The sliced grid will contain faces that are strictly between the longitude interval.";
      "" ].

(* lines 233-235:
     lons = [-25, 25]

     uxda_constant_lon_interval = uxds["psi"].cross_section.constant_longitude_interval(lats)
*)
Definition cell_17 : cell :=
  Code
    [ SAssign [EName "lons"] (EList [EUnaryOp USub (EInt 25); EInt 25]);
      SAssign
        [EName "uxda_constant_lon_interval"]
        (ECall
          (EAttribute
            (EAttribute
              (ESubscript (EName "uxds") (EStr "psi"))
              "cross_section")
            "constant_longitude_interval")
          [EName "lats"]
          []) ].

(* lines 245-257:
     (
         uxda_constant_lon_interval.plot(
             rasterize=False,
             backend="bokeh",
             cmap="inferno",
             projection=projection,
             global_extent=True,
             coastline=True,
             title=f"Cross Section between {lons[0]} and {lons[1]} degrees longitude",
             periodic_elements="split",
         )
         * gf.grid(projection=projection)
     )
*)
Definition cell_18 : cell :=
  Code
    [ SExpr
        (EBinOp
          (ECall
            (EAttribute (EName "uxda_constant_lon_interval") "plot")
            []
            [ (Some "rasterize", EBool false);
              (Some "backend", EStr "bokeh");
              (Some "cmap", EStr "inferno");
              (Some "projection", EName "projection");
              (Some "global_extent", EBool true);
              (Some "coastline", EBool true);
              ( Some "title",
                EJoinedStr
                  [ EStr "Cross Section between ";
                    EFormattedValue (ESubscript (EName "lons") (EInt 0));
                    EStr " and ";
                    EFormattedValue (ESubscript (EName "lons") (EInt 1));
                    EStr " degrees longitude" ] );
              (Some "periodic_elements", EStr "split") ])
          Mult
          (ECall
            (EAttribute (EName "gf") "grid")
            []
            [(Some "projection", EName "projection")])) ].

(* lines 265-265, prose *)
Definition cell_19 : cell :=
  Markdown ["## Arbitrary Great Circle Arc (GCA)"].

(* lines 273-275, prose *)
Definition cell_20 : cell :=
  Markdown
    [ "```{warning}";
      "Arbitrary great circle arc cross sections are not yet implemented.";
      "```" ].

Definition nb : notebook :=
  {| file := "src/unnamed/part_000";
     first_line := 1;
     cells := [cell_00; cell_01; cell_02; cell_03; cell_04; cell_05; cell_06;
       cell_07; cell_08; cell_09; cell_10; cell_11; cell_12; cell_13; cell_14;
       cell_15; cell_16; cell_17; cell_18; cell_19; cell_20] |}.

End CrossSections.

(** *** Working with HEALPix Data  (src/unnamed/part_000, from line 301) *)

Module Healpix.

(* lines 308-313, prose *)
Definition cell_00 : cell :=
  Markdown
    [ "# Working with HEALPix Data";
      "";
      "In this notebook, we showcase how UXarray can be used with HEALPix data.";
      "* A brief overview into HEALPix";
      "* Representing a HEALPix grid in the UGRID conventions";
      "* Loading data that resides on HEALPix Grids" ].

(* lines 323-325:
     import cartopy.crs as ccrs

     import uxarray as ux
*)
Definition cell_01 : cell :=
  Code
    [ SImport [{| name := "cartopy.crs"; asname := Some "ccrs" |}];
      SImport [{| name := "uxarray"; asname := Some "ux" |}] ].

(* lines 333-347, prose *)
Definition cell_02 : cell :=
  Markdown
    [ "## What is HEALPix?";
      "";
      "The Hierarchical Equal Area isoLatitude Pixelisation (HEALPix) algorithm is a method for the pixelisation of the";
      "2-sphere. It has three defining qualities.";
      "- The sphere is hierarchically tessellated into curvilinear quadrilaterals";
      "- Areas of all pixels at a given resolution are identical";
      "- Pixels are distributed on lines of constant latitude";
      "";
      "```{note}";
      "For more information on HEALPix, you can refer to [this excellent overview](https://easy.gems.dkrz.de/Processing/healpix/index.html#hierarchical-healpix-output) in DKRZ's Easy Gems documentation.";
      "```";
      "";
      "";
      "";
      "";
      "" ].

(* lines 355-370, prose *)
Definition cell_03 : cell :=
  Markdown
    [ "## Representing a HEALPix Grid in the UGRID Conventions";
      "";
      "Most datasets loaded into **UXarray** come with a dedicated grid file. However, for HEALPix datasets, the underlying grid structure is inferred from the number of cells.";
      "";
      "For a HEALPix grid in a nested layout, the number of cells is defined by:";
      "";
      "$$";
      "N_{\text{cells}} = 12 \cdot z^4,";
      "$$";
      "";
      "where `z` is the *zoom level*. A higher zoom level increases the effective resolution of the grid.";
      "";
      "The ``ux.Grid.from_healpix(zoom)`` classmethod can be used to construct a ``ux.Grid`` instance representing a HEALPix grid in the UGRID conventions.";
      "";
      "";
      "";
      "" ].

(* lines 380-380:
     ux.Grid.from_healpix(zoom=3)
*)
Definition cell_04 : cell :=
  Code
    [ SExpr
        (ECall
          (EAttribute (EAttribute (EName "ux") "Grid") "from_healpix")
          []
          [(Some "zoom", EInt 3)]) ].

(* lines 388-395, prose *)
Definition cell_05 : cell :=
  Markdown
    [ "By default, our ``Grid`` will only contain the face coordinate values, which represent the HEALPix pixel locations. We can see this above with only the ``face_lon`` and ``face_lat`` variables populated.";
      "";
      "However, much of UXarray functionality requires the boundaries of each cell to be defined. This is represented using the following variables:";
      "- ``node_lon``: Longitude of the corners of each cell";
      "- ``node_lat``: Latitude of the corners of each cell";
      "- ``face_node_connectivity``: The indices of the nodes that surround each face";
      "";
      "An optional parameter, ``pixels_only``, is provided which can be set to ``True`` if you require the boundaries to be computed upfront." ].

(* lines 405-405:
     ux.Grid.from_healpix(zoom=3, pixels_only=False)
*)
Definition cell_06 : cell :=
  Code
    [ SExpr
        (ECall
          (EAttribute (EAttribute (EName "ux") "Grid") "from_healpix")
          []
          [(Some "zoom", EInt 3); (Some "pixels_only", EBool false)]) ].

(* lines 412-412, prose *)
Definition cell_07 : cell :=
  Markdown
    [ "However, even if you load in a HEALPix grid specifying that you do not want the connectivity upfront, they can still be constructed when desired because of UXarray's internal design." ].

(* lines 421-421:
     ux.Grid.from_healpix(zoom=3, pixels_only=True).face_node_connectivity
*)
Definition cell_08 : cell :=
  Code
    [ SExpr
        (EAttribute
          (ECall
            (EAttribute (EAttribute (EName "ux") "Grid") "from_healpix")
            []
            [(Some "zoom", EInt 3); (Some "pixels_only", EBool true)])
          "face_node_connectivity") ].

(* lines 429-436, prose *)
Definition cell_09 : cell :=
  Markdown
    [ "### Grid-Agnostic Functionality";
      "";
      "Once loaded in, UXarray does not care about the underlying grid format, as it represents all formats in its unified UGRID-like convention. This means that all existing functionality is supported through the same UXarray inferface. Below are basic examples of plotting & remapping.";
      "";
      "#### Plotting";
      "";
      "By using UXarray's plotting functionality, we can observe how increasing the ``zoom`` level leads to a higher-resolution grid.";
      "";
      "" ].

(* lines 446-456:
     (
         ux.Grid.from_healpix(zoom=2).plot(
             periodic_elements="split", projection=ccrs.Orthographic(), title="zoom=2"
         )
         + ux.Grid.from_healpix(zoom=3).plot(
             periodic_elements="split", projection=ccrs.Orthographic(), title="zoom=3"
         )
         + ux.Grid.from_healpix(zoom=4).plot(
             periodic_elements="split", projection=ccrs.Orthographic(), title="zoom=4"
         )
     ).cols(1)
*)
Definition cell_10 : cell :=
  Code
    [ SExpr
        (ECall
          (EAttribute
            (EBinOp
              (EBinOp
                (ECall
                  (EAttribute
                    (ECall
                      (EAttribute
                        (EAttribute (EName "ux") "Grid")
                        "from_healpix")
                      []
                      [(Some "zoom", EInt 2)])
                    "plot")
                  []
                  [ (Some "periodic_elements", EStr "split");
                    ( Some "projection",
                      ECall (EAttribute (EName "ccrs") "Orthographic") [] [] );
                    (Some "title", EStr "zoom=2") ])
                Add
                (ECall
                  (EAttribute
                    (ECall
                      (EAttribute
                        (EAttribute (EName "ux") "Grid")
                        "from_healpix")
                      []
                      [(Some "zoom", EInt 3)])
                    "plot")
                  []
                  [ (Some "periodic_elements", EStr "split");
                    ( Some "projection",
                      ECall (EAttribute (EName "ccrs") "Orthographic") [] [] );
                    (Some "title", EStr "zoom=3") ]))
              Add
              (ECall
                (EAttribute
                  (ECall
                    (EAttribute
                      (EAttribute (EName "ux") "Grid")
                      "from_healpix")
                    []
                    [(Some "zoom", EInt 4)])
                  "plot")
                []
                [ (Some "periodic_elements", EStr "split");
                  ( Some "projection",
                    ECall (EAttribute (EName "ccrs") "Orthographic") [] [] );
                  (Some "title", EStr "zoom=4") ]))
            "cols")
          [EInt 1]
          []) ].

(* lines 464-466, prose *)
Definition cell_11 : cell :=
  Markdown
    [ "#### Remapping";
      "";
      "Below is a simple example of remapping UGRID data residing on a ``CSne30`` grid to a HEALPix grid with a zoom level of 5." ].

(* lines 476-487:
     source_uxds = ux.open_dataset(
         "../../test/meshfiles/ugrid/outCSne30/outCSne30.ug",
         "../../test/meshfiles/ugrid/outCSne30/outCSne30_vortex.nc",
     )

     # source data & grid
     source_uxds["psi"].plot(
         cmap="inferno", projection=ccrs.Orthographic(), title="Source Data"
     )

     # destination grid
     hp_grid = ux.Grid.from_healpix(zoom=5)
*)
Definition cell_12 : cell :=
  Code
    [ SAssign
        [EName "source_uxds"]
        (ECall
          (EAttribute (EName "ux") "open_dataset")
          [ EStr "../../test/meshfiles/ugrid/outCSne30/outCSne30.ug";
            EStr "../../test/meshfiles/ugrid/outCSne30/outCSne30_vortex.nc" ]
          []);
      SExpr
        (ECall
          (EAttribute (ESubscript (EName "source_uxds") (EStr "psi")) "plot")
          []
          [ (Some "cmap", EStr "inferno");
            ( Some "projection",
              ECall (EAttribute (EName "ccrs") "Orthographic") [] [] );
            (Some "title", EStr "Source Data") ]);
      SAssign
        [EName "hp_grid"]
        (ECall
          (EAttribute (EAttribute (EName "ux") "Grid") "from_healpix")
          []
          [(Some "zoom", EInt 5)]) ].

(* lines 494-494, prose *)
Definition cell_13 : cell :=
  Markdown ["Before remapping, we can plot our Source and Destination grids."].

(* lines 503-505:
     source_uxds.uxgrid.plot(
         projection=ccrs.Orthographic(), title="Source Grid (CSne30)"
     ) + hp_grid.plot(projection=ccrs.Orthographic(), title="Destination Grid (HEALPix)")
*)
Definition cell_14 : cell :=
  Code
    [ SExpr
        (EBinOp
          (ECall
            (EAttribute (EAttribute (EName "source_uxds") "uxgrid") "plot")
            []
            [ ( Some "projection",
                ECall (EAttribute (EName "ccrs") "Orthographic") [] [] );
              (Some "title", EStr "Source Grid (CSne30)") ])
          Add
          (ECall
            (EAttribute (EName "hp_grid") "plot")
            []
            [ ( Some "projection",
                ECall (EAttribute (EName "ccrs") "Orthographic") [] [] );
              (Some "title", EStr "Destination Grid (HEALPix)") ])) ].

(* lines 512-512, prose *)
Definition cell_15 : cell :=
  Markdown
    [ "We can now perform our remapping. In this case, we apply a simple nearest neighbor remapping." ].

(* lines 521-522:
     psi_hp = source_uxds["psi"].remap.nearest_neighbor(destination_grid=hp_grid)
     psi_hp
*)
Definition cell_16 : cell :=
  Code
    [ SAssign
        [EName "psi_hp"]
        (ECall
          (EAttribute
            (EAttribute
              (ESubscript (EName "source_uxds") (EStr "psi"))
              "remap")
            "nearest_neighbor")
          []
          [(Some "destination_grid", EName "hp_grid")]);
      SExpr (EName "psi_hp") ].

(* lines 529-529, prose *)
Definition cell_17 : cell :=
  Markdown ["Our original data variable now resides on our HEALPix grid."].

(* lines 538-538:
     psi_hp.plot(cmap="inferno", projection=ccrs.Orthographic(), title="Remapped Data")
*)
Definition cell_18 : cell :=
  Code
    [ SExpr
        (ECall
          (EAttribute (EName "psi_hp") "plot")
          []
          [ (Some "cmap", EStr "inferno");
            ( Some "projection",
              ECall (EAttribute (EName "ccrs") "Orthographic") [] [] );
            (Some "title", EStr "Remapped Data") ]) ].

(* lines 546-549, prose *)
Definition cell_19 : cell :=
  Markdown
    [ "We can now chain together a few functions to convert our output from a UXarray Dataset to a NetCDF file, with the grid represented in the HEALPix format.";
      "- `to_dataset()`: Converts the ``ux.UxDataArray`` to a ``ux.UxDataset``";
      ("- `to_xarray(grid_format=" ++ dq ++ "HEALPix" ++ dq ++ ")`: Converts our ``ux.UxDataset`` to a ``xr.Dataset`` encoded in the HEALPix format.")%string;
      ("- `to_netcdf(" ++ dq ++ "psi_healpix.nc" ++ dq ++ ")`: Saves our dataset to disk as a NetCDF file.")%string ].

(* lines 559-559:
     psi_hp.to_dataset().to_xarray(grid_format="HEALPix").to_netcdf("psi_healpix.nc")
*)
Definition cell_20 : cell :=
  Code
    [ SExpr
        (ECall
          (EAttribute
            (ECall
              (EAttribute
                (ECall (EAttribute (EName "psi_hp") "to_dataset") [] [])
                "to_xarray")
              []
              [(Some "grid_format", EStr "HEALPix")])
            "to_netcdf")
          [EStr "psi_healpix.nc"]
          []) ].

(* lines 567-578, prose *)
Definition cell_21 : cell :=
  Markdown
    [ "## Loading HEALPix Data";
      "";
      "";
      "In the remapping example above, we successfully remapped a data variable onto a HEALPix grid and saved it as a NetCDF file.";
      "";
      "UXarray extends Xarray's ``Dataset`` and ``DataArray`` classes to provide grid-aware implementations.";
      "";
      "";
      "";
      "";
      "";
      "Using the example we generated above, we can load in data that is stored in the HEALPix format using the ``UxDataset.from_healpix()`` classmethod." ].

(* lines 588-589:
     uxds = ux.UxDataset.from_healpix("psi_healpix.nc")
     uxds
*)
Definition cell_22 : cell :=
  Code
    [ SAssign
        [EName "uxds"]
        (ECall
          (EAttribute (EAttribute (EName "ux") "UxDataset") "from_healpix")
          [EStr "psi_healpix.nc"]
          []);
      SExpr (EName "uxds") ].

(* lines 596-596, prose *)
Definition cell_23 : cell :=
  Markdown
    [ "The interface above looks almost identical to what you would see if you loaded in the file directly with Xarray." ].

(* lines 605-607:
     import xarray as xr

     xr.open_dataset("psi_healpix.nc")
*)
Definition cell_24 : cell :=
  Code
    [ SImport [{| name := "xarray"; asname := Some "xr" |}];
      SExpr
        (ECall
          (EAttribute (EName "xr") "open_dataset")
          [EStr "psi_healpix.nc"]
          []) ].

(* lines 615-622, prose *)
Definition cell_25 : cell :=
  Markdown
    [ "However, there are a few noticeable differences and additions that streamline UXarray's implementation and provide more context on what grid the data resides on:";
      ("1. The " ++ dq ++ "Show Grid Information" ++ dq ++ " tab provides information on the underlying ``Grid`` object that is attached via the ``.uxgrid`` attribute")%string;
      "2. The ``zoom`` for HEALPix grids is automatically determined from the ``cells`` dimension, with an appropriate ``Grid`` constructed from that";
      "3The dimensions are renamed to match the UGRID conventions, with ``cells`` being renamed to ``n_face`` for the case of HEALPix grids";
      "";
      "We can then directly access our ``Grid`` using the ``.uxgrid`` attribute, allowing for grid-specific functionallity as described in the sections above.";
      "";
      "";
      "" ].

(* lines 632-632:
     uxds.uxgrid
*)
Definition cell_26 : cell :=
  Code [SExpr (EAttribute (EName "uxds") "uxgrid")].

(* lines 640-642, prose *)
Definition cell_27 : cell :=
  Markdown
    [ "## Future Work";
      "";
      "Support for the HEALPix format is still in its early stages. We welcome your suggestions and contributions! To get started, please check out our [Contributors Guide](https://uxarray.readthedocs.io/en/stable/contributing.html).";
      "" ].

Definition nb : notebook :=
  {| file := "src/unnamed/part_000";
     first_line := 301;
     cells := [cell_00; cell_01; cell_02; cell_03; cell_04; cell_05; cell_06;
       cell_07; cell_08; cell_09; cell_10; cell_11; cell_12; cell_13; cell_14;
       cell_15; cell_16; cell_17; cell_18; cell_19; cell_20; cell_21; cell_22;
       cell_23; cell_24; cell_25; cell_26; cell_27] |}.

End Healpix.

(** *** Remapping  (src/unnamed/part_001, from line 1) *)

Module Remapping.

(* lines 8-8, prose *)
Definition cell_00 : cell :=
  Markdown ["# Remapping"].

(* lines 16-19, prose *)
Definition cell_01 : cell :=
  Markdown
    [ "Remapping, or commonly referred to as Regridding, is the process of taking data that resides on one grid and mapping it to another. Details on various remapping methods can be found [here](https://climatedataguide.ucar.edu/climate-tools/regridding-overview). This user guide section will cover the two native remapping methods that are supported by UXarray:";
      "";
      "* Nearest Neighbor";
      "* Inverse Distance Weighted" ].

(* lines 29-44:
     import os
     import urllib.request
     import warnings
     from pathlib import Path

     import cartopy.crs as ccrs
     import geoviews.feature as gf
     import holoviews as hv

     import uxarray as ux

     warnings.filterwarnings("ignore")

     hv.extension("bokeh")

     features = gf.coastline(projection=ccrs.PlateCarree(), scale="50m")
*)
Definition cell_02 : cell :=
  Code
    [ SImport [{| name := "os"; asname := None |}];
      SImport [{| name := "urllib.request"; asname := None |}];
      SImport [{| name := "warnings"; asname := None |}];
      SImportFrom "pathlib" [{| name := "Path"; asname := None |}];
      SImport [{| name := "cartopy.crs"; asname := Some "ccrs" |}];
      SImport [{| name := "geoviews.feature"; asname := Some "gf" |}];
      SImport [{| name := "holoviews"; asname := Some "hv" |}];
      SImport [{| name := "uxarray"; asname := Some "ux" |}];
      SExpr
        (ECall
          (EAttribute (EName "warnings") "filterwarnings")
          [EStr "ignore"]
          []);
      SExpr (ECall (EAttribute (EName "hv") "extension") [EStr "bokeh"] []);
      SAssign
        [EName "features"]
        (ECall
          (EAttribute (EName "gf") "coastline")
          []
          [ ( Some "projection",
              ECall (EAttribute (EName "ccrs") "PlateCarree") [] [] );
            (Some "scale", EStr "50m") ]) ].

(* lines 52-52, prose *)
Definition cell_03 : cell :=
  Markdown ["### Simple Remapping Example"].

(* lines 60-60, prose *)
Definition cell_04 : cell :=
  Markdown
    [ "Provided below is an example of remapping using a simple grid. A has data, B does not. We will remap to B from A." ].

(* lines 70-83:
     grid_path = "../../test/meshfiles/ugrid/quad-hexagon/grid.nc"
     data_path = "../../test/meshfiles/ugrid/quad-hexagon/data.nc"
     destination_grid = "../../test/meshfiles/ugrid/quad-hexagon/triangulated-grid.nc"
     grid = ux.open_grid(destination_grid)
     uxds = ux.open_dataset(grid_path, data_path)
     (
         uxds["t2m"].plot(
             colorbar=False,
             cmap=ux.cmaps.sequential_green_blue,
             title="Mesh with Data",
         )
         * uxds.uxgrid.plot.edges(color="black")
         + grid.plot(colorbar=False, title="Mesh without Data", color="black")
     ).cols(1)
*)
Definition cell_05 : cell :=
  Code
    [ SAssign
        [EName "grid_path"]
        (EStr "../../test/meshfiles/ugrid/quad-hexagon/grid.nc");
      SAssign
        [EName "data_path"]
        (EStr "../../test/meshfiles/ugrid/quad-hexagon/data.nc");
      SAssign
        [EName "destination_grid"]
        (EStr "../../test/meshfiles/ugrid/quad-hexagon/triangulated-grid.nc");
      SAssign
        [EName "grid"]
        (ECall
          (EAttribute (EName "ux") "open_grid")
          [EName "destination_grid"]
          []);
      SAssign
        [EName "uxds"]
        (ECall
          (EAttribute (EName "ux") "open_dataset")
          [EName "grid_path"; EName "data_path"]
          []);
      SExpr
        (ECall
          (EAttribute
            (EBinOp
              (EBinOp
                (ECall
                  (EAttribute (ESubscript (EName "uxds") (EStr "t2m")) "plot")
                  []
                  [ (Some "colorbar", EBool false);
                    ( Some "cmap",
                      EAttribute
                        (EAttribute (EName "ux") "cmaps")
                        "sequential_green_blue" );
                    (Some "title", EStr "Mesh with Data") ])
                Mult
                (ECall
                  (EAttribute
                    (EAttribute (EAttribute (EName "uxds") "uxgrid") "plot")
                    "edges")
                  []
                  [(Some "color", EStr "black")]))
              Add
              (ECall
                (EAttribute (EName "grid") "plot")
                []
                [ (Some "colorbar", EBool false);
                  (Some "title", EStr "Mesh without Data");
                  (Some "color", EStr "black") ]))
            "cols")
          [EInt 1]
          []) ].

(* lines 93-95:
     remapped_grid = uxds["t2m"].remap.inverse_distance_weighted(
         grid, k=3, remap_to="face centers"
     )
*)
Definition cell_06 : cell :=
  Code
    [ SAssign
        [EName "remapped_grid"]
        (ECall
          (EAttribute
            (EAttribute (ESubscript (EName "uxds") (EStr "t2m")) "remap")
            "inverse_distance_weighted")
          [EName "grid"]
          [(Some "k", EInt 3); (Some "remap_to", EStr "face centers")]) ].

(* lines 105-109:
     remapped_grid.plot(
         colorbar=True,
         cmap=ux.cmaps.sequential_green_blue,
         title="Mesh With Remapped Data",
     ) * remapped_grid.uxgrid.plot.mesh(color="black")
*)
Definition cell_07 : cell :=
  Code
    [ SExpr
        (EBinOp
          (ECall
            (EAttribute (EName "remapped_grid") "plot")
            []
            [ (Some "colorbar", EBool true);
              ( Some "cmap",
                EAttribute
                  (EAttribute (EName "ux") "cmaps")
                  "sequential_green_blue" );
              (Some "title", EStr "Mesh With Remapped Data") ])
          Mult
          (ECall
            (EAttribute
              (EAttribute
                (EAttribute (EName "remapped_grid") "uxgrid")
                "plot")
              "mesh")
            []
            [(Some "color", EStr "black")])) ].

(* lines 117-117, prose *)
Definition cell_08 : cell :=
  Markdown ["### Data"].

(* lines 125-125, prose *)
Definition cell_09 : cell :=
  Markdown
    [ "In this notebook, we are using two datasets with different resolutions (480km and 120km) from the MPAS Ocean Model. We will be remapping the bottomDepth variable, which measures the ocean depth." ].

(* lines 135-157:
     hv.extension("matplotlib")

     data_var = "bottomDepth"

     grid_filename_480 = "oQU480.grid.nc"
     data_filename_480 = "oQU480.data.nc"

     grid_filename_120 = "oQU120.grid.nc"
     data_filename_120 = "oQU120.data.nc"

     filenames = [grid_filename_480, data_filename_480, grid_filename_120, data_filename_120]

     for filename in filenames:
         if not os.path.isfile(filename):
             # downloads the files from Cookbook repo, if they haven't been downloaded locally yet
             url = f"https://github.com/ProjectPythia/unstructured-grid-viz-cookbook/raw/main/meshfiles/{filename}"
             _, headers = urllib.request.urlretrieve(url, filename=filename)


     file_path_dict = {
         "480km": [grid_filename_480, data_filename_480],
         "120km": [grid_filename_120, data_filename_120],
     }
*)
Definition cell_10 : cell :=
  Code
    [ SExpr
        (ECall (EAttribute (EName "hv") "extension") [EStr "matplotlib"] []);
      SAssign [EName "data_var"] (EStr "bottomDepth");
      SAssign [EName "grid_filename_480"] (EStr "oQU480.grid.nc");
      SAssign [EName "data_filename_480"] (EStr "oQU480.data.nc");
      SAssign [EName "grid_filename_120"] (EStr "oQU120.grid.nc");
      SAssign [EName "data_filename_120"] (EStr "oQU120.data.nc");
      SAssign
        [EName "filenames"]
        (EList
          [ EName "grid_filename_480";
            EName "data_filename_480";
            EName "grid_filename_120";
            EName "data_filename_120" ]);
      SFor false
        (EName "filename")
        (EName "filenames")
        [ SIf
            (EUnaryOp UNot
              (ECall
                (EAttribute (EAttribute (EName "os") "path") "isfile")
                [EName "filename"]
                []))
            [ SAssign
                [EName "url"]
                (EJoinedStr
                  [ EStr
                      "https://github.com/ProjectPythia/unstructured-grid-viz-cookbook/raw/main/meshfiles/";
                    EFormattedValue (EName "filename") ]);
              SAssign
                [ETuple [EName "_"; EName "headers"]]
                (ECall
                  (EAttribute
                    (EAttribute (EName "urllib") "request")
                    "urlretrieve")
                  [EName "url"]
                  [(Some "filename", EName "filename")]) ]
            [] ]
        [];
      SAssign
        [EName "file_path_dict"]
        (EDict
          [ ( Some (EStr "480km"),
              EList [EName "grid_filename_480"; EName "data_filename_480"] );
            ( Some (EStr "120km"),
              EList [EName "grid_filename_120"; EName "data_filename_120"] ) ]) ].

(* lines 167-168:
     uxds_480 = ux.open_dataset( *file_path_dict["480km"])
     uxds_120 = ux.open_dataset( *file_path_dict["120km"])
*)
Definition cell_11 : cell :=
  Code
    [ SAssign
        [EName "uxds_480"]
        (ECall
          (EAttribute (EName "ux") "open_dataset")
          [EStarred (ESubscript (EName "file_path_dict") (EStr "480km"))]
          []);
      SAssign
        [EName "uxds_120"]
        (ECall
          (EAttribute (EName "ux") "open_dataset")
          [EStarred (ESubscript (EName "file_path_dict") (EStr "120km"))]
          []) ].

(* lines 178-189:
     (
         uxds_480["bottomDepth"].plot(
             title="Bottom Depth (480km)",
             cmap=ux.cmaps.sequential_blue,
         )
         * features
         + uxds_120["bottomDepth"].plot(
             title="Bottom Depth (120km)",
             cmap=ux.cmaps.sequential_blue,
         )
         * features
     ).cols(1).opts(fig_size=125)
*)
Definition cell_12 : cell :=
  Code
    [ SExpr
        (ECall
          (EAttribute
            (ECall
              (EAttribute
                (EBinOp
                  (EBinOp
                    (ECall
                      (EAttribute
                        (ESubscript (EName "uxds_480") (EStr "bottomDepth"))
                        "plot")
                      []
                      [ (Some "title", EStr "Bottom Depth (480km)");
                        ( Some "cmap",
                          EAttribute
                            (EAttribute (EName "ux") "cmaps")
                            "sequential_blue" ) ])
                    Mult
                    (EName "features"))
                  Add
                  (EBinOp
                    (ECall
                      (EAttribute
                        (ESubscript (EName "uxds_120") (EStr "bottomDepth"))
                        "plot")
                      []
                      [ (Some "title", EStr "Bottom Depth (120km)");
                        ( Some "cmap",
                          EAttribute
                            (EAttribute (EName "ux") "cmaps")
                            "sequential_blue" ) ])
                    Mult
                    (EName "features")))
                "cols")
              [EInt 1]
              [])
            "opts")
          []
          [(Some "fig_size", EInt 125)]) ].

(* lines 197-197, prose *)
Definition cell_13 : cell :=
  Markdown
    [ "We can view the supported remapping methods by accessing the `.remap` attribute that is part of a `UxDataArray`" ].

(* lines 207-207:
     uxds_120["bottomDepth"].remap
*)
Definition cell_14 : cell :=
  Code
    [ SExpr
        (EAttribute
          (ESubscript (EName "uxds_120") (EStr "bottomDepth"))
          "remap") ].

(* lines 215-215, prose *)
Definition cell_15 : cell :=
  Markdown ["### Nearest Neighbor"].

(* lines 223-223, prose *)
Definition cell_16 : cell :=
  Markdown
    [ "Nearest Neighbor Remapping is a point-based method that uses the nearest neighbor from the source grid when assigning data to the destination grid. It is a distance-based approach that uses `kd_tree` or `ball_tree` to determine the distance between points. We can use the `UxDataArray.remap.nearest_neighbor()` method, which takes in the following parameters:" ].

(* lines 231-234, prose *)
Definition cell_17 : cell :=
  Markdown
    [ "* `destination_grid` is the grid object that is being remapped to.";
      "* `destination_obj` is being deprecated and soon will no longer be used, it allows remapping to data arrays, grids, and datasets.";
      "* `remap_to` specifies the location of the remapping, either to `nodes`, `face centers`, or `edge centers`.";
      "* `coord_type` refers to what coordinate system to use, either `spherical` or `cartesian`." ].

(* lines 242-242, prose *)
Definition cell_18 : cell :=
  Markdown ["#### Upsampling"].

(* lines 250-250, prose *)
Definition cell_19 : cell :=
  Markdown
    [ "We can remap from the 480km grid to the 120km one, which would perform an upsampling operation. Our `destination_obj` will be our 120km mesh, and we will make sure to specify to do the remap to `face centers`. View the plots below to see a comparison of the original 120km mesh compared to the remapped one." ].

(* lines 260-262:
     upsampling = uxds_480["bottomDepth"].remap.nearest_neighbor(
         uxds_120.uxgrid, remap_to="face centers"
     )
*)
Definition cell_20 : cell :=
  Code
    [ SAssign
        [EName "upsampling"]
        (ECall
          (EAttribute
            (EAttribute
              (ESubscript (EName "uxds_480") (EStr "bottomDepth"))
              "remap")
            "nearest_neighbor")
          [EAttribute (EName "uxds_120") "uxgrid"]
          [(Some "remap_to", EStr "face centers")]) ].

(* lines 272-296:
     (
         uxds_480["bottomDepth"].plot(
             title="Bottom Depth (480km)", cmap=ux.cmaps.sequential_blue
         )
         * features
         + upsampling.plot(
             title="Remapped Bottom Depth (480km to 120km)",
             cmap=ux.cmaps.sequential_blue,
         )
         * features
         + uxds_480["bottomDepth"].plot(
             title="Zoomed (480km)",
             xlim=(-10, 10),
             ylim=(-5, 5),
             cmap=ux.cmaps.sequential_blue,
         )
         * features
         + upsampling.plot(
             title="Zoomed Remap (480km to 120km)",
             xlim=(-10, 10),
             ylim=(-5, 5),
             cmap=ux.cmaps.sequential_blue,
         )
         * features
     ).cols(1).opts(fig_size=125)
*)
Definition cell_21 : cell :=
  Code
    [ SExpr
        (ECall
          (EAttribute
            (ECall
              (EAttribute
                (EBinOp
                  (EBinOp
                    (EBinOp
                      (EBinOp
                        (ECall
                          (EAttribute
                            (ESubscript
                              (EName "uxds_480")
                              (EStr "bottomDepth"))
                            "plot")
                          []
                          [ (Some "title", EStr "Bottom Depth (480km)");
                            ( Some "cmap",
                              EAttribute
                                (EAttribute (EName "ux") "cmaps")
                                "sequential_blue" ) ])
                        Mult
                        (EName "features"))
                      Add
                      (EBinOp
                        (ECall
                          (EAttribute (EName "upsampling") "plot")
                          []
                          [ ( Some "title",
                              EStr "Remapped Bottom Depth (480km to 120km)" );
                            ( Some "cmap",
                              EAttribute
                                (EAttribute (EName "ux") "cmaps")
                                "sequential_blue" ) ])
                        Mult
                        (EName "features")))
                    Add
                    (EBinOp
                      (ECall
                        (EAttribute
                          (ESubscript (EName "uxds_480") (EStr "bottomDepth"))
                          "plot")
                        []
                        [ (Some "title", EStr "Zoomed (480km)");
                          ( Some "xlim",
                            ETuple [EUnaryOp USub (EInt 10); EInt 10] );
                          ( Some "ylim",
                            ETuple [EUnaryOp USub (EInt 5); EInt 5] );
                          ( Some "cmap",
                            EAttribute
                              (EAttribute (EName "ux") "cmaps")
                              "sequential_blue" ) ])
                      Mult
                      (EName "features")))
                  Add
                  (EBinOp
                    (ECall
                      (EAttribute (EName "upsampling") "plot")
                      []
                      [ (Some "title", EStr "Zoomed Remap (480km to 120km)");
                        ( Some "xlim",
                          ETuple [EUnaryOp USub (EInt 10); EInt 10] );
                        (Some "ylim", ETuple [EUnaryOp USub (EInt 5); EInt 5]);
                        ( Some "cmap",
                          EAttribute
                            (EAttribute (EName "ux") "cmaps")
                            "sequential_blue" ) ])
                    Mult
                    (EName "features")))
                "cols")
              [EInt 1]
              [])
            "opts")
          []
          [(Some "fig_size", EInt 125)]) ].

(* lines 304-304, prose *)
Definition cell_22 : cell :=
  Markdown
    [ "As we can see, the nearest neighbor remap has successfully upsampled, going from a lower resolution to a higher resolution. Of course, since all the data is coming from the lower-resolution grid, it should be noted that no new information is being added, we are simply remapping data from a lower-resolution grid to a higher one. This can be observed in the result since multiple data points from the source grid are repeated in the destination grid." ].

(* lines 312-312, prose *)
Definition cell_23 : cell :=
  Markdown ["#### Downsampling"].

(* lines 320-320, prose *)
Definition cell_24 : cell :=
  Markdown
    [ "Now we can do the reverse, which is downsampling. We we go from a higher resolution (120km) to a lower one (480km). Once again comparision plots are found below, with a zoomed in version provided." ].

(* lines 330-332:
     downsampling = uxds_120["bottomDepth"].remap.nearest_neighbor(
         uxds_480.uxgrid, remap_to="face centers"
     )
*)
Definition cell_25 : cell :=
  Code
    [ SAssign
        [EName "downsampling"]
        (ECall
          (EAttribute
            (EAttribute
              (ESubscript (EName "uxds_120") (EStr "bottomDepth"))
              "remap")
            "nearest_neighbor")
          [EAttribute (EName "uxds_480") "uxgrid"]
          [(Some "remap_to", EStr "face centers")]) ].

(* lines 342-366:
     (
         uxds_120["bottomDepth"].plot(
             title="Bottom Depth (120km)", cmap=ux.cmaps.sequential_blue
         )
         * features
         + downsampling.plot(
             title="Remapped Bottom Depth (120km to 480km)",
             cmap=ux.cmaps.sequential_blue,
         )
         * features
         + uxds_120["bottomDepth"].plot(
             title="Zoomed (120km)",
             xlim=(-10, 10),
             ylim=(-5, 5),
             cmap=ux.cmaps.sequential_blue,
         )
         * features
         + downsampling.plot(
             title="Zoomed Remap (120km to 480km)",
             xlim=(-10, 10),
             ylim=(-5, 5),
             cmap=ux.cmaps.sequential_blue,
         )
         * features
     ).cols(1).opts(fig_size=125)
*)
Definition cell_26 : cell :=
  Code
    [ SExpr
        (ECall
          (EAttribute
            (ECall
              (EAttribute
                (EBinOp
                  (EBinOp
                    (EBinOp
                      (EBinOp
                        (ECall
                          (EAttribute
                            (ESubscript
                              (EName "uxds_120")
                              (EStr "bottomDepth"))
                            "plot")
                          []
                          [ (Some "title", EStr "Bottom Depth (120km)");
                            ( Some "cmap",
                              EAttribute
                                (EAttribute (EName "ux") "cmaps")
                                "sequential_blue" ) ])
                        Mult
                        (EName "features"))
                      Add
                      (EBinOp
                        (ECall
                          (EAttribute (EName "downsampling") "plot")
                          []
                          [ ( Some "title",
                              EStr "Remapped Bottom Depth (120km to 480km)" );
                            ( Some "cmap",
                              EAttribute
                                (EAttribute (EName "ux") "cmaps")
                                "sequential_blue" ) ])
                        Mult
                        (EName "features")))
                    Add
                    (EBinOp
                      (ECall
                        (EAttribute
                          (ESubscript (EName "uxds_120") (EStr "bottomDepth"))
                          "plot")
                        []
                        [ (Some "title", EStr "Zoomed (120km)");
                          ( Some "xlim",
                            ETuple [EUnaryOp USub (EInt 10); EInt 10] );
                          ( Some "ylim",
                            ETuple [EUnaryOp USub (EInt 5); EInt 5] );
                          ( Some "cmap",
                            EAttribute
                              (EAttribute (EName "ux") "cmaps")
                              "sequential_blue" ) ])
                      Mult
                      (EName "features")))
                  Add
                  (EBinOp
                    (ECall
                      (EAttribute (EName "downsampling") "plot")
                      []
                      [ (Some "title", EStr "Zoomed Remap (120km to 480km)");
                        ( Some "xlim",
                          ETuple [EUnaryOp USub (EInt 10); EInt 10] );
                        (Some "ylim", ETuple [EUnaryOp USub (EInt 5); EInt 5]);
                        ( Some "cmap",
                          EAttribute
                            (EAttribute (EName "ux") "cmaps")
                            "sequential_blue" ) ])
                    Mult
                    (EName "features")))
                "cols")
              [EInt 1]
              [])
            "opts")
          []
          [(Some "fig_size", EInt 125)]) ].

(* lines 374-374, prose *)
Definition cell_27 : cell :=
  Markdown
    [ "As you can see, the two datasets here don't look as similar as with the upsampling one. This is an important note, when you are downsampling, there will always be a loss of information. This is because there are many more data points in the source grid than in the destination grid." ].

(* lines 382-382, prose *)
Definition cell_28 : cell :=
  Markdown ["### Inverse Distance Weighted"].

(* lines 390-390, prose *)
Definition cell_29 : cell :=
  Markdown
    [ "Inverse distance weighted remapping assigns a value based on the weighted average of a specified number of nearby points. This gives a more smooth remapping than the nearest neighbor and helps decrease the chance of outliers. Unlike the nearest neighbor remapping, it constructs new values based on the values around it. " ].

(* lines 398-401, prose *)
Definition cell_30 : cell :=
  Markdown
    [ "For inverse distance weighted remapping the parameters are the same as nearest neighbor with the addition of two extra parameters we can use to change the remapping parameters.";
      "";
      "* `power` controls how local or global the remapping is, the larger this value the less influence points that are further away have.";
      "* `k` is the number of neighbors to use in the weighted average." ].

(* lines 409-409, prose *)
Definition cell_31 : cell :=
  Markdown
    [ "Using the same examples as before, we can see the differences between nearest neighbor and inverse distance weighted remapping." ].

(* lines 417-417, prose *)
Definition cell_32 : cell :=
  Markdown ["#### Upsampling"].

(* lines 425-425, prose *)
Definition cell_33 : cell :=
  Markdown
    [ "We will upsample from the 480km grid to 120km grid again. This time we will see that the results are a lot smoother, and that the 120km looks a lot more like it's original dataset compared to when the nearest neighbor remap was used." ].

(* lines 435-437:
     upsampling_idw = uxds_480["bottomDepth"].remap.inverse_distance_weighted(
         uxds_120.uxgrid, remap_to="face centers"
     )
*)
Definition cell_34 : cell :=
  Code
    [ SAssign
        [EName "upsampling_idw"]
        (ECall
          (EAttribute
            (EAttribute
              (ESubscript (EName "uxds_480") (EStr "bottomDepth"))
              "remap")
            "inverse_distance_weighted")
          [EAttribute (EName "uxds_120") "uxgrid"]
          [(Some "remap_to", EStr "face centers")]) ].

(* lines 447-471:
     (
         uxds_480["bottomDepth"].plot(
             title="Bottom Depth (480km)", cmap=ux.cmaps.sequential_blue
         )
         * features
         + upsampling_idw.plot(
             title="Remapped Bottom Depth (480km to 120km)",
             cmap=ux.cmaps.sequential_blue,
         )
         * features
         + uxds_480["bottomDepth"].plot(
             title="Zoomed (480km)",
             xlim=(-10, 10),
             ylim=(-5, 5),
             cmap=ux.cmaps.sequential_blue,
         )
         * features
         + upsampling_idw.plot(
             title="Zoomed Remap (480km to 120km)",
             xlim=(-10, 10),
             ylim=(-5, 5),
             cmap=ux.cmaps.sequential_blue,
         )
         * features
     ).cols(1).opts(fig_size=125)
*)
Definition cell_35 : cell :=
  Code
    [ SExpr
        (ECall
          (EAttribute
            (ECall
              (EAttribute
                (EBinOp
                  (EBinOp
                    (EBinOp
                      (EBinOp
                        (ECall
                          (EAttribute
                            (ESubscript
                              (EName "uxds_480")
                              (EStr "bottomDepth"))
                            "plot")
                          []
                          [ (Some "title", EStr "Bottom Depth (480km)");
                            ( Some "cmap",
                              EAttribute
                                (EAttribute (EName "ux") "cmaps")
                                "sequential_blue" ) ])
                        Mult
                        (EName "features"))
                      Add
                      (EBinOp
                        (ECall
                          (EAttribute (EName "upsampling_idw") "plot")
                          []
                          [ ( Some "title",
                              EStr "Remapped Bottom Depth (480km to 120km)" );
                            ( Some "cmap",
                              EAttribute
                                (EAttribute (EName "ux") "cmaps")
                                "sequential_blue" ) ])
                        Mult
                        (EName "features")))
                    Add
                    (EBinOp
                      (ECall
                        (EAttribute
                          (ESubscript (EName "uxds_480") (EStr "bottomDepth"))
                          "plot")
                        []
                        [ (Some "title", EStr "Zoomed (480km)");
                          ( Some "xlim",
                            ETuple [EUnaryOp USub (EInt 10); EInt 10] );
                          ( Some "ylim",
                            ETuple [EUnaryOp USub (EInt 5); EInt 5] );
                          ( Some "cmap",
                            EAttribute
                              (EAttribute (EName "ux") "cmaps")
                              "sequential_blue" ) ])
                      Mult
                      (EName "features")))
                  Add
                  (EBinOp
                    (ECall
                      (EAttribute (EName "upsampling_idw") "plot")
                      []
                      [ (Some "title", EStr "Zoomed Remap (480km to 120km)");
                        ( Some "xlim",
                          ETuple [EUnaryOp USub (EInt 10); EInt 10] );
                        (Some "ylim", ETuple [EUnaryOp USub (EInt 5); EInt 5]);
                        ( Some "cmap",
                          EAttribute
                            (EAttribute (EName "ux") "cmaps")
                            "sequential_blue" ) ])
                    Mult
                    (EName "features")))
                "cols")
              [EInt 1]
              [])
            "opts")
          []
          [(Some "fig_size", EInt 125)]) ].

(* lines 479-479, prose *)
Definition cell_36 : cell :=
  Markdown ["#### Downsampling"].

(* lines 487-487, prose *)
Definition cell_37 : cell :=
  Markdown
    [ "Here we can see an example of downsampling with inverse distance weighted. It has less of a noticable difference compared to the nearest neighbor, however this may be due to the `k` number and the default `power` value used in the calculation. Depending on your graph and the scale difference, you may need to use different `k` and `power` values to achieve a smoother result. That will be discussed in the next secition." ].

(* lines 497-499:
     downsampling_idw = uxds_120["bottomDepth"].remap.inverse_distance_weighted(
         uxds_480.uxgrid, remap_to="face centers"
     )
*)
Definition cell_38 : cell :=
  Code
    [ SAssign
        [EName "downsampling_idw"]
        (ECall
          (EAttribute
            (EAttribute
              (ESubscript (EName "uxds_120") (EStr "bottomDepth"))
              "remap")
            "inverse_distance_weighted")
          [EAttribute (EName "uxds_480") "uxgrid"]
          [(Some "remap_to", EStr "face centers")]) ].

(* lines 509-533:
     (
         uxds_120["bottomDepth"].plot(
             title="Bottom Depth (120km)", cmap=ux.cmaps.sequential_blue
         )
         * features
         + downsampling_idw.plot(
             title="Remapped Bottom Depth (120km to 480km)",
             cmap=ux.cmaps.sequential_blue,
         )
         * features
         + uxds_120["bottomDepth"].plot(
             title="Zoomed (120km)",
             xlim=(-10, 10),
             ylim=(-5, 5),
             cmap=ux.cmaps.sequential_blue,
         )
         * features
         + downsampling_idw.plot(
             title="Zoomed Remap (120km to 480km)",
             xlim=(-10, 10),
             ylim=(-5, 5),
             cmap=ux.cmaps.sequential_blue,
         )
         * features
     ).cols(1).opts(fig_size=125)
*)
Definition cell_39 : cell :=
  Code
    [ SExpr
        (ECall
          (EAttribute
            (ECall
              (EAttribute
                (EBinOp
                  (EBinOp
                    (EBinOp
                      (EBinOp
                        (ECall
                          (EAttribute
                            (ESubscript
                              (EName "uxds_120")
                              (EStr "bottomDepth"))
                            "plot")
                          []
                          [ (Some "title", EStr "Bottom Depth (120km)");
                            ( Some "cmap",
                              EAttribute
                                (EAttribute (EName "ux") "cmaps")
                                "sequential_blue" ) ])
                        Mult
                        (EName "features"))
                      Add
                      (EBinOp
                        (ECall
                          (EAttribute (EName "downsampling_idw") "plot")
                          []
                          [ ( Some "title",
                              EStr "Remapped Bottom Depth (120km to 480km)" );
                            ( Some "cmap",
                              EAttribute
                                (EAttribute (EName "ux") "cmaps")
                                "sequential_blue" ) ])
                        Mult
                        (EName "features")))
                    Add
                    (EBinOp
                      (ECall
                        (EAttribute
                          (ESubscript (EName "uxds_120") (EStr "bottomDepth"))
                          "plot")
                        []
                        [ (Some "title", EStr "Zoomed (120km)");
                          ( Some "xlim",
                            ETuple [EUnaryOp USub (EInt 10); EInt 10] );
                          ( Some "ylim",
                            ETuple [EUnaryOp USub (EInt 5); EInt 5] );
                          ( Some "cmap",
                            EAttribute
                              (EAttribute (EName "ux") "cmaps")
                              "sequential_blue" ) ])
                      Mult
                      (EName "features")))
                  Add
                  (EBinOp
                    (ECall
                      (EAttribute (EName "downsampling_idw") "plot")
                      []
                      [ (Some "title", EStr "Zoomed Remap (120km to 480km)");
                        ( Some "xlim",
                          ETuple [EUnaryOp USub (EInt 10); EInt 10] );
                        (Some "ylim", ETuple [EUnaryOp USub (EInt 5); EInt 5]);
                        ( Some "cmap",
                          EAttribute
                            (EAttribute (EName "ux") "cmaps")
                            "sequential_blue" ) ])
                    Mult
                    (EName "features")))
                "cols")
              [EInt 1]
              [])
            "opts")
          []
          [(Some "fig_size", EInt 125)]) ].

(* lines 541-541, prose *)
Definition cell_40 : cell :=
  Markdown ["#### `k` and `power` Parameter Comparisons"].

(* lines 549-549, prose *)
Definition cell_41 : cell :=
  Markdown
    [ "The higher the `k` value, the more neighbors used in the weights calculation. However, along simply changing the `k` value may not have a large impact on the remapping, and you might also need to change the `power` value, because the `power` value changes how much influence a point has as it gets further away from the source point. Let's use do two remaps, a high and low `power` / `k` value and see a side by side comparsion with downsampling." ].

(* lines 559-564:
     downsampling_idw_low = uxds_120["bottomDepth"].remap.inverse_distance_weighted(
         uxds_480.uxgrid, remap_to="face centers", power=1, k=2
     )
     downsampling_idw_high = uxds_120["bottomDepth"].remap.inverse_distance_weighted(
         uxds_480.uxgrid, remap_to="face centers", power=5, k=128
     )
*)
Definition cell_42 : cell :=
  Code
    [ SAssign
        [EName "downsampling_idw_low"]
        (ECall
          (EAttribute
            (EAttribute
              (ESubscript (EName "uxds_120") (EStr "bottomDepth"))
              "remap")
            "inverse_distance_weighted")
          [EAttribute (EName "uxds_480") "uxgrid"]
          [ (Some "remap_to", EStr "face centers");
            (Some "power", EInt 1);
            (Some "k", EInt 2) ]);
      SAssign
        [EName "downsampling_idw_high"]
        (ECall
          (EAttribute
            (EAttribute
              (ESubscript (EName "uxds_120") (EStr "bottomDepth"))
              "remap")
            "inverse_distance_weighted")
          [EAttribute (EName "uxds_480") "uxgrid"]
          [ (Some "remap_to", EStr "face centers");
            (Some "power", EInt 5);
            (Some "k", EInt 128) ]) ].

(* lines 574-589:
     (
         downsampling_idw_low.plot(
             title="Zoomed 480km (power=1, k=2)",
             xlim=(-10, 10),
             ylim=(-5, 5),
             cmap=ux.cmaps.sequential_blue,
         )
         * features
         + downsampling_idw_high.plot(
             title="Zoomed 480km (power=5, k=128)",
             xlim=(-10, 10),
             ylim=(-5, 5),
             cmap=ux.cmaps.sequential_blue,
         )
         * features
     ).cols(1).opts(fig_size=125)
*)
Definition cell_43 : cell :=
  Code
    [ SExpr
        (ECall
          (EAttribute
            (ECall
              (EAttribute
                (EBinOp
                  (EBinOp
                    (ECall
                      (EAttribute (EName "downsampling_idw_low") "plot")
                      []
                      [ (Some "title", EStr "Zoomed 480km (power=1, k=2)");
                        ( Some "xlim",
                          ETuple [EUnaryOp USub (EInt 10); EInt 10] );
                        (Some "ylim", ETuple [EUnaryOp USub (EInt 5); EInt 5]);
                        ( Some "cmap",
                          EAttribute
                            (EAttribute (EName "ux") "cmaps")
                            "sequential_blue" ) ])
                    Mult
                    (EName "features"))
                  Add
                  (EBinOp
                    (ECall
                      (EAttribute (EName "downsampling_idw_high") "plot")
                      []
                      [ (Some "title", EStr "Zoomed 480km (power=5, k=128)");
                        ( Some "xlim",
                          ETuple [EUnaryOp USub (EInt 10); EInt 10] );
                        (Some "ylim", ETuple [EUnaryOp USub (EInt 5); EInt 5]);
                        ( Some "cmap",
                          EAttribute
                            (EAttribute (EName "ux") "cmaps")
                            "sequential_blue" ) ])
                    Mult
                    (EName "features")))
                "cols")
              [EInt 1]
              [])
            "opts")
          []
          [(Some "fig_size", EInt 125)]) ].

(* lines 597-597, prose *)
Definition cell_44 : cell :=
  Markdown ["Now we can do the same thing with an upsampling example:"].

(* lines 607-612:
     upsampling_idw_low = uxds_480["bottomDepth"].remap.inverse_distance_weighted(
         uxds_120.uxgrid, remap_to="face centers", power=1, k=2
     )
     upsampling_idw_high = uxds_480["bottomDepth"].remap.inverse_distance_weighted(
         uxds_120.uxgrid, remap_to="face centers", power=5, k=128
     )
*)
Definition cell_45 : cell :=
  Code
    [ SAssign
        [EName "upsampling_idw_low"]
        (ECall
          (EAttribute
            (EAttribute
              (ESubscript (EName "uxds_480") (EStr "bottomDepth"))
              "remap")
            "inverse_distance_weighted")
          [EAttribute (EName "uxds_120") "uxgrid"]
          [ (Some "remap_to", EStr "face centers");
            (Some "power", EInt 1);
            (Some "k", EInt 2) ]);
      SAssign
        [EName "upsampling_idw_high"]
        (ECall
          (EAttribute
            (EAttribute
              (ESubscript (EName "uxds_480") (EStr "bottomDepth"))
              "remap")
            "inverse_distance_weighted")
          [EAttribute (EName "uxds_120") "uxgrid"]
          [ (Some "remap_to", EStr "face centers");
            (Some "power", EInt 5);
            (Some "k", EInt 128) ]) ].

(* lines 622-637:
     (
         upsampling_idw_low.plot(
             title="Zoomed 120km (power=1, k=2)",
             xlim=(-10, 10),
             ylim=(-5, 5),
             cmap=ux.cmaps.sequential_blue,
         )
         * features
         + upsampling_idw_high.plot(
             title="Zoomed 120km (power=5, k=128)",
             xlim=(-10, 10),
             ylim=(-5, 5),
             cmap=ux.cmaps.sequential_blue,
         )
         * features
     ).cols(1).opts(fig_size=125)
*)
Definition cell_46 : cell :=
  Code
    [ SExpr
        (ECall
          (EAttribute
            (ECall
              (EAttribute
                (EBinOp
                  (EBinOp
                    (ECall
                      (EAttribute (EName "upsampling_idw_low") "plot")
                      []
                      [ (Some "title", EStr "Zoomed 120km (power=1, k=2)");
                        ( Some "xlim",
                          ETuple [EUnaryOp USub (EInt 10); EInt 10] );
                        (Some "ylim", ETuple [EUnaryOp USub (EInt 5); EInt 5]);
                        ( Some "cmap",
                          EAttribute
                            (EAttribute (EName "ux") "cmaps")
                            "sequential_blue" ) ])
                    Mult
                    (EName "features"))
                  Add
                  (EBinOp
                    (ECall
                      (EAttribute (EName "upsampling_idw_high") "plot")
                      []
                      [ (Some "title", EStr "Zoomed 120km (power=5, k=128)");
                        ( Some "xlim",
                          ETuple [EUnaryOp USub (EInt 10); EInt 10] );
                        (Some "ylim", ETuple [EUnaryOp USub (EInt 5); EInt 5]);
                        ( Some "cmap",
                          EAttribute
                            (EAttribute (EName "ux") "cmaps")
                            "sequential_blue" ) ])
                    Mult
                    (EName "features")))
                "cols")
              [EInt 1]
              [])
            "opts")
          []
          [(Some "fig_size", EInt 125)]) ].

(* lines 645-647, prose *)
Definition cell_47 : cell :=
  Markdown
    [ "When we alter the `k` and `power` values during downsampling, we observe only minor effects. This is somewhat expected because downsampling involves transitioning from a grid with numerous faces to one where several faces are consolidated into one. Consequently, regardless of how many neighboring faces we consider, the impact remains limited, especially given the weighted calculation. ";
      "";
      "Conversely, during upsampling, the effects are much more pronounced. This is logical, considering that upsampling involves transitioning from a grid with fewer faces, where each face represents a larger area, to one where more faces are present, representing a smaller area per face. Therefore, adjusting from 2 neighbors to 128 leads to substantial changes because the additional faces encompase a much larger area, and by effect much more drastic changes in values." ].

Definition nb : notebook :=
  {| file := "src/unnamed/part_001";
     first_line := 1;
     cells := [cell_00; cell_01; cell_02; cell_03; cell_04; cell_05; cell_06;
       cell_07; cell_08; cell_09; cell_10; cell_11; cell_12; cell_13; cell_14;
       cell_15; cell_16; cell_17; cell_18; cell_19; cell_20; cell_21; cell_22;
       cell_23; cell_24; cell_25; cell_26; cell_27; cell_28; cell_29; cell_30;
       cell_31; cell_32; cell_33; cell_34; cell_35; cell_36; cell_37; cell_38;
       cell_39; cell_40; cell_41; cell_42; cell_43; cell_44; cell_45; cell_46;
       cell_47] |}.

End Remapping.

(** *** Dual Grid Construction  (src/docs/user-guide/dual-mesh.ipynb, from line 1) *)

Module DualMesh.

(* lines 8-8, prose *)
Definition cell_00 : cell :=
  Markdown ["# Dual Grid Construction"].

(* lines 16-20, prose *)
Definition cell_01 : cell :=
  Markdown
    [ "A dual grid is a secondary grid built from a grid, by constructing new faces over the original grids nodes. One property of this means that if you take the dual grid of a dual grid, the orignal grid will be constructed. However, this will only work properly if the grid is not partial. UXarray allows the constructing of this dual grid on all three of our data structures using the following methods:";
      "";
      "* `Grid.get_dual()`";
      "* `UxDataArray.get_dual()`";
      "* `UxDataset.get_dual()`" ].

(* lines 37-43:
     import warnings

     import cartopy.crs as ccrs

     import uxarray as ux

     warnings.filterwarnings("ignore")
*)
Definition cell_02 : cell :=
  Code
    [ SImport [{| name := "warnings"; asname := None |}];
      SImport [{| name := "cartopy.crs"; asname := Some "ccrs" |}];
      SImport [{| name := "uxarray"; asname := Some "ux" |}];
      SExpr
        (ECall
          (EAttribute (EName "warnings") "filterwarnings")
          [EStr "ignore"]
          []) ].

(* lines 53-55:
     file = "../../test/meshfiles/mpas/QU/mesh.QU.1920km.151026.nc"

     uxds = ux.open_dataset(file, file)
*)
Definition cell_03 : cell :=
  Code
    [ SAssign
        [EName "file"]
        (EStr "../../test/meshfiles/mpas/QU/mesh.QU.1920km.151026.nc");
      SAssign
        [EName "uxds"]
        (ECall
          (EAttribute (EName "ux") "open_dataset")
          [EName "file"; EName "file"]
          []) ].

(* lines 63-63, prose *)
Definition cell_04 : cell :=
  Markdown ["## Computing the Dual Grid"].

(* lines 71-71, prose *)
Definition cell_05 : cell :=
  Markdown
    [ ("When computing the dual of a grid, the original grid is typically referred to as the " ++ dq ++ "Primal" ++ dq ++ " grid. The corner nodes of the Primal grid become the face centers of the Dual grid, and the face centers of the Primal grid become the corner nodes of the Dual grid. This means that variables that were originally face-centered on the Primal grid will be node-centered on the Dual grid, and vice versa. Using UXarray we can construct the dual mesh using `grid.compute_dual()`, which returns a new `Grid` object.")%string ].

(* lines 81-81:
     grid = uxds.uxgrid
*)
Definition cell_06 : cell :=
  Code [SAssign [EName "grid"] (EAttribute (EName "uxds") "uxgrid")].

(* lines 91-91:
     dual = grid.get_dual()
*)
Definition cell_07 : cell :=
  Code
    [ SAssign
        [EName "dual"]
        (ECall (EAttribute (EName "grid") "get_dual") [] []) ].

(* lines 101-104:
     (
         grid.plot(title="Primal Grid", backend="bokeh", projection=ccrs.Orthographic())
         + dual.plot(title="Dual Grid", backend="bokeh", projection=ccrs.Orthographic())
     )
*)
Definition cell_08 : cell :=
  Code
    [ SExpr
        (EBinOp
          (ECall
            (EAttribute (EName "grid") "plot")
            []
            [ (Some "title", EStr "Primal Grid");
              (Some "backend", EStr "bokeh");
              ( Some "projection",
                ECall (EAttribute (EName "ccrs") "Orthographic") [] [] ) ])
          Add
          (ECall
            (EAttribute (EName "dual") "plot")
            []
            [ (Some "title", EStr "Dual Grid");
              (Some "backend", EStr "bokeh");
              ( Some "projection",
                ECall (EAttribute (EName "ccrs") "Orthographic") [] [] ) ])) ].

(* lines 114-117:
     (
         grid.plot(backend="bokeh", projection=ccrs.Orthographic(), color="red")
         * dual.plot(backend="bokeh", projection=ccrs.Orthographic(), color="blue")
     ).opts(title="Primal (Red) & Dual (Blue) Grids")
*)
Definition cell_09 : cell :=
  Code
    [ SExpr
        (ECall
          (EAttribute
            (EBinOp
              (ECall
                (EAttribute (EName "grid") "plot")
                []
                [ (Some "backend", EStr "bokeh");
                  ( Some "projection",
                    ECall (EAttribute (EName "ccrs") "Orthographic") [] [] );
                  (Some "color", EStr "red") ])
              Mult
              (ECall
                (EAttribute (EName "dual") "plot")
                []
                [ (Some "backend", EStr "bokeh");
                  ( Some "projection",
                    ECall (EAttribute (EName "ccrs") "Orthographic") [] [] );
                  (Some "color", EStr "blue") ]))
            "opts")
          []
          [(Some "title", EStr "Primal (Red) & Dual (Blue) Grids")]) ].

(* lines 125-125, prose *)
Definition cell_10 : cell :=
  Markdown ["## Computing the Dual Grid with Data"].

(* lines 133-137, prose *)
Definition cell_11 : cell :=
  Markdown
    [ "We can also take a dual mesh of a `UxDataArray`. The concept for constructing the `Grid` remains the same, and what is constructed will be identical. The difference is the data stored inside the `UxDataArray` will be transfered with the dual mesh. The key differences is the location that the data is stored. The data transfer process works as follows:";
      "";
      "* Face centered data becomes node centered, as each face becomes a node in the dual mesh.";
      "* Node centered data becomes face centered, as each node becomes a face in the dual mesh.";
      "* Edge centered data remains unchanged, as the edge centers will remain in the same place, despite the edges themselves being different." ].

(* lines 145-145, prose *)
Definition cell_12 : cell :=
  Markdown ["### Face Centered Data"].

(* lines 153-153, prose *)
Definition cell_13 : cell :=
  Markdown
    [ "When constructing the dual mesh paired with a face centered variable, the data becomes node centered. We can then plot this using `topological_mean` to get the dual data to the faces for proper visualization comparisions." ].

(* lines 163-163:
     uxds_dual_face = uxds["latCell"].get_dual()
*)
Definition cell_14 : cell :=
  Code
    [ SAssign
        [EName "uxds_dual_face"]
        (ECall
          (EAttribute (ESubscript (EName "uxds") (EStr "latCell")) "get_dual")
          []
          []) ].

(* lines 173-188:
     (
         uxds["latCell"].plot.polygons(
             rasterize=True,
             backend="matplotlib",
             title="Face centered data on Primal Mesh",
             cmap=ux.cmaps.sequential_green_blue,
             projection=ccrs.Orthographic(),
         )
         + uxds_dual_face.topological_mean(destination="face").plot.polygons(
             rasterize=True,
             backend="matplotlib",
             title="Node Centered Data on Dual Mesh",
             cmap=ux.cmaps.sequential_green_blue,
             projection=ccrs.Orthographic(),
         )
     ).cols(1).opts(fig_size=125)
*)
Definition cell_15 : cell :=
  Code
    [ SExpr
        (ECall
          (EAttribute
            (ECall
              (EAttribute
                (EBinOp
                  (ECall
                    (EAttribute
                      (EAttribute
                        (ESubscript (EName "uxds") (EStr "latCell"))
                        "plot")
                      "polygons")
                    []
                    [ (Some "rasterize", EBool true);
                      (Some "backend", EStr "matplotlib");
                      (Some "title", EStr "Face centered data on Primal Mesh");
                      ( Some "cmap",
                        EAttribute
                          (EAttribute (EName "ux") "cmaps")
                          "sequential_green_blue" );
                      ( Some "projection",
                        ECall (EAttribute (EName "ccrs") "Orthographic") [] [] ) ])
                  Add
                  (ECall
                    (EAttribute
                      (EAttribute
                        (ECall
                          (EAttribute
                            (EName "uxds_dual_face")
                            "topological_mean")
                          []
                          [(Some "destination", EStr "face")])
                        "plot")
                      "polygons")
                    []
                    [ (Some "rasterize", EBool true);
                      (Some "backend", EStr "matplotlib");
                      (Some "title", EStr "Node Centered Data on Dual Mesh");
                      ( Some "cmap",
                        EAttribute
                          (EAttribute (EName "ux") "cmaps")
                          "sequential_green_blue" );
                      ( Some "projection",
                        ECall (EAttribute (EName "ccrs") "Orthographic") [] [] ) ]))
                "cols")
              [EInt 1]
              [])
            "opts")
          []
          [(Some "fig_size", EInt 125)]) ].

(* lines 196-196, prose *)
Definition cell_16 : cell :=
  Markdown ["### Node Centered Data"].

(* lines 204-204, prose *)
Definition cell_17 : cell :=
  Markdown
    [ "When constructing the dual mesh paired with a node centered variable, the data becomes face centered. A benefit of computing the dual of a node centered variable is that it allows us to visualize the data as polygons." ].

(* lines 214-214:
     uxds_dual_node = uxds["latVertex"].get_dual()
*)
Definition cell_18 : cell :=
  Code
    [ SAssign
        [EName "uxds_dual_node"]
        (ECall
          (EAttribute
            (ESubscript (EName "uxds") (EStr "latVertex"))
            "get_dual")
          []
          []) ].

(* lines 224-241:
     (
         uxds["latVertex"]
         .topological_mean(destination="face")
         .plot.polygons(
             rasterize=True,
             backend="matplotlib",
             title="Face centered data on Primal Mesh",
             cmap=ux.cmaps.sequential_green_blue,
             projection=ccrs.Orthographic(),
         )
         + uxds_dual_node.plot.polygons(
             rasterize=True,
             backend="matplotlib",
             title="Node Centered Data on Dual Mesh",
             cmap=ux.cmaps.sequential_green_blue,
             projection=ccrs.Orthographic(),
         )
     ).cols(1).opts(fig_size=125)
*)
Definition cell_19 : cell :=
  Code
    [ SExpr
        (ECall
          (EAttribute
            (ECall
              (EAttribute
                (EBinOp
                  (ECall
                    (EAttribute
                      (EAttribute
                        (ECall
                          (EAttribute
                            (ESubscript (EName "uxds") (EStr "latVertex"))
                            "topological_mean")
                          []
                          [(Some "destination", EStr "face")])
                        "plot")
                      "polygons")
                    []
                    [ (Some "rasterize", EBool true);
                      (Some "backend", EStr "matplotlib");
                      (Some "title", EStr "Face centered data on Primal Mesh");
                      ( Some "cmap",
                        EAttribute
                          (EAttribute (EName "ux") "cmaps")
                          "sequential_green_blue" );
                      ( Some "projection",
                        ECall (EAttribute (EName "ccrs") "Orthographic") [] [] ) ])
                  Add
                  (ECall
                    (EAttribute
                      (EAttribute (EName "uxds_dual_node") "plot")
                      "polygons")
                    []
                    [ (Some "rasterize", EBool true);
                      (Some "backend", EStr "matplotlib");
                      (Some "title", EStr "Node Centered Data on Dual Mesh");
                      ( Some "cmap",
                        EAttribute
                          (EAttribute (EName "ux") "cmaps")
                          "sequential_green_blue" );
                      ( Some "projection",
                        ECall (EAttribute (EName "ccrs") "Orthographic") [] [] ) ]))
                "cols")
              [EInt 1]
              [])
            "opts")
          []
          [(Some "fig_size", EInt 125)]) ].

(* lines 249-249, prose *)
Definition cell_20 : cell :=
  Markdown ["### Edge Centered Data"].

(* lines 257-257, prose *)
Definition cell_21 : cell :=
  Markdown
    [ "When constructing the dual mesh paired with an edge centered variable, the data will stay edge centered. However, a plotting example cannot be shown, as the `topological_mean` needed to visualize edge centered data is not currently implemented for edge centered data." ].

(* lines 265-265, prose *)
Definition cell_22 : cell :=
  Markdown ["### UxDataset"].

(* lines 273-273, prose *)
Definition cell_23 : cell :=
  Markdown
    [ "We can also construct a dual mesh from an entire dataset, which will convert the whole `UxDataset` to its dual mesh form. Below we can see the dataset before the dual mesh is constructed." ].

(* lines 283-283:
     uxds
*)
Definition cell_24 : cell :=
  Code [SExpr (EName "uxds")].

(* lines 291-291, prose *)
Definition cell_25 : cell :=
  Markdown
    [ "Now we can construct the dual and see the new dataset that is returned." ].

(* lines 301-301:
     uxds_dual = uxds.get_dual()
*)
Definition cell_26 : cell :=
  Code
    [ SAssign
        [EName "uxds_dual"]
        (ECall (EAttribute (EName "uxds") "get_dual") [] []) ].

(* lines 311-311:
     uxds_dual
*)
Definition cell_27 : cell :=
  Code [SExpr (EName "uxds_dual")].

(* lines 319-319, prose *)
Definition cell_28 : cell :=
  Markdown
    [ "As you can see, transforms the whole dataset. We can now take any variable and plot it, as shown below." ].

(* lines 329-335:
     uxds_dual["latVertex"].plot.polygons(
         rasterize=True,
         backend="matplotlib",
         title="latVertex from UxDataset dual mesh",
         cmap=ux.cmaps.sequential_green_blue,
         projection=ccrs.Orthographic(),
     ).opts(fig_size=120)
*)
Definition cell_29 : cell :=
  Code
    [ SExpr
        (ECall
          (EAttribute
            (ECall
              (EAttribute
                (EAttribute
                  (ESubscript (EName "uxds_dual") (EStr "latVertex"))
                  "plot")
                "polygons")
              []
              [ (Some "rasterize", EBool true);
                (Some "backend", EStr "matplotlib");
                (Some "title", EStr "latVertex from UxDataset dual mesh");
                ( Some "cmap",
                  EAttribute
                    (EAttribute (EName "ux") "cmaps")
                    "sequential_green_blue" );
                ( Some "projection",
                  ECall (EAttribute (EName "ccrs") "Orthographic") [] [] ) ])
            "opts")
          []
          [(Some "fig_size", EInt 120)]) ].

Definition nb : notebook :=
  {| file := "src/docs/user-guide/dual-mesh.ipynb";
     first_line := 1;
     cells := [cell_00; cell_01; cell_02; cell_03; cell_04; cell_05; cell_06;
       cell_07; cell_08; cell_09; cell_10; cell_11; cell_12; cell_13; cell_14;
       cell_15; cell_16; cell_17; cell_18; cell_19; cell_20; cell_21; cell_22;
       cell_23; cell_24; cell_25; cell_26; cell_27; cell_28; cell_29] |}.

End DualMesh.

(** *** Weighted Mean  (src/docs/user-guide/weighted_mean.ipynb, from line 1) *)

Module WeightedMean.

(* lines 8-10, prose *)
Definition cell_00 : cell :=
  Markdown
    [ "# Weighted Mean";
      "";
      "UXarray supports computing weighted means based on geometric properties such as face areas or edge lengths. In this section of the user guide, we explain how to calculate variable means using unstructured grid geometries as weights. The examples below demonstrate the application of weighted means using grid face areas and grid edge lengths as weights.";
      "" ].

(* lines 20-27:
     import warnings

     import cartopy.crs as ccrs
     import xarray as xr

     import uxarray as ux

     warnings.filterwarnings("ignore")
*)
Definition cell_01 : cell :=
  Code
    [ SImport [{| name := "warnings"; asname := None |}];
      SImport [{| name := "cartopy.crs"; asname := Some "ccrs" |}];
      SImport [{| name := "xarray"; asname := Some "xr" |}];
      SImport [{| name := "uxarray"; asname := Some "ux" |}];
      SExpr
        (ECall
          (EAttribute (EName "warnings") "filterwarnings")
          [EStr "ignore"]
          []) ].

(* lines 35-37, prose *)
Definition cell_02 : cell :=
  Markdown
    [ "## Data";
      "";
      "Data used in this section is a 3-random-variable dataset on a quad hexagon mesh mapped to the edges and faces." ].

(* lines 47-56:
     grid_path = "../../test/meshfiles/ugrid/quad-hexagon/grid.nc"
     quad_hex_data_path_edge_centered = (
         "../../test/meshfiles/ugrid/quad-hexagon/random-edge-data.nc"
     )
     quad_hex_data_path_face_centered = (
         "../../test/meshfiles/ugrid/quad-hexagon/random-face-data.nc"
     )

     uxds_face = ux.open_mfdataset(grid_path, quad_hex_data_path_face_centered)
     uxds_edge = ux.open_mfdataset(grid_path, quad_hex_data_path_edge_centered)
*)
Definition cell_03 : cell :=
  Code
    [ SAssign
        [EName "grid_path"]
        (EStr "../../test/meshfiles/ugrid/quad-hexagon/grid.nc");
      SAssign
        [EName "quad_hex_data_path_edge_centered"]
        (EStr "../../test/meshfiles/ugrid/quad-hexagon/random-edge-data.nc");
      SAssign
        [EName "quad_hex_data_path_face_centered"]
        (EStr "../../test/meshfiles/ugrid/quad-hexagon/random-face-data.nc");
      SAssign
        [EName "uxds_face"]
        (ECall
          (EAttribute (EName "ux") "open_mfdataset")
          [EName "grid_path"; EName "quad_hex_data_path_face_centered"]
          []);
      SAssign
        [EName "uxds_edge"]
        (ECall
          (EAttribute (EName "ux") "open_mfdataset")
          [EName "grid_path"; EName "quad_hex_data_path_edge_centered"]
          []) ].

(* lines 66-78:
     (
         uxds_face.uxgrid.plot(line_color="black")
         * uxds_edge["random_data_edge"]
         .plot.points(
             cmap="inferno", size=150, marker="square", clabel=None, tools=["hover"]
         )
         .relabel("Edge Data")
         * uxds_face["random_data_face"]
         .plot.points(
             cmap="inferno", size=150, marker="triangle", clabel=None, tools=["hover"]
         )
         .relabel("Face Data")
     ).opts(legend_position="top_right")
*)
Definition cell_04 : cell :=
  Code
    [ SExpr
        (ECall
          (EAttribute
            (EBinOp
              (EBinOp
                (ECall
                  (EAttribute
                    (EAttribute (EName "uxds_face") "uxgrid")
                    "plot")
                  []
                  [(Some "line_color", EStr "black")])
                Mult
                (ECall
                  (EAttribute
                    (ECall
                      (EAttribute
                        (EAttribute
                          (ESubscript
                            (EName "uxds_edge")
                            (EStr "random_data_edge"))
                          "plot")
                        "points")
                      []
                      [ (Some "cmap", EStr "inferno");
                        (Some "size", EInt 150);
                        (Some "marker", EStr "square");
                        (Some "clabel", ENone);
                        (Some "tools", EList [EStr "hover"]) ])
                    "relabel")
                  [EStr "Edge Data"]
                  []))
              Mult
              (ECall
                (EAttribute
                  (ECall
                    (EAttribute
                      (EAttribute
                        (ESubscript
                          (EName "uxds_face")
                          (EStr "random_data_face"))
                        "plot")
                      "points")
                    []
                    [ (Some "cmap", EStr "inferno");
                      (Some "size", EInt 150);
                      (Some "marker", EStr "triangle");
                      (Some "clabel", ENone);
                      (Some "tools", EList [EStr "hover"]) ])
                  "relabel")
                [EStr "Face Data"]
                []))
            "opts")
          []
          [(Some "legend_position", EStr "top_right")]) ].

(* lines 86-88, prose *)
Definition cell_05 : cell :=
  Markdown
    [ "## Weighted Mean based on Face Areas";
      "";
      "Here we first look at the data values on each face and the faces' respective areas. " ].

(* lines 98-98:
     uxds_face["random_data_face"].values
*)
Definition cell_06 : cell :=
  Code
    [ SExpr
        (EAttribute
          (ESubscript (EName "uxds_face") (EStr "random_data_face"))
          "values") ].

(* lines 105-105, prose *)
Definition cell_07 : cell :=
  Markdown
    [ "We can simply call `UxDataArray.weighted_mean()` on the UXDataArray to compute the weighted mean. The differences between the weighted mean and the regular mean is small since the area differences across the faces are small. " ].

(* lines 114-115:
     result = uxds_face["random_data_face"].weighted_mean()
     result.values
*)
Definition cell_08 : cell :=
  Code
    [ SAssign
        [EName "result"]
        (ECall
          (EAttribute
            (ESubscript (EName "uxds_face") (EStr "random_data_face"))
            "weighted_mean")
          []
          []);
      SExpr (EAttribute (EName "result") "values") ].

(* lines 125-126:
     unweighted_result = uxds_face["random_data_face"].mean()
     unweighted_result.values
*)
Definition cell_09 : cell :=
  Code
    [ SAssign
        [EName "unweighted_result"]
        (ECall
          (EAttribute
            (ESubscript (EName "uxds_face") (EStr "random_data_face"))
            "mean")
          []
          []);
      SExpr (EAttribute (EName "unweighted_result") "values") ].

(* lines 134-136, prose *)
Definition cell_10 : cell :=
  Markdown
    [ "## Weighted Mean Based on Edge Length";
      "";
      "Here we show the similar steps but for edge-centered data and the edge lengths. " ].

(* lines 146-146:
     uxds_edge["random_data_edge"].values
*)
Definition cell_11 : cell :=
  Code
    [ SExpr
        (EAttribute
          (ESubscript (EName "uxds_edge") (EStr "random_data_edge"))
          "values") ].

(* lines 156-156:
     uxds_edge.uxgrid.edge_node_distances.data
*)
Definition cell_12 : cell :=
  Code
    [ SExpr
        (EAttribute
          (EAttribute
            (EAttribute (EName "uxds_edge") "uxgrid")
            "edge_node_distances")
          "data") ].

(* lines 163-163, prose *)
Definition cell_13 : cell :=
  Markdown
    [ "The differences between weighted and unweighted mean is more drastic (~0.1 value difference) since the edge lengths have a larger variance. " ].

(* lines 172-173:
     result = uxds_edge["random_data_edge"].weighted_mean()
     result.values
*)
Definition cell_14 : cell :=
  Code
    [ SAssign
        [EName "result"]
        (ECall
          (EAttribute
            (ESubscript (EName "uxds_edge") (EStr "random_data_edge"))
            "weighted_mean")
          []
          []);
      SExpr (EAttribute (EName "result") "values") ].

(* lines 183-184:
     unweighted_result = uxds_edge["random_data_edge"].mean()
     unweighted_result.values
*)
Definition cell_15 : cell :=
  Code
    [ SAssign
        [EName "unweighted_result"]
        (ECall
          (EAttribute
            (ESubscript (EName "uxds_edge") (EStr "random_data_edge"))
            "mean")
          []
          []);
      SExpr (EAttribute (EName "unweighted_result") "values") ].

Definition nb : notebook :=
  {| file := "src/docs/user-guide/weighted_mean.ipynb";
     first_line := 1;
     cells := [cell_00; cell_01; cell_02; cell_03; cell_04; cell_05; cell_06;
       cell_07; cell_08; cell_09; cell_10; cell_11; cell_12; cell_13; cell_14;
       cell_15] |}.

End WeightedMean.

(** *** Compatibility with HoloViz Tools  (src/docs/user-guide/weighted_mean.ipynb, from line 210) *)

Module Holoviz.

(* lines 221-224, prose *)
Definition cell_00 : cell :=
  Markdown
    [ "# Compatibility with HoloViz Tools";
      "";
      "This user guide section showcases how UXarray data structures (`Grid`, `UxDataArray`) can be converted in a Spatialpandas `GeoDataFrame`, which can be used directly by packages from the HoloViz stack, such as hvPlot, Datashader, Holoviews, and Geoviews. In addition to showing how to convert to a `GeoDataFrame`, a series of visualizations using hvPlot and GeoViews is showcased based around the converted data structure.";
      "";
      "" ].

(* lines 238-248:
     import warnings

     import holoviews as hv
     import hvplot.pandas
     import matplotlib
     import matplotlib.pyplot as plt
     import numpy as np

     import uxarray as ux

     warnings.filterwarnings("ignore")
*)
Definition cell_01 : cell :=
  Code
    [ SImport [{| name := "warnings"; asname := None |}];
      SImport [{| name := "holoviews"; asname := Some "hv" |}];
      SImport [{| name := "hvplot.pandas"; asname := None |}];
      SImport [{| name := "matplotlib"; asname := None |}];
      SImport [{| name := "matplotlib.pyplot"; asname := Some "plt" |}];
      SImport [{| name := "numpy"; asname := Some "np" |}];
      SImport [{| name := "uxarray"; asname := Some "ux" |}];
      SExpr
        (ECall
          (EAttribute (EName "warnings") "filterwarnings")
          [EStr "ignore"]
          []) ].

(* lines 255-257, prose *)
Definition cell_02 : cell :=
  Markdown
    [ "## Data";
      "";
      "For this notebook, we will be using E3SM model output, which uses a cubed-sphere grid. However, this notebook can be adapted to datasets in any of our supported formats." ].

(* lines 271-277:
     base_path = "../../test/meshfiles/ugrid/outCSne30/"
     grid_path = base_path + "outCSne30.ug"
     data_path = base_path + "outCSne30_vortex.nc"

     uxds = ux.open_dataset(grid_path, data_path)

     uxds
*)
Definition cell_03 : cell :=
  Code
    [ SAssign
        [EName "base_path"]
        (EStr "../../test/meshfiles/ugrid/outCSne30/");
      SAssign
        [EName "grid_path"]
        (EBinOp (EName "base_path") Add (EStr "outCSne30.ug"));
      SAssign
        [EName "data_path"]
        (EBinOp (EName "base_path") Add (EStr "outCSne30_vortex.nc"));
      SAssign
        [EName "uxds"]
        (ECall
          (EAttribute (EName "ux") "open_dataset")
          [EName "grid_path"; EName "data_path"]
          []);
      SExpr (EName "uxds") ].

(* lines 284-286, prose *)
Definition cell_04 : cell :=
  Markdown
    [ "## Conversion to `spatialpandas.GeoDataFrame` for Visualization";
      "";
      "In order to support visualization with the popular HoloViz stack of libraries (hvPlot, HoloViews, Datashader, etc.), UXarray provides methods for converting `Grid` and `UxDataArray` objects into a SpatialPandas `GeoDataFrame`, which can be used for visualizing the nodes, edges, and polygons that represent each grid, in addition to data variables.";
      "" ].

(* lines 293-299, prose *)
Definition cell_05 : cell :=
  Markdown
    [ "### `Grid` Conversion";
      "";
      "If you wish to plot *only* the grid's geometrical elements such as nodes and edges (i.e. without any data variables mapped to them), you can directly convert a `Grid` instance into a `GeoDataFrame`.";
      "";
      "Each `UxDataset` and `UxDataArray` has a `Grid` instance paired to it, which can be accessed using the `.uxgrid` attribute.";
      "";
      "You can use the `Grid.to_geodataframe()` method to construct a `GeoDataFrame`." ].

(* lines 313-314:
     gdf_grid = uxds.uxgrid.to_geodataframe()
     gdf_grid
*)
Definition cell_06 : cell :=
  Code
    [ SAssign
        [EName "gdf_grid"]
        (ECall
          (EAttribute (EAttribute (EName "uxds") "uxgrid") "to_geodataframe")
          []
          []);
      SExpr (EName "gdf_grid") ].

(* lines 321-328, prose *)
Definition cell_07 : cell :=
  Markdown
    [ "### `UxDataArray` & `UxDataset` Conversion";
      "";
      ("If you are interested in mapping data to each face, you can index the `UxDataset` with the variable of interest (in this case " ++ dq ++ "psi" ++ dq ++ ") to return the same `GeoDataFrame` as above, but now with data mapped to each face.")%string;
      "";
      "```{warning}";
      "UXarray currently only supports mapping data variables that are mapped to each face. Variables that reside on the corner nodes or edges are currently not supported for visualization.";
      "```";
      "";
      "" ].

(* lines 339-340:
     gdf_data = uxds["psi"].to_geodataframe()
     gdf_data
*)
Definition cell_08 : cell :=
  Code
    [ SAssign
        [EName "gdf_data"]
        (ECall
          (EAttribute
            (ESubscript (EName "uxds") (EStr "psi"))
            "to_geodataframe")
          []
          []);
      SExpr (EName "gdf_data") ].

(* lines 347-355, prose *)
Definition cell_09 : cell :=
  Markdown
    [ "### Challenges with Representing Geoscience Data as Geometries";
      "";
      "When we convert to a `GeoDataFrame`, we internally represent the surface of a sphere as a collection of polygons over a 2D projection. However, this leads to issues around the Antimeridian (180 degrees east or west) where polygons are incorrectly constructed and have incorrect geometries. When constructing the `GeoDataFrame`, UXarray detects and corrects any polygon that touches or crosses the antimeridian. An array of indices of these faces can be accessed as part of the `Grid` object.";
      "<br>";
      "";
      "<figure>";
      ("<center><img src=" ++ dq ++ "https://upload.wikimedia.org/wikipedia/commons/thumb/8/8d/Earth_map_with_180th_meridian.jpg/640px-Earth_map_with_180th_meridian.jpg" ++ dq ++ " style=" ++ dq ++ "height: 300px; width:600px;" ++ dq ++ "/></center>")%string;
      "<center><figcaption>Antimeridian Visual</figcaption></center>";
      "</figure>";
      "" ].

(* lines 366-366:
     uxds.uxgrid.antimeridian_face_indices
*)
Definition cell_10 : cell :=
  Code
    [ SExpr
        (EAttribute
          (EAttribute (EName "uxds") "uxgrid")
          "antimeridian_face_indices") ].

(* lines 373-373, prose *)
Definition cell_11 : cell :=
  Markdown
    [ "Taking a look at one of these faces that crosses or touches the antimeridian, we can see that it's split across the antimeridian and represented as a `MultiPolygon`, which allows us to properly render this two dimensional grid." ].

(* lines 384-384:
     gdf_data.geometry[uxds.uxgrid.antimeridian_face_indices[0]]
*)
Definition cell_12 : cell :=
  Code
    [ SExpr
        (ESubscript
          (EAttribute (EName "gdf_data") "geometry")
          (ESubscript
            (EAttribute
              (EAttribute (EName "uxds") "uxgrid")
              "antimeridian_face_indices")
            (EInt 0))) ].

(* lines 391-391, prose *)
Definition cell_13 : cell :=
  Markdown
    [ "For more details about the algorithm used for splitting these polygons, see the [Antimeridian Python Package](https://antimeridian.readthedocs.io/en/stable/), which we use internally for correcting polygons on the antimeridian.";
      "" ].

(* lines 398-402, prose *)
Definition cell_14 : cell :=
  Markdown
    [ "## Visualizing Geometries";
      "";
      "The next sections will show how the `GeoDataFrame` representing our unstructured grid can be used with hvPlot and GeoViews to generate visualizations. Examples using both the `matplotlib` and `bokeh` backends are shown, with `bokeh` examples allowing for interactive plots.";
      "";
      "";
      "" ].

(* lines 409-409, prose *)
Definition cell_15 : cell :=
  Markdown ["### Nodes"].

(* lines 420-433:
     # use matplotlib backend for rendering
     hv.extension("matplotlib")

     plot_kwargs = {
         "size": 6.0,
         "xlabel": "Longitude",
         "ylabel": "Latitude",
         "coastline": True,
         "width": 1600,
         "title": "Node Plot (Matplotlib Backend)",
     }


     gdf_grid.hvplot.points( **plot_kwargs)
*)
Definition cell_16 : cell :=
  Code
    [ SExpr
        (ECall (EAttribute (EName "hv") "extension") [EStr "matplotlib"] []);
      SAssign
        [EName "plot_kwargs"]
        (EDict
          [ (Some (EStr "size"), EFloat 60 (-1));
            (Some (EStr "xlabel"), EStr "Longitude");
            (Some (EStr "ylabel"), EStr "Latitude");
            (Some (EStr "coastline"), EBool true);
            (Some (EStr "width"), EInt 1600);
            (Some (EStr "title"), EStr "Node Plot (Matplotlib Backend)") ]);
      SExpr
        (ECall
          (EAttribute (EAttribute (EName "gdf_grid") "hvplot") "points")
          []
          [(None, EName "plot_kwargs")]) ].

(* lines 444-456:
     # use bokeh backend for rendering
     hv.extension("bokeh")

     plot_kwargs = {
         "s": 1.0,
         "xlabel": "Longitude",
         "ylabel": "Latitude",
         "coastline": True,
         "frame_width": 700,
         "title": "Node Plot (Bokeh Backend)",
     }

     gdf_grid.hvplot.points( **plot_kwargs)
*)
Definition cell_17 : cell :=
  Code
    [ SExpr (ECall (EAttribute (EName "hv") "extension") [EStr "bokeh"] []);
      SAssign
        [EName "plot_kwargs"]
        (EDict
          [ (Some (EStr "s"), EFloat 10 (-1));
            (Some (EStr "xlabel"), EStr "Longitude");
            (Some (EStr "ylabel"), EStr "Latitude");
            (Some (EStr "coastline"), EBool true);
            (Some (EStr "frame_width"), EInt 700);
            (Some (EStr "title"), EStr "Node Plot (Bokeh Backend)") ]);
      SExpr
        (ECall
          (EAttribute (EAttribute (EName "gdf_grid") "hvplot") "points")
          []
          [(None, EName "plot_kwargs")]) ].

(* lines 463-463, prose *)
Definition cell_18 : cell :=
  Markdown ["### Edges"].

(* lines 474-489:
     # use matplotlib backend for rendering
     hv.extension("matplotlib")

     plot_kwargs = {
         "linewidth": 1.0,
         "xlabel": " Longitude",
         "ylabel": "Latitude",
         "coastline": True,
         "width": 1600,
         "title": "Edge Plot (Matplotlib Backend)",
         "color": "black",
     }

     import cartopy.crs as ccrs

     gdf_grid.hvplot.paths( **plot_kwargs)
*)
Definition cell_19 : cell :=
  Code
    [ SExpr
        (ECall (EAttribute (EName "hv") "extension") [EStr "matplotlib"] []);
      SAssign
        [EName "plot_kwargs"]
        (EDict
          [ (Some (EStr "linewidth"), EFloat 10 (-1));
            (Some (EStr "xlabel"), EStr " Longitude");
            (Some (EStr "ylabel"), EStr "Latitude");
            (Some (EStr "coastline"), EBool true);
            (Some (EStr "width"), EInt 1600);
            (Some (EStr "title"), EStr "Edge Plot (Matplotlib Backend)");
            (Some (EStr "color"), EStr "black") ]);
      SImport [{| name := "cartopy.crs"; asname := Some "ccrs" |}];
      SExpr
        (ECall
          (EAttribute (EAttribute (EName "gdf_grid") "hvplot") "paths")
          []
          [(None, EName "plot_kwargs")]) ].

(* lines 500-512:
     # use bokeh backend for rendering
     hv.extension("bokeh")

     plot_kwargs = {
         "line_width": 0.5,
         "xlabel": "Longitude",
         "ylabel": "Latitude",
         "coastline": True,
         "frame_width": 700,
         "title": "Edge Plot (Bokeh Backend)",
     }

     gdf_grid.hvplot.paths( **plot_kwargs)
*)
Definition cell_20 : cell :=
  Code
    [ SExpr (ECall (EAttribute (EName "hv") "extension") [EStr "bokeh"] []);
      SAssign
        [EName "plot_kwargs"]
        (EDict
          [ (Some (EStr "line_width"), EFloat 5 (-1));
            (Some (EStr "xlabel"), EStr "Longitude");
            (Some (EStr "ylabel"), EStr "Latitude");
            (Some (EStr "coastline"), EBool true);
            (Some (EStr "frame_width"), EInt 700);
            (Some (EStr "title"), EStr "Edge Plot (Bokeh Backend)") ]);
      SExpr
        (ECall
          (EAttribute (EAttribute (EName "gdf_grid") "hvplot") "paths")
          []
          [(None, EName "plot_kwargs")]) ].

(* lines 519-519, prose *)
Definition cell_21 : cell :=
  Markdown ["## Visualizing Data Variables"].

(* lines 530-542:
     hv.extension("matplotlib")

     plot_kwargs = {
         "c": "psi",
         "cmap": "inferno",
         "width": 400,
         "height": 200,
         "title": "Filled Polygon Plot (Matplotlib Backend, Rasterized)",
         "xlabel": " Longitude",
         "ylabel": "Latitude",
     }

     gdf_data.hvplot.polygons( **plot_kwargs, rasterize=True)
*)
Definition cell_22 : cell :=
  Code
    [ SExpr
        (ECall (EAttribute (EName "hv") "extension") [EStr "matplotlib"] []);
      SAssign
        [EName "plot_kwargs"]
        (EDict
          [ (Some (EStr "c"), EStr "psi");
            (Some (EStr "cmap"), EStr "inferno");
            (Some (EStr "width"), EInt 400);
            (Some (EStr "height"), EInt 200);
            ( Some (EStr "title"),
              EStr "Filled Polygon Plot (Matplotlib Backend, Rasterized)" );
            (Some (EStr "xlabel"), EStr " Longitude");
            (Some (EStr "ylabel"), EStr "Latitude") ]);
      SExpr
        (ECall
          (EAttribute (EAttribute (EName "gdf_data") "hvplot") "polygons")
          []
          [(None, EName "plot_kwargs"); (Some "rasterize", EBool true)]) ].

(* lines 549-551, prose *)
Definition cell_23 : cell :=
  Markdown
    [ "```{note}";
      "Visualizing filled polygons without rasterization using the matplotlib backend produces incorrect results, see [hvplot/#1099](https://github.com/holoviz/hvplot/issues/1099)";
      "```" ].

(* lines 562-583:
     hv.extension("bokeh")

     plot_kwargs = {
         "c": "psi",
         "cmap": "inferno",
         "line_width": 0.1,
         "frame_width": 500,
         "frame_height": 250,
         "xlabel": " Longitude",
         "ylabel": "Latitude",
     }

     gdf_data.hvplot.polygons( **plot_kwargs, rasterize=True)

     hv.Layout(
         gdf_data.hvplot.polygons( **plot_kwargs, rasterize=True).opts(
             title="Filled Polygon Plot (Bokeh Backend, Rasterized)"
         )
         + gdf_data.hvplot.polygons( **plot_kwargs, rasterize=False).opts(
             title="Filled Polygon Plot (Bokeh Backend, Vector)"
         )
     ).cols(1)
*)
Definition cell_24 : cell :=
  Code
    [ SExpr (ECall (EAttribute (EName "hv") "extension") [EStr "bokeh"] []);
      SAssign
        [EName "plot_kwargs"]
        (EDict
          [ (Some (EStr "c"), EStr "psi");
            (Some (EStr "cmap"), EStr "inferno");
            (Some (EStr "line_width"), EFloat 1 (-1));
            (Some (EStr "frame_width"), EInt 500);
            (Some (EStr "frame_height"), EInt 250);
            (Some (EStr "xlabel"), EStr " Longitude");
            (Some (EStr "ylabel"), EStr "Latitude") ]);
      SExpr
        (ECall
          (EAttribute (EAttribute (EName "gdf_data") "hvplot") "polygons")
          []
          [(None, EName "plot_kwargs"); (Some "rasterize", EBool true)]);
      SExpr
        (ECall
          (EAttribute
            (ECall
              (EAttribute (EName "hv") "Layout")
              [ EBinOp
                  (ECall
                    (EAttribute
                      (ECall
                        (EAttribute
                          (EAttribute (EName "gdf_data") "hvplot")
                          "polygons")
                        []
                        [ (None, EName "plot_kwargs");
                          (Some "rasterize", EBool true) ])
                      "opts")
                    []
                    [ ( Some "title",
                        EStr "Filled Polygon Plot (Bokeh Backend, Rasterized)" ) ])
                  Add
                  (ECall
                    (EAttribute
                      (ECall
                        (EAttribute
                          (EAttribute (EName "gdf_data") "hvplot")
                          "polygons")
                        []
                        [ (None, EName "plot_kwargs");
                          (Some "rasterize", EBool false) ])
                      "opts")
                    []
                    [ ( Some "title",
                        EStr "Filled Polygon Plot (Bokeh Backend, Vector)" ) ]) ]
              [])
            "cols")
          [EInt 1]
          []) ].

(* lines 595-596, prose *)
Definition cell_25 : cell :=
  Markdown ["## Geographic Projections"; ""; ""].

(* lines 611-623:
     hv.extension("matplotlib")

     plot_kwargs = {
         "c": "psi",
         "cmap": "inferno",
         "width": 400,
         "height": 200,
         "title": "Filled Polygon Plot (Matplotlib Backend, Rasterized, Orthographic Projection)",
         "xlabel": " Longitude",
         "ylabel": "Latitude",
     }

     gdf_data.hvplot.polygons( **plot_kwargs, rasterize=True, projection=ccrs.Orthographic())
*)
Definition cell_26 : cell :=
  Code
    [ SExpr
        (ECall (EAttribute (EName "hv") "extension") [EStr "matplotlib"] []);
      SAssign
        [EName "plot_kwargs"]
        (EDict
          [ (Some (EStr "c"), EStr "psi");
            (Some (EStr "cmap"), EStr "inferno");
            (Some (EStr "width"), EInt 400);
            (Some (EStr "height"), EInt 200);
            ( Some (EStr "title"),
              EStr
                "Filled Polygon Plot (Matplotlib Backend, Rasterized, Orthographic Projection)" );
            (Some (EStr "xlabel"), EStr " Longitude");
            (Some (EStr "ylabel"), EStr "Latitude") ]);
      SExpr
        (ECall
          (EAttribute (EAttribute (EName "gdf_data") "hvplot") "polygons")
          []
          [ (None, EName "plot_kwargs");
            (Some "rasterize", EBool true);
            ( Some "projection",
              ECall (EAttribute (EName "ccrs") "Orthographic") [] [] ) ]) ].

(* lines 638-650:
     hv.extension("matplotlib")

     plot_kwargs = {
         "c": "psi",
         "cmap": "inferno",
         "width": 400,
         "height": 200,
         "title": "Filled Polygon Plot (Matplotlib Backend, Rasterized, Robinson Projection)",
         "xlabel": " Longitude",
         "ylabel": "Latitude",
     }

     gdf_data.hvplot.polygons( **plot_kwargs, rasterize=True, projection=ccrs.Robinson())
*)
Definition cell_27 : cell :=
  Code
    [ SExpr
        (ECall (EAttribute (EName "hv") "extension") [EStr "matplotlib"] []);
      SAssign
        [EName "plot_kwargs"]
        (EDict
          [ (Some (EStr "c"), EStr "psi");
            (Some (EStr "cmap"), EStr "inferno");
            (Some (EStr "width"), EInt 400);
            (Some (EStr "height"), EInt 200);
            ( Some (EStr "title"),
              EStr
                "Filled Polygon Plot (Matplotlib Backend, Rasterized, Robinson Projection)" );
            (Some (EStr "xlabel"), EStr " Longitude");
            (Some (EStr "ylabel"), EStr "Latitude") ]);
      SExpr
        (ECall
          (EAttribute (EAttribute (EName "gdf_data") "hvplot") "polygons")
          []
          [ (None, EName "plot_kwargs");
            (Some "rasterize", EBool true);
            ( Some "projection",
              ECall (EAttribute (EName "ccrs") "Robinson") [] [] ) ]) ].

Definition nb : notebook :=
  {| file := "src/docs/user-guide/weighted_mean.ipynb";
     first_line := 210;
     cells := [cell_00; cell_01; cell_02; cell_03; cell_04; cell_05; cell_06;
       cell_07; cell_08; cell_09; cell_10; cell_11; cell_12; cell_13; cell_14;
       cell_15; cell_16; cell_17; cell_18; cell_19; cell_20; cell_21; cell_22;
       cell_23; cell_24; cell_25; cell_26; cell_27] |}.

End Holoviz.

(** *** Spatial Hashing  (src/docs/user-guide/spatial-hashing.ipynb, from line 1) *)

Module SpatialHashing.

(* lines 7-8, prose *)
Definition cell_00 : cell :=
  Markdown
    [ "# Spatial Hashing";
      "UXarray supports spatial hashing, which a fast search method for finding the face that a point lies within on an unstructured grid. This can be useful for building particle-in-cell interpolators for Lagrangian fluid flow analysis. " ].

(* lines 17-17:
     import uxarray as ux
*)
Definition cell_01 : cell :=
  Code [SImport [{| name := "uxarray"; asname := Some "ux" |}]].

(* lines 24-24, prose *)
Definition cell_02 : cell :=
  Markdown ["For this example we will be using a simple hexagonal grid."].

(* lines 33-34:
     grid_path = "../../test/meshfiles/ugrid/quad-hexagon/grid.nc"
     uxgrid = ux.open_grid(grid_path)
*)
Definition cell_03 : cell :=
  Code
    [ SAssign
        [EName "grid_path"]
        (EStr "../../test/meshfiles/ugrid/quad-hexagon/grid.nc");
      SAssign
        [EName "uxgrid"]
        (ECall (EAttribute (EName "ux") "open_grid") [EName "grid_path"] []) ].

(* lines 41-51, prose *)
Definition cell_04 : cell :=
  Markdown
    [ "";
      "## SpatialHash";
      "UXarray `SpatialHash` class provides an API for locating the unstructured grid faces that a list of $(x,y)$ points (in spherical coordinates) lie within. This search is conducted by relating unstructured grid faces and arbitrary physical positions to a uniformly spaced structured grid (the hash grid). The relationship between the unstructured grid elements and the hash grid is maintained in a hash table. ";
      "";
      "### Parameters";
      "The `SpatialHash` class can be accessed through the `Grid.get_spatial_hash(reconstruct)` method, which takes in the following parameters:";
      "* `reconstruct` is a bool variable that allows the user to reconstruct the spatial hash structure. As default for performance, if a user calls `get_spatial_hash` and a spatial hash structure has already been created, it will simply use that one. If `reconstruct` is set to `True`, it will override this and reconstruct the spatial hash structure. The default parameter is `False`.";
      "";
      "";
      "### Constructing a Spatial Hash";
      "We can store the SpatialHash data structure in a variable, which allows us to access the spatial hash in a simple way for queries." ].

(* lines 60-62:
     spatial_hash = uxgrid.get_spatial_hash(
         reconstruct="False",
     )
*)
Definition cell_05 : cell :=
  Code
    [ SAssign
        [EName "spatial_hash"]
        (ECall
          (EAttribute (EName "uxgrid") "get_spatial_hash")
          []
          [(Some "reconstruct", EStr "False")]) ].

(* lines 69-70, prose *)
Definition cell_06 : cell :=
  Markdown
    [ "### Query";
      "Now we can use that variable to query for the face that a point lies within in addition to its barycentric coordinates. The first parameter is the point from which to do the search, which must be in spherical coordinates." ].

(* lines 79-81:
     face_ids, bcoords = uxgrid.get_spatial_hash().query([-0.1, -0.1])
     print(f"face ids : {face_ids}")
     print(f"Barycentric Coordinates: {bcoords}")
*)
Definition cell_07 : cell :=
  Code
    [ SAssign
        [ETuple [EName "face_ids"; EName "bcoords"]]
        (ECall
          (EAttribute
            (ECall (EAttribute (EName "uxgrid") "get_spatial_hash") [] [])
            "query")
          [ EList
              [EUnaryOp USub (EFloat 1 (-1)); EUnaryOp USub (EFloat 1 (-1))] ]
          []);
      SExpr
        (ECall
          (EName "print")
          [ EJoinedStr
              [EStr "face ids : "; EFormattedValue (EName "face_ids")] ]
          []);
      SExpr
        (ECall
          (EName "print")
          [ EJoinedStr
              [ EStr "Barycentric Coordinates: ";
                EFormattedValue (EName "bcoords") ] ]
          []) ].

Definition nb : notebook :=
  {| file := "src/docs/user-guide/spatial-hashing.ipynb";
     first_line := 1;
     cells := [cell_00; cell_01; cell_02; cell_03; cell_04; cell_05; cell_06;
       cell_07] |}.

End SpatialHashing.

(** *** Custom Grid Topology  (src/docs/user-guide/spatial-hashing.ipynb, from line 107) *)

Module CustomGrid.

(* lines 114-116, prose *)
Definition cell_00 : cell :=
  Markdown
    [ "# Custom Grid Topology";
      "";
      "This notebook will showcase how to construct UXarray data structures from custom grid topology information, including how to convert existing Xarray data structures to UXarray." ].

(* lines 126-129:
     import numpy as np
     import xarray as xr

     import uxarray as ux
*)
Definition cell_01 : cell :=
  Code
    [ SImport [{| name := "numpy"; asname := Some "np" |}];
      SImport [{| name := "xarray"; asname := Some "xr" |}];
      SImport [{| name := "uxarray"; asname := Some "ux" |}] ].

(* lines 137-145, prose *)
Definition cell_02 : cell :=
  Markdown
    [ "## Minimal Grid Definition";
      "";
      "The UGRID conventions require a minimal set of variables for representing a 2D unstructured grid. ";
      "";
      "| **Variable**             | **Shape**                      | **Description**                                |";
      "|--------------------------|--------------------------------|------------------------------------------------|";
      "| `node_lon`               | `(n_node, )`                   | Longitude of the nodes that make up each face. |";
      "| `node_lat`               | `(n_node, )`                   | Latitude of the nodes that make up each face.  |";
      "| `face_node_connectivity` | `(n_face, n_max_face_nodes])`   | Indices of the nodes that surround each face.  |";
      "" ].

(* lines 153-155, prose *)
Definition cell_03 : cell :=
  Markdown
    [ "## Fixed Face Sizes";
      "";
      "For grids where each face has the same number of nodes, such as strictly triangular grids, each row in the `face_node_connectivity` array will contain the indices of nodes that surround each face, with no fill values. Below is an example of the node coordinates and connectivity required for representing a single triangle in the UGRID conventions." ].

(* lines 165-171:
     node_lon = np.array([-20.0, 0.0, 20.0])
     node_lat = np.array([-10.0, 10.0, -10.0])
     face_node_connectivity = np.array(
         [
             [0, 1, 2],
         ]
     )
*)
Definition cell_04 : cell :=
  Code
    [ SAssign
        [EName "node_lon"]
        (ECall
          (EAttribute (EName "np") "array")
          [ EList
              [ EUnaryOp USub (EFloat 200 (-1));
                EFloat 0 (-1);
                EFloat 200 (-1) ] ]
          []);
      SAssign
        [EName "node_lat"]
        (ECall
          (EAttribute (EName "np") "array")
          [ EList
              [ EUnaryOp USub (EFloat 100 (-1));
                EFloat 100 (-1);
                EUnaryOp USub (EFloat 100 (-1)) ] ]
          []);
      SAssign
        [EName "face_node_connectivity"]
        (ECall
          (EAttribute (EName "np") "array")
          [EList [EList [EInt 0; EInt 1; EInt 2]]]
          []) ].

(* lines 179-179, prose *)
Definition cell_05 : cell :=
  Markdown
    [ "These variables can be passed directly into the `Grid.from_topology()` class-method, which allows custom grid topology information. This is especially useful for cases where a specific grid format isn't directly supported. " ].

(* lines 189-191:
     uxgrid_tri = ux.Grid.from_topology(
         node_lon=node_lon, node_lat=node_lat, face_node_connectivity=face_node_connectivity
     )
*)
Definition cell_06 : cell :=
  Code
    [ SAssign
        [EName "uxgrid_tri"]
        (ECall
          (EAttribute (EAttribute (EName "ux") "Grid") "from_topology")
          []
          [ (Some "node_lon", EName "node_lon");
            (Some "node_lat", EName "node_lat");
            (Some "face_node_connectivity", EName "face_node_connectivity") ]) ].

(* lines 201-201:
     uxgrid_tri.plot(title="Triangle")
*)
Definition cell_07 : cell :=
  Code
    [ SExpr
        (ECall
          (EAttribute (EName "uxgrid_tri") "plot")
          []
          [(Some "title", EStr "Triangle")]) ].

(* lines 209-211, prose *)
Definition cell_08 : cell :=
  Markdown
    [ "## Mixed Face Sizes";
      "";
      "For grids where each face does not have the same number of nodes, the `face_node_connectivity` array will have it's final dimension (`n_max_face_nodes`) set to the largest element shape. For example, a grid with triangles and quadrialterals will have a final dimension of 4. Any element that has less than the maximum number of nodes will be padded with a fill value. The `face_node_connectivity` array below showcases a basic grid with a single triangle and quadrilateral. Observe that the first row is set to `[0, 1, 2, -1]`, with the first three integers being the indices of the triangle corners, and the final value used as a fill value." ].

(* lines 221-223:
     node_lon = np.array([-20.0, 0.0, 20.0, -20, -40])
     node_lat = np.array([-10.0, 10.0, -10.0, 10, -10])
     face_node_connectivity = np.array([[0, 1, 2, -1], [0, 1, 3, 4]])
*)
Definition cell_09 : cell :=
  Code
    [ SAssign
        [EName "node_lon"]
        (ECall
          (EAttribute (EName "np") "array")
          [ EList
              [ EUnaryOp USub (EFloat 200 (-1));
                EFloat 0 (-1);
                EFloat 200 (-1);
                EUnaryOp USub (EInt 20);
                EUnaryOp USub (EInt 40) ] ]
          []);
      SAssign
        [EName "node_lat"]
        (ECall
          (EAttribute (EName "np") "array")
          [ EList
              [ EUnaryOp USub (EFloat 100 (-1));
                EFloat 100 (-1);
                EUnaryOp USub (EFloat 100 (-1));
                EInt 10;
                EUnaryOp USub (EInt 10) ] ]
          []);
      SAssign
        [EName "face_node_connectivity"]
        (ECall
          (EAttribute (EName "np") "array")
          [ EList
              [ EList [EInt 0; EInt 1; EInt 2; EUnaryOp USub (EInt 1)];
                EList [EInt 0; EInt 1; EInt 3; EInt 4] ] ]
          []) ].

(* lines 231-231, prose *)
Definition cell_10 : cell :=
  Markdown
    [ "The `fill_value` parameter must be passed in when working with a mixed topology grid. " ].

(* lines 241-246:
     uxgrid_tri_quad = ux.Grid.from_topology(
         node_lon=node_lon,
         node_lat=node_lat,
         face_node_connectivity=face_node_connectivity,
         fill_value=-1,
     )
*)
Definition cell_11 : cell :=
  Code
    [ SAssign
        [EName "uxgrid_tri_quad"]
        (ECall
          (EAttribute (EAttribute (EName "ux") "Grid") "from_topology")
          []
          [ (Some "node_lon", EName "node_lon");
            (Some "node_lat", EName "node_lat");
            (Some "face_node_connectivity", EName "face_node_connectivity");
            (Some "fill_value", EUnaryOp USub (EInt 1)) ]) ].

(* lines 256-256:
     uxgrid_tri_quad.plot(title="Triangle & Quad")
*)
Definition cell_12 : cell :=
  Code
    [ SExpr
        (ECall
          (EAttribute (EName "uxgrid_tri_quad") "plot")
          []
          [(Some "title", EStr "Triangle & Quad")]) ].

(* lines 264-266, prose *)
Definition cell_13 : cell :=
  Markdown
    [ "## Working with Existing Xarray Structures";
      "";
      "The previous examples showcase how to create a `Grid` from custom topology. The follow sections will walk through how to match data to the `Grid`." ].

(* lines 274-276, prose *)
Definition cell_14 : cell :=
  Markdown
    [ "### `xr.DataArray` to `ux.UxDataArray`";
      "";
      "Consider the previous example where we constructed the `uxgrid_tri` grid, consisting of a single triangle. Below is an example `xr.DataArray` containing four temperature values. " ].

(* lines 286-295:
     xrda_temp = xr.DataArray(
         name="temp",
         data=np.array(
             [
                 [100, 105, 108, 109],
             ]
         ).T,
         dims=["time", "cell"],
     )
     xrda_temp
*)
Definition cell_15 : cell :=
  Code
    [ SAssign
        [EName "xrda_temp"]
        (ECall
          (EAttribute (EName "xr") "DataArray")
          []
          [ (Some "name", EStr "temp");
            ( Some "data",
              EAttribute
                (ECall
                  (EAttribute (EName "np") "array")
                  [EList [EList [EInt 100; EInt 105; EInt 108; EInt 109]]]
                  [])
                "T" );
            (Some "dims", EList [EStr "time"; EStr "cell"]) ]);
      SExpr (EName "xrda_temp") ].

(* lines 303-313, prose *)
Definition cell_16 : cell :=
  Markdown
    [ "The original dimension must be mapped to their UGRID equivalent. ";
      "";
      "| **Data Mapping** | **UGRID Dimension Name** |";
      "|------------------|--------------------------|";
      "| Faces            | n_face                   |";
      "| Edges            | n_edge                   |";
      "| Nodes            | n_node                   |";
      "";
      "";
      "In the example above, the `cell` dimension corresponds to the faces of the grid, meaning we want to translate the dimension to `n_face`";
      "";
      "" ].

(* lines 323-323:
     ugrid_dims = {"cell": "n_face"}
*)
Definition cell_17 : cell :=
  Code
    [ SAssign
        [EName "ugrid_dims"]
        (EDict [(Some (EStr "cell"), EStr "n_face")]) ].

(* lines 331-331, prose *)
Definition cell_18 : cell :=
  Markdown
    [ "The `UxDataArray.from_xarray()` takes in a user-defined `Grid` in addition to the original `xr.DataArray` and UGRID dimension mapping and returns a `UxDataArray`" ].

(* lines 341-342:
     uxda_temp = ux.UxDataArray.from_xarray(xrda_temp, uxgrid_tri, ugrid_dims)
     uxda_temp
*)
Definition cell_19 : cell :=
  Code
    [ SAssign
        [EName "uxda_temp"]
        (ECall
          (EAttribute (EAttribute (EName "ux") "UxDataArray") "from_xarray")
          [EName "xrda_temp"; EName "uxgrid_tri"; EName "ugrid_dims"]
          []);
      SExpr (EName "uxda_temp") ].

(* lines 350-352, prose *)
Definition cell_20 : cell :=
  Markdown
    [ "### `xr.Dataset` to `ux.UxDataset`";
      "";
      "More commonly, you may have an entire `xr.Dataset` that contains data variables. " ].

(* lines 362-372:
     xrda_vorticity = xr.DataArray(
         name="vorticity",
         data=np.array(
             [
                 [1, 2, 3, 4],
                 [5, 6, 7, 8],
                 [9, 10, 11, 12],
             ]
         ).T,
         dims=["time", "vertex"],
     )
*)
Definition cell_21 : cell :=
  Code
    [ SAssign
        [EName "xrda_vorticity"]
        (ECall
          (EAttribute (EName "xr") "DataArray")
          []
          [ (Some "name", EStr "vorticity");
            ( Some "data",
              EAttribute
                (ECall
                  (EAttribute (EName "np") "array")
                  [ EList
                      [ EList [EInt 1; EInt 2; EInt 3; EInt 4];
                        EList [EInt 5; EInt 6; EInt 7; EInt 8];
                        EList [EInt 9; EInt 10; EInt 11; EInt 12] ] ]
                  [])
                "T" );
            (Some "dims", EList [EStr "time"; EStr "vertex"]) ]) ].

(* lines 380-380, prose *)
Definition cell_22 : cell :=
  Markdown
    [ "In this example, we have a cell-centered `temp` and vertex-centered `vorticity` variable. " ].

(* lines 390-391:
     ds = xr.Dataset(data_vars={"temp": xrda_temp, "vorticity": xrda_vorticity})
     ds
*)
Definition cell_23 : cell :=
  Code
    [ SAssign
        [EName "ds"]
        (ECall
          (EAttribute (EName "xr") "Dataset")
          []
          [ ( Some "data_vars",
              EDict
                [ (Some (EStr "temp"), EName "xrda_temp");
                  (Some (EStr "vorticity"), EName "xrda_vorticity") ] ) ]);
      SExpr (EName "ds") ].

(* lines 399-399, prose *)
Definition cell_24 : cell :=
  Markdown
    [ "We must now include an additional entry into our `ugrid_dims` dictionary for our vertex-centered data variable." ].

(* lines 409-409:
     ugrid_dims = {"cell": "n_face", "vertex": "n_node"}
*)
Definition cell_25 : cell :=
  Code
    [ SAssign
        [EName "ugrid_dims"]
        (EDict
          [ (Some (EStr "cell"), EStr "n_face");
            (Some (EStr "vertex"), EStr "n_node") ]) ].

(* lines 419-419:
     uxds = ux.UxDataset.from_xarray(ds=ds, uxgrid=uxgrid_tri, ugrid_dims=ugrid_dims)
*)
Definition cell_26 : cell :=
  Code
    [ SAssign
        [EName "uxds"]
        (ECall
          (EAttribute (EAttribute (EName "ux") "UxDataset") "from_xarray")
          []
          [ (Some "ds", EName "ds");
            (Some "uxgrid", EName "uxgrid_tri");
            (Some "ugrid_dims", EName "ugrid_dims") ]) ].

(* lines 427-427, prose *)
Definition cell_27 : cell :=
  Markdown
    [ "uxds now has two `UxDataArray` objects, one for the cell-centered data `temp` and one for the vertex-centered data `vorticity`. There are 4 time steps 0, 1, 2, and 3. Values for time step 0 are shown below." ].

(* lines 437-437:
     uxds["vorticity"][0]
*)
Definition cell_28 : cell :=
  Code
    [ SExpr
        (ESubscript (ESubscript (EName "uxds") (EStr "vorticity")) (EInt 0)) ].

Definition nb : notebook :=
  {| file := "src/docs/user-guide/spatial-hashing.ipynb";
     first_line := 107;
     cells := [cell_00; cell_01; cell_02; cell_03; cell_04; cell_05; cell_06;
       cell_07; cell_08; cell_09; cell_10; cell_11; cell_12; cell_13; cell_14;
       cell_15; cell_16; cell_17; cell_18; cell_19; cell_20; cell_21; cell_22;
       cell_23; cell_24; cell_25; cell_26; cell_27; cell_28] |}.

End CustomGrid.

(** *** Subsetting  (src/docs/user-guide/subset.ipynb, from line 1) *)

Module Subset.

(* lines 12-17, prose *)
Definition cell_00 : cell :=
  Markdown
    [ "# Subsetting";
      "";
      "When working with large grids, it is often desired to obtain a smaller version, typically zoomed into a region of interest. UXarray supports this through grid-informed subsetting operations. This section will discuss the types of ways to subset a grid:";
      "1. Nearest Neighbor";
      "2. Bounding Box";
      "3. Bounding Circle" ].

(* lines 31-42:
     import warnings

     import cartopy.crs as ccrs
     import geocat.datafiles as geodf
     import geoviews.feature as gf
     import holoviews as hv

     import uxarray as ux

     plot_opts = {"width": 700, "height": 350}
     hv.extension("bokeh")
     warnings.filterwarnings("ignore")
*)
Definition cell_01 : cell :=
  Code
    [ SImport [{| name := "warnings"; asname := None |}];
      SImport [{| name := "cartopy.crs"; asname := Some "ccrs" |}];
      SImport [{| name := "geocat.datafiles"; asname := Some "geodf" |}];
      SImport [{| name := "geoviews.feature"; asname := Some "gf" |}];
      SImport [{| name := "holoviews"; asname := Some "hv" |}];
      SImport [{| name := "uxarray"; asname := Some "ux" |}];
      SAssign
        [EName "plot_opts"]
        (EDict
          [(Some (EStr "width"), EInt 700); (Some (EStr "height"), EInt 350)]);
      SExpr (ECall (EAttribute (EName "hv") "extension") [EStr "bokeh"] []);
      SExpr
        (ECall
          (EAttribute (EName "warnings") "filterwarnings")
          [EStr "ignore"]
          []) ].

(* lines 54-56, prose *)
Definition cell_02 : cell :=
  Markdown
    [ "## Data";
      "";
      "In this example, we will be using the `geocat-datafiles` package to obtain our grid and data files. The dataset used in this example is a 30km global MPAS meshes. We will be investigating the relative humidity vertically interpolated to 200hPa (`relhum200hPa`) data variable." ].

(* lines 70-75:
     datafiles = (
         geodf.get(
             "netcdf_files/MPAS/FalkoJudt/dyamond_1/30km/diag.2016-08-20_00.00.00_subset.nc"
         ),
         geodf.get("netcdf_files/MPAS/FalkoJudt/dyamond_1/30km/x1.655362.grid_subset.nc"),
     )
*)
Definition cell_03 : cell :=
  Code
    [ SAssign
        [EName "datafiles"]
        (ETuple
          [ ECall
              (EAttribute (EName "geodf") "get")
              [ EStr
                  "netcdf_files/MPAS/FalkoJudt/dyamond_1/30km/diag.2016-08-20_00.00.00_subset.nc" ]
              [];
            ECall
              (EAttribute (EName "geodf") "get")
              [ EStr
                  "netcdf_files/MPAS/FalkoJudt/dyamond_1/30km/x1.655362.grid_subset.nc" ]
              [] ]) ].

(* lines 89-89:
     uxds = ux.open_dataset(datafiles[1], datafiles[0])
*)
Definition cell_04 : cell :=
  Code
    [ SAssign
        [EName "uxds"]
        (ECall
          (EAttribute (EName "ux") "open_dataset")
          [ ESubscript (EName "datafiles") (EInt 1);
            ESubscript (EName "datafiles") (EInt 0) ]
          []) ].

(* lines 103-103:
     clim = (uxds["relhum_200hPa"][0].values.min(), uxds["relhum_200hPa"][0].values.max())
*)
Definition cell_05 : cell :=
  Code
    [ SAssign
        [EName "clim"]
        (ETuple
          [ ECall
              (EAttribute
                (EAttribute
                  (ESubscript
                    (ESubscript (EName "uxds") (EStr "relhum_200hPa"))
                    (EInt 0))
                  "values")
                "min")
              []
              [];
            ECall
              (EAttribute
                (EAttribute
                  (ESubscript
                    (ESubscript (EName "uxds") (EStr "relhum_200hPa"))
                    (EInt 0))
                  "values")
                "max")
              []
              [] ]) ].

(* lines 117-119:
     features = gf.coastline(
         projection=ccrs.PlateCarree(), line_width=1, scale="50m"
     ) * gf.states(projection=ccrs.PlateCarree(), line_width=1, scale="50m")
*)
Definition cell_06 : cell :=
  Code
    [ SAssign
        [EName "features"]
        (EBinOp
          (ECall
            (EAttribute (EName "gf") "coastline")
            []
            [ ( Some "projection",
                ECall (EAttribute (EName "ccrs") "PlateCarree") [] [] );
              (Some "line_width", EInt 1);
              (Some "scale", EStr "50m") ])
          Mult
          (ECall
            (EAttribute (EName "gf") "states")
            []
            [ ( Some "projection",
                ECall (EAttribute (EName "ccrs") "PlateCarree") [] [] );
              (Some "line_width", EInt 1);
              (Some "scale", EStr "50m") ])) ].

(* lines 131-133, prose *)
Definition cell_07 : cell :=
  Markdown
    [ "## Global Grid";
      "";
      "Many unstructured grids, such as those from global climate models, span the entire surface of a sphere. UXarray supports working with these global grids, handling cases that arise with the spherical geometry of the earth (wrap around at the antimeridian, pole points, etc.)";
      "" ].

(* lines 147-149:
     uxds["relhum_200hPa"][0].plot(
         rasterize=True, periodic_elements="exclude", title="Global Grid", **plot_opts
     ) * features
*)
Definition cell_08 : cell :=
  Code
    [ SExpr
        (EBinOp
          (ECall
            (EAttribute
              (ESubscript
                (ESubscript (EName "uxds") (EStr "relhum_200hPa"))
                (EInt 0))
              "plot")
            []
            [ (Some "rasterize", EBool true);
              (Some "periodic_elements", EStr "exclude");
              (Some "title", EStr "Global Grid");
              (None, EName "plot_opts") ])
          Mult
          (EName "features")) ].

(* lines 161-161, prose *)
Definition cell_09 : cell :=
  Markdown
    [ "In addition to plotting global grids, we can perform analysis operations on the entire grid." ].

(* lines 175-175:
     uxds["relhum_200hPa"][0].values.mean()
*)
Definition cell_10 : cell :=
  Code
    [ SExpr
        (ECall
          (EAttribute
            (EAttribute
              (ESubscript
                (ESubscript (EName "uxds") (EStr "relhum_200hPa"))
                (EInt 0))
              "values")
            "mean")
          []
          []) ].

(* lines 187-191, prose *)
Definition cell_11 : cell :=
  Markdown
    [ "## Regional Subsets";
      "";
      "UXarray supports taking subsets of a grid, which allows us to select a region and perform analysis directly on that area, as opposed to the global grid.";
      "";
      "There are currently three supported subsetting methods, both for the `Grid` and `UxDataArray` data structures." ].

(* lines 205-205:
     uxds["relhum_200hPa"].subset
*)
Definition cell_12 : cell :=
  Code
    [ SExpr
        (EAttribute
          (ESubscript (EName "uxds") (EStr "relhum_200hPa"))
          "subset") ].

(* lines 219-219:
     uxds["relhum_200hPa"].uxgrid.subset
*)
Definition cell_13 : cell :=
  Code
    [ SExpr
        (EAttribute
          (EAttribute
            (ESubscript (EName "uxds") (EStr "relhum_200hPa"))
            "uxgrid")
          "subset") ].

(* lines 231-233, prose *)
Definition cell_14 : cell :=
  Markdown
    [ "### Bounding Box";
      "";
      "We can declare a bounding box centered about the Chicago area by specifying the minimum and maximum longitude and latitude bounds.";
      "" ].

(* lines 247-248:
     lon_bounds = (-87.6298 - 2, -87.6298 + 2)
     lat_bounds = (41.8781 - 2, 41.8781 + 2)
*)
Definition cell_15 : cell :=
  Code
    [ SAssign
        [EName "lon_bounds"]
        (ETuple
          [ EBinOp (EUnaryOp USub (EFloat 876298 (-4))) Sub (EInt 2);
            EBinOp (EUnaryOp USub (EFloat 876298 (-4))) Add (EInt 2) ]);
      SAssign
        [EName "lat_bounds"]
        (ETuple
          [ EBinOp (EFloat 418781 (-4)) Sub (EInt 2);
            EBinOp (EFloat 418781 (-4)) Add (EInt 2) ]) ].

(* lines 262-273:
     bbox_subset_nodes = uxds["relhum_200hPa"][0].subset.bounding_box(
         lon_bounds,
         lat_bounds,
     )

     bbox_subset_nodes.plot(
         rasterize=True,
         periodic_elements="exclude",
         clim=clim,
         title="Bounding Box Subset (Corner Node Query)",
         **plot_opts,
     ) * features
*)
Definition cell_16 : cell :=
  Code
    [ SAssign
        [EName "bbox_subset_nodes"]
        (ECall
          (EAttribute
            (EAttribute
              (ESubscript
                (ESubscript (EName "uxds") (EStr "relhum_200hPa"))
                (EInt 0))
              "subset")
            "bounding_box")
          [EName "lon_bounds"; EName "lat_bounds"]
          []);
      SExpr
        (EBinOp
          (ECall
            (EAttribute (EName "bbox_subset_nodes") "plot")
            []
            [ (Some "rasterize", EBool true);
              (Some "periodic_elements", EStr "exclude");
              (Some "clim", EName "clim");
              (Some "title", EStr "Bounding Box Subset (Corner Node Query)");
              (None, EName "plot_opts") ])
          Mult
          (EName "features")) ].

(* lines 285-287, prose *)
Definition cell_17 : cell :=
  Markdown
    [ "### Bounding Circle";
      "";
      "A bounding circle is defined using a center coordinate (lon, lat) and a radius (in degrees). The resulting subset will contain all elements within the radius of that circle." ].

(* lines 301-303:
     center_coord = [-87.6298, 41.8781]

     r = 2
*)
Definition cell_18 : cell :=
  Code
    [ SAssign
        [EName "center_coord"]
        (EList [EUnaryOp USub (EFloat 876298 (-4)); EFloat 418781 (-4)]);
      SAssign [EName "r"] (EInt 2) ].

(* lines 317-325:
     bcircle_subset = uxds["relhum_200hPa"][0].subset.bounding_circle(center_coord, r)

     bcircle_subset.plot(
         rasterize=True,
         periodic_elements="exclude",
         clim=clim,
         title="Bounding Circle Subset",
         **plot_opts,
     ) * features
*)
Definition cell_19 : cell :=
  Code
    [ SAssign
        [EName "bcircle_subset"]
        (ECall
          (EAttribute
            (EAttribute
              (ESubscript
                (ESubscript (EName "uxds") (EStr "relhum_200hPa"))
                (EInt 0))
              "subset")
            "bounding_circle")
          [EName "center_coord"; EName "r"]
          []);
      SExpr
        (EBinOp
          (ECall
            (EAttribute (EName "bcircle_subset") "plot")
            []
            [ (Some "rasterize", EBool true);
              (Some "periodic_elements", EStr "exclude");
              (Some "clim", EName "clim");
              (Some "title", EStr "Bounding Circle Subset");
              (None, EName "plot_opts") ])
          Mult
          (EName "features")) ].

(* lines 337-339, prose *)
Definition cell_20 : cell :=
  Markdown
    [ "### Nearest Neighbor";
      "";
      "Similar to the bounding circle, we can perform a nearest neighbor subset at some center coordinate (lon, lat) and query for some number of elements `k`" ].

(* lines 353-353:
     center_coord = [-87.6298, 41.8781]
*)
Definition cell_21 : cell :=
  Code
    [ SAssign
        [EName "center_coord"]
        (EList [EUnaryOp USub (EFloat 876298 (-4)); EFloat 418781 (-4)]) ].

(* lines 367-377:
     nn_subset = uxds["relhum_200hPa"][0].subset.nearest_neighbor(
         center_coord, k=30, element="nodes"
     )

     nn_subset.plot(
         rasterize=True,
         periodic_elements="exclude",
         clim=clim,
         title="Nearest Neighbor Subset (Query 30 closest nodes)",
         **plot_opts,
     ) * features
*)
Definition cell_22 : cell :=
  Code
    [ SAssign
        [EName "nn_subset"]
        (ECall
          (EAttribute
            (EAttribute
              (ESubscript
                (ESubscript (EName "uxds") (EStr "relhum_200hPa"))
                (EInt 0))
              "subset")
            "nearest_neighbor")
          [EName "center_coord"]
          [(Some "k", EInt 30); (Some "element", EStr "nodes")]);
      SExpr
        (EBinOp
          (ECall
            (EAttribute (EName "nn_subset") "plot")
            []
            [ (Some "rasterize", EBool true);
              (Some "periodic_elements", EStr "exclude");
              (Some "clim", EName "clim");
              ( Some "title",
                EStr "Nearest Neighbor Subset (Query 30 closest nodes)" );
              (None, EName "plot_opts") ])
          Mult
          (EName "features")) ].

(* lines 389-389, prose *)
Definition cell_23 : cell :=
  Markdown
    ["We can increase the number of neighbors `k` to make the region larger."].

(* lines 403-413:
     nn_subset_120 = uxds["relhum_200hPa"][0].subset.nearest_neighbor(
         center_coord, k=120, element="face centers"
     )

     nn_subset_120.plot(
         rasterize=True,
         periodic_elements="exclude",
         clim=clim,
         title="Nearest Neighbor Subset (Query 120 Closest Faces)",
         **plot_opts,
     ) * features
*)
Definition cell_24 : cell :=
  Code
    [ SAssign
        [EName "nn_subset_120"]
        (ECall
          (EAttribute
            (EAttribute
              (ESubscript
                (ESubscript (EName "uxds") (EStr "relhum_200hPa"))
                (EInt 0))
              "subset")
            "nearest_neighbor")
          [EName "center_coord"]
          [(Some "k", EInt 120); (Some "element", EStr "face centers")]);
      SExpr
        (EBinOp
          (ECall
            (EAttribute (EName "nn_subset_120") "plot")
            []
            [ (Some "rasterize", EBool true);
              (Some "periodic_elements", EStr "exclude");
              (Some "clim", EName "clim");
              ( Some "title",
                EStr "Nearest Neighbor Subset (Query 120 Closest Faces)" );
              (None, EName "plot_opts") ])
          Mult
          (EName "features")) ].

(* lines 425-425, prose *)
Definition cell_25 : cell :=
  Markdown ["When we set ``k=1``, it selects the closest neighbor."].

(* lines 439-449:
     nn_subset_1 = uxds["relhum_200hPa"][0].subset.nearest_neighbor(
         center_coord, k=1, element="face centers"
     )

     nn_subset_1.plot(
         rasterize=True,
         periodic_elements="exclude",
         clim=clim,
         title="Nearest Neighbor Subset (Query Closest Face)",
         **plot_opts,
     ) * features
*)
Definition cell_26 : cell :=
  Code
    [ SAssign
        [EName "nn_subset_1"]
        (ECall
          (EAttribute
            (EAttribute
              (ESubscript
                (ESubscript (EName "uxds") (EStr "relhum_200hPa"))
                (EInt 0))
              "subset")
            "nearest_neighbor")
          [EName "center_coord"]
          [(Some "k", EInt 1); (Some "element", EStr "face centers")]);
      SExpr
        (EBinOp
          (ECall
            (EAttribute (EName "nn_subset_1") "plot")
            []
            [ (Some "rasterize", EBool true);
              (Some "periodic_elements", EStr "exclude");
              (Some "clim", EName "clim");
              ( Some "title",
                EStr "Nearest Neighbor Subset (Query Closest Face)" );
              (None, EName "plot_opts") ])
          Mult
          (EName "features")) ].

(* lines 461-465, prose *)
Definition cell_27 : cell :=
  Markdown
    [ "### Analysis Operators on Regional Subsets";
      "";
      "Since each subset is a newly initialized ``UxDataArray``, paired also with a newly initialized `Grid`, we can perform analysis operators directly on these new objects.";
      "";
      "Looking back at the global mean that we computed earlier, we can compare it to the regional mean of the Bounding Box and Bounding Circle regions respectively." ].

(* lines 479-481:
     print("Global Mean:            ", uxds["relhum_200hPa"][0].values.mean())
     print("Bounding Box Mean:      ", bbox_subset_nodes.values.mean())
     print("Bounding Circle Mean:   ", bcircle_subset.values.mean())
*)
Definition cell_28 : cell :=
  Code
    [ SExpr
        (ECall
          (EName "print")
          [ EStr "Global Mean:            ";
            ECall
              (EAttribute
                (EAttribute
                  (ESubscript
                    (ESubscript (EName "uxds") (EStr "relhum_200hPa"))
                    (EInt 0))
                  "values")
                "mean")
              []
              [] ]
          []);
      SExpr
        (ECall
          (EName "print")
          [ EStr "Bounding Box Mean:      ";
            ECall
              (EAttribute
                (EAttribute (EName "bbox_subset_nodes") "values")
                "mean")
              []
              [] ]
          []);
      SExpr
        (ECall
          (EName "print")
          [ EStr "Bounding Circle Mean:   ";
            ECall
              (EAttribute
                (EAttribute (EName "bcircle_subset") "values")
                "mean")
              []
              [] ]
          []) ].

(* lines 488-488, prose *)
Definition cell_29 : cell :=
  Markdown ["## Retrieving Orignal Grid Indices"].

(* lines 495-501, prose *)
Definition cell_30 : cell :=
  Markdown
    [ "Sometimes having the original grids' indices is useful. These indices can be stored within the subset with the `inverse_indices` variable. This can be used to store the indices of the original face centers, edge centers, and node indices. This variable can be used within the subset as follows:";
      "";
      "* Passing in `True`, which will store the face center indices";
      "* Passing in a list of which indices to store, along with `True`, to indicate what kind of original grid indices to store.";
      "    * Options for which indices to select include: `face`, `node`, and `edge`";
      "";
      "This currently only works when the element is `face centers`. Elements `nodes` and `edge centers` will be supported in the future." ].

(* lines 510-515:
     subset_grid = uxds["relhum_200hPa"][0].subset.bounding_circle(
         center_coord,
         r,
         element="face centers",
         inverse_indices=(["face", "node", "edge"], True),
     )
*)
Definition cell_31 : cell :=
  Code
    [ SAssign
        [EName "subset_grid"]
        (ECall
          (EAttribute
            (EAttribute
              (ESubscript
                (ESubscript (EName "uxds") (EStr "relhum_200hPa"))
                (EInt 0))
              "subset")
            "bounding_circle")
          [EName "center_coord"; EName "r"]
          [ (Some "element", EStr "face centers");
            ( Some "inverse_indices",
              ETuple
                [EList [EStr "face"; EStr "node"; EStr "edge"]; EBool true] ) ]) ].

(* lines 522-522, prose *)
Definition cell_32 : cell :=
  Markdown ["These indices can be retrieve through the grid:"].

(* lines 531-531:
     subset_grid.uxgrid.inverse_indices
*)
Definition cell_33 : cell :=
  Code
    [ SExpr
        (EAttribute
          (EAttribute (EName "subset_grid") "uxgrid")
          "inverse_indices") ].

(* lines 538-538, prose *)
Definition cell_34 : cell :=
  Markdown ["## Determining if a Grid is a Subset"].

(* lines 545-545, prose *)
Definition cell_35 : cell :=
  Markdown
    [ "To check if a Grid (or dataset using `.uxgrid`) is a subset, we can use `Grid.is_subset`, which will return either `True` or `False`, depending on whether the `Grid` is a subset. Since `subset_indices` is a subset, using this feature we will return `True`:" ].

(* lines 554-554:
     subset_grid.uxgrid.is_subset
*)
Definition cell_36 : cell :=
  Code
    [ SExpr
        (EAttribute (EAttribute (EName "subset_grid") "uxgrid") "is_subset") ].

(* lines 561-561, prose *)
Definition cell_37 : cell :=
  Markdown
    [ "The file we have been using to create these subsets, `uxds`, is not a subset, so using the same call we will return `False:`" ].

(* lines 570-570:
     uxds.uxgrid.is_subset
*)
Definition cell_38 : cell :=
  Code [SExpr (EAttribute (EAttribute (EName "uxds") "uxgrid") "is_subset")].

Definition nb : notebook :=
  {| file := "src/docs/user-guide/subset.ipynb";
     first_line := 1;
     cells := [cell_00; cell_01; cell_02; cell_03; cell_04; cell_05; cell_06;
       cell_07; cell_08; cell_09; cell_10; cell_11; cell_12; cell_13; cell_14;
       cell_15; cell_16; cell_17; cell_18; cell_19; cell_20; cell_21; cell_22;
       cell_23; cell_24; cell_25; cell_26; cell_27; cell_28; cell_29; cell_30;
       cell_31; cell_32; cell_33; cell_34; cell_35; cell_36; cell_37;
       cell_38] |}.

End Subset.

(** The repository: every notebook under src/. *)
Definition repository : list notebook :=
  [ CrossSections.nb; Healpix.nb; Remapping.nb; DualMesh.nb; WeightedMean.nb;
    Holoviz.nb; SpatialHashing.nb; CustomGrid.nb; Subset.nb ].

(** The code cells of a notebook, each as its block of statements. *)
Definition code_cells (n : notebook) : list (list stmt) :=
  flat_map (fun c => match c with Code b => [b] | Markdown _ => [] end)
           (cells n).

(** Every code cell of the repository. *)
Definition all_code_cells : list (list stmt) :=
  flat_map code_cells repository.

(** ** Syntactic observations *)

(** All sub-expressions of an expression, itself first. *)
Fixpoint subexprs (e : expr) : list expr :=
  e ::
  match e with
  | EName _ | EInt _ | EFloat _ _ | EStr _ | EBool _ | ENone => []
  | EAttribute v _ => subexprs v
  | ESubscript v i => subexprs v ++ subexprs i
  | ECall f args kws =>
      subexprs f ++ flat_map subexprs args
        ++ flat_map (fun kw => match kw with (_, v) => subexprs v end) kws
  | EList es | ETuple es | EBoolOp _ es | EJoinedStr es => flat_map subexprs es
  | EDict items =>
      flat_map (fun it => match it with
                          | (Some k, v) => subexprs k ++ subexprs v
                          | (None, v) => subexprs v
                          end) items
  | EBinOp l _ r => subexprs l ++ subexprs r
  | EUnaryOp _ v | EFormattedValue v | EStarred v | EAwait v
  | ELambda _ v => subexprs v
  | ECompare l rest =>
      subexprs l
        ++ flat_map (fun c => match c with (_, v) => subexprs v end) rest
  | EIfExp t b o => subexprs t ++ subexprs b ++ subexprs o
  | EComp elt gens =>
      subexprs elt
        ++ flat_map (fun g => match g with
                              | (_, t, i) => subexprs t ++ subexprs i
                              end) gens
  | EYield (Some v) => subexprs v
  | EYield None => []
  end.

Definition opt_expr (o : option expr) : list expr :=
  match o with Some e => [e] | None => [] end.

(** The expressions a statement holds itself, not those of the statements
    nested in it. *)
Definition stmt_exprs (s : stmt) : list expr :=
  match s with
  | SImport _ | SImportFrom _ _ | SGlobal _ | SNonlocal _
  | SPass | SBreak | SContinue | STry _ _ _ _ => []
  | SAssign ts v => ts ++ [v]
  | SAugAssign t _ v => [t; v]
  | SAnnAssign t a v => [t; a] ++ opt_expr v
  | SExpr v | SAssert v => [v]
  | SFor _ t i _ _ => [t; i]
  | SWhile t _ _ | SIf t _ _ => [t]
  | SWith _ items _ =>
      flat_map (fun it => match it with (c, v) => c :: opt_expr v end) items
  | SRaise v | SReturn v => opt_expr v
  | SFunctionDef _ _ _ _ => []
  | SClassDef _ bases _ => bases
  | SDelete ts => ts
  end.

(** All statements nested in a statement, itself first. *)
Fixpoint substmts (s : stmt) : list stmt :=
  s ::
  match s with
  | SFor _ _ _ b o | SWhile _ b o | SIf _ b o =>
      flat_map substmts b ++ flat_map substmts o
  | SWith _ _ b | SFunctionDef _ _ _ b | SClassDef _ _ b =>
      flat_map substmts b
  | STry b hs o f =>
      flat_map substmts b
        ++ flat_map (fun h => match h with
                              | (_, hb) => flat_map substmts hb
                              end) hs
        ++ flat_map substmts o ++ flat_map substmts f
  | _ => []
  end.

Definition handler_exprs (s : stmt) : list expr :=
  match s with
  | STry _ hs _ _ =>
      flat_map (fun h => match h with (t, _) => opt_expr t end) hs
  | _ => []
  end.

(** The statements and the expressions of a block, at any depth. *)
Definition block_stmts (b : list stmt) : list stmt := flat_map substmts b.

Definition block_exprs (b : list stmt) : list expr :=
  flat_map subexprs
    (flat_map (fun s => stmt_exprs s ++ handler_exprs s) (block_stmts b)).

(** The names along an access path: [a.b(x).c[0].d] gives [a; b; c; d]. *)
Fixpoint chain (e : expr) : list string :=
  match e with
  | EName x => [x]
  | EAttribute v a => chain v ++ [a]
  | ECall f _ _ => chain f
  | ESubscript v _ => chain v
  | _ => []
  end.

Fixpoint ends_with (suffix l : list string) : bool :=
  if list_eq_dec string_dec l suffix then true
  else match l with
       | [] => false
       | _ :: l' => ends_with suffix l'
       end.

Definition is_call (e : expr) : bool :=
  match e with ECall _ _ _ => true | _ => false end.

(** A block invokes the method path [p] when it holds a call whose callee's
    access path ends with [p]. *)
Definition calls_path (p : list string) (e : expr) : bool :=
  match e with
  | ECall f _ _ => ends_with p (chain f)
  | _ => false
  end.

Definition invokes (p : list string) (b : list stmt) : bool :=
  existsb (calls_path p) (block_exprs b).

(** ** Values

    Integers, strings, booleans, lists, tuples and dictionaries built by the
    notebook are concrete.  Whatever comes out of an imported package is
    symbolic: the module itself, an attribute of it, the result of calling
    it.  A float literal is the exact decimal it denotes; arithmetic on
    floats is not evaluated but kept as a [VBinOp] term.

    Three things about packages are taken for granted.  A call into a
    package does not change the lists and dictionaries the notebook passes
    to it (the notebooks themselves never change one in place).  Two of
    the callables the notebooks call return [None], as their packages
    document: [warnings.filterwarnings], and [to_netcdf] when it is given a
    path; the result of any other call is an object of the package, not
    [None].  And the truth value of an object of a package can be either. *)

Inductive value :=
| VInt (n : Z)
| VFloat (m e : Z)
| VStr (s : string)
| VBool (b : bool)
| VNone
| VList (elts : list value)
| VTuple (elts : list value)
| VDict (items : list (value * value))
| VBuiltin (name : string)
| VModule (name : string)
| VAttr (obj : value) (attr : string)
| VItem (obj index : value)
| VCall (func : value) (args : list value) (kwargs : list (string * value))
| VBinOp (l : value) (op : operator) (r : value)
| VUnaryOp (op : unaryop) (v : value)
| VUnpack (v : value) (i : nat)
| VFormat (parts : list value).

(** What a notebook does to the outside, in order: a call into a package,
    the exception such a call raises instead of returning, a [print], and
    the value of a cell's last expression, which Jupyter renders below the
    cell. *)
Inductive event :=
| Called (v : value)
| Raising (v : value)
| Printed (args : list value)
| Displayed (v : value).

(** Python's exceptions: those of the interpreter, and [Raised c], what the
    package call [c] raises.  [Unsupported] is not an exception of Python: it
    marks a construct outside the fragment evaluated here. *)
Inductive error :=
| NameError (x : string)
| TypeError
| ValueError
| IndexError
| KeyError
| Raised (c : value)
| Unsupported.

Definition catchable (e : error) : bool :=
  match e with Unsupported => false | _ => true end.

Record state := { env : list (string * value); trace : list event }.

Definition initial : state := {| env := []; trace := [] |}.

(** How a computation ends: with a value, or with an uncaught error; in
    both cases in a state. *)
Inductive outcome (A : Type) :=
| Ok (a : A) (st : state)
| Err (e : error) (st : state).
Arguments Err {A} e st.

(** A computation yields the list of its possible outcomes.  There are
    several when it tests an object of a package for truth (the result of
    [os.path.isfile], say): what such a test gives is not in the notebooks,
    so it goes both ways. *)
Definition M (A : Type) : Type := state -> list (outcome A).

Definition ret {A} (a : A) : M A := fun st => [Ok a st].

Definition fail {A} (e : error) : M A := fun st => [Err e st].

Definition bind {A B} (c : M A) (k : A -> M B) : M B :=
  fun st => flat_map (fun r => match r with
                               | Ok a st' => k a st'
                               | Err e st' => [Err e st']
                               end) (c st).

Definition either : M bool := fun st => [Ok true st; Ok false st].

Notation "x <- c ;; k" := (bind c (fun x => k))
  (at level 61, c at next level, right associativity).
Notation "c ;; k" := (bind c (fun _ => k))
  (at level 61, right associativity).

Definition mapM {A B} (f : A -> M B) : list A -> M (list B) :=
  fix go (l : list A) : M (list B) :=
    match l with
    | [] => ret []
    | a :: l' => b <- f a ;; bs <- go l' ;; ret (b :: bs)
    end.

Definition iterM {A} (f : A -> M unit) : list A -> M unit :=
  fix go (l : list A) : M unit :=
    match l with
    | [] => ret tt
    | a :: l' => f a ;; go l'
    end.

Definition emit (ev : event) : M unit :=
  fun st => [Ok tt {| env := env st; trace := trace st ++ [ev] |}].

(** The namespace of a notebook is one dictionary: binding a name that is
    already there replaces its value in place. *)
Fixpoint update (x : string) (v : value) (l : list (string * value))
  : list (string * value) :=
  match l with
  | [] => [(x, v)]
  | (y, w) :: l' => if String.eqb x y then (x, v) :: l'
                    else (y, w) :: update x v l'
  end.

Fixpoint lookup (x : string) (l : list (string * value)) : option value :=
  match l with
  | [] => None
  | (y, w) :: l' => if String.eqb x y then Some w else lookup x l'
  end.

Definition store (x : string) (v : value) : M unit :=
  fun st => [Ok tt {| env := update x v (env st); trace := trace st |}].

Definition builtins : list string := ["print"].

Definition load (x : string) : M value :=
  fun st => match lookup x (env st) with
            | Some v => [Ok v st]
            | None => if existsb (String.eqb x) builtins
                      then [Ok (VBuiltin x) st]
                      else [Err (NameError x) st]
            end.

(** An object that comes from a package. *)
Definition external (v : value) : bool :=
  match v with
  | VModule _ | VAttr _ _ | VItem _ _ | VCall _ _ _ | VBinOp _ _ _
  | VUnaryOp _ _ | VUnpack _ _ => true
  | _ => false
  end.

Definition numeric (v : value) : bool :=
  match v with VInt _ | VFloat _ _ | VBool _ => true | _ => false end.

Definition is_float (v : value) : bool :=
  match v with VFloat _ _ => true | _ => false end.

Definition string_of_Z (n : Z) : string := NilZero.string_of_int (Z.to_int n).

(** [str(v)] where the notebook can know it. *)
Definition format (v : value) : value :=
  match v with
  | VInt n => VStr (string_of_Z n)
  | VBool true => VStr "True"
  | VBool false => VStr "False"
  | VNone => VStr "None"
  | _ => v
  end.

Fixpoint join_parts (parts : list value) : option string :=
  match parts with
  | [] => Some ""
  | VStr s :: rest =>
      match join_parts rest with
      | Some t => Some (s ++ t)%string
      | None => None
      end
  | _ => None
  end.

Definition fstring (parts : list value) : value :=
  match join_parts parts with
  | Some s => VStr s
  | None => VFormat parts
  end.

(** The package that [import a.b.c] binds: [a]. *)
Fixpoint before_dot (s : string) : string :=
  match s with
  | EmptyString => EmptyString
  | String c s' => if Ascii.eqb c "." then EmptyString
                   else String c (before_dot s')
  end.

Definition import_alias (a : alias) : M unit :=
  match asname a with
  | Some x => store x (VModule (name a))
  | None => store (before_dot (name a)) (VModule (before_dot (name a)))
  end.

Definition import_from (m : string) (a : alias) : M unit :=
  store (match asname a with Some x => x | None => name a end)
        (VAttr (VModule m) (name a)).

(** [l[n]] on a list or tuple. *)
Definition index (l : list value) (n : Z) : M value :=
  let i := (if n <? 0 then n + Z.of_nat (List.length l) else n)%Z in
  if (i <? 0)%Z then fail IndexError
  else match nth_error l (Z.to_nat i) with
       | Some v => ret v
       | None => fail IndexError
       end.

(** Equality of dictionary keys; [None] when a key is not hashable here. *)
Definition key_eqb (a b : value) : option bool :=
  match a, b with
  | VStr s, VStr t => Some (String.eqb s t)
  | VInt n, VInt m => Some (Z.eqb n m)
  | VStr _, VInt _ | VInt _, VStr _ => Some false
  | _, _ => None
  end.

Fixpoint dict_get (k : value) (items : list (value * value)) : M value :=
  match items with
  | [] => fail KeyError
  | (k', v) :: rest =>
      match key_eqb k k' with
      | Some true => ret v
      | Some false => dict_get k rest
      | None => fail Unsupported
      end
  end.

Fixpoint dict_set (k v : value) (items : list (value * value))
  : M (list (value * value)) :=
  match items with
  | [] => ret [(k, v)]
  | (k', v') :: rest =>
      match key_eqb k k' with
      | Some true => ret ((k', v) :: rest)
      | Some false => rest' <- dict_set k v rest ;; ret ((k', v') :: rest')
      | None => fail Unsupported
      end
  end.

Fixpoint dict_of (items : list (value * value)) (acc : list (value * value))
  : M (list (value * value)) :=
  match items with
  | [] => ret acc
  | (k, v) :: rest => acc' <- dict_set k v acc ;; dict_of rest acc'
  end.

(** [*v] in an argument list and [**v] in a keyword list. *)
Definition spread (v : value) : M (list value) :=
  match v with
  | VList l | VTuple l => ret l
  | _ => fail Unsupported
  end.

Definition spread_keywords (v : value) : M (list (string * value)) :=
  match v with
  | VDict items =>
      mapM (fun it => match it with
                      | (VStr k, w) => ret (k, w)
                      | _ => fail TypeError
                      end) items
  | _ => fail Unsupported
  end.

Fixpoint no_dup (l : list string) : bool :=
  match l with
  | [] => true
  | x :: l' => negb (existsb (String.eqb x) l') && no_dup l'
  end.

Definition subscript (v i : value) : M value :=
  match v with
  | VList l | VTuple l =>
      match i with
      | VInt n => index l n
      | _ => fail Unsupported
      end
  | VDict items => dict_get i items
  | _ => if external v then ret (VItem v i) else fail Unsupported
  end.

Definition attribute (v : value) (a : string) : M value :=
  if external v then ret (VAttr v a) else fail Unsupported.

Definition binop (l : value) (op : operator) (r : value) : M value :=
  let symbolic :=
    if external l || external r
       || (is_float l && numeric r) || (numeric l && is_float r)
    then ret (VBinOp l op r) else fail Unsupported in
  match l, r with
  | VInt a, VInt b =>
      match op with
      | Add => ret (VInt (a + b))
      | Sub => ret (VInt (a - b))
      | Mult => ret (VInt (a * b))
      | _ => fail Unsupported
      end
  | VStr a, VStr b =>
      match op with
      | Add => ret (VStr (a ++ b)%string)
      | _ => fail TypeError
      end
  | VList a, VList b =>
      match op with
      | Add => ret (VList (a ++ b))
      | _ => fail TypeError
      end
  | _, _ => symbolic
  end.

Definition display (v : value) : M unit :=
  match v with
  | VNone => ret tt
  | _ => emit (Displayed v)
  end.

(** ** Evaluation *)

(** The truth value of a concrete value is Python's; that of an object of a
    package is either. *)
Definition truth (v : value) : M bool :=
  match v with
  | VBool b => ret b
  | VInt n => ret (negb (n =? 0)%Z)
  | VFloat m _ => ret (negb (m =? 0)%Z)
  | VStr s => ret (negb (String.eqb s ""))
  | VNone => ret false
  | VList [] | VTuple [] | VDict [] => ret false
  | VList _ | VTuple _ | VDict _ => ret true
  | VBuiltin _ | VModule _ | VFormat _ => ret true
  | _ => either
  end.

Definition unary (op : unaryop) (v : value) : M value :=
  match op, v with
  | UNot, _ => b <- truth v ;; ret (VBool (negb b))
  | USub, VInt n => ret (VInt (- n))
  | USub, VFloat m e => ret (VFloat (- m) e)
  | UAdd, VInt _ | UAdd, VFloat _ _ => ret v
  | _, _ => if external v then ret (VUnaryOp op v) else fail Unsupported
  end.

(** The callables that return [None]: [warnings.filterwarnings], and
    [to_netcdf] given the path to write to. *)
Definition returns_none (f : value) (args : list value) : bool :=
  match f with
  | VAttr (VModule "warnings") "filterwarnings" => true
  | VAttr _ "to_netcdf" => match args with [] => false | _ => true end
  | _ => false
  end.

(** The semantics has one parameter: whether a call into a package may
    raise.  When it may, every such call has two outcomes. *)

Section Semantics.

Variable faults : bool.

Definition returns (c : value) : M value :=
  if faults
  then fun st =>
         [ Ok c st;
           Err (Raised c)
               {| env := env st; trace := trace st ++ [Raising c] |} ]
  else ret c.

(** [print(...)] writes its arguments; anything else that is called is a
    callable of a package, and the call is logged with its arguments.  Its
    value is the call itself, kept symbolic, or [None] for the callables
    that return nothing. *)
Definition call (f : value) (args : list value) (kwargs : list (string * value))
  : M value :=
  match f with
  | VBuiltin _ =>
      match kwargs with
      | [] => emit (Printed args) ;; ret VNone
      | _ => fail Unsupported
      end
  | _ =>
      if external f
      then emit (Called (VCall f args kwargs)) ;;
           v <- returns (VCall f args kwargs) ;;
           ret (if returns_none f args then VNone else v)
      else fail TypeError
  end.

Fixpoint eval (e : expr) : M value :=
  match e with
  | EName x => load x
  | EInt n => ret (VInt n)
  | EFloat m x => ret (VFloat m x)
  | EStr s => ret (VStr s)
  | EBool b => ret (VBool b)
  | ENone => ret VNone
  | EAttribute v a => o <- eval v ;; attribute o a
  | ESubscript v i => o <- eval v ;; k <- eval i ;; subscript o k
  | ECall f args kws =>
      fv <- eval f ;;
      avs <- mapM (fun a => match a with
                            | EStarred x => v <- eval x ;; spread v
                            | _ => v <- eval a ;; ret [v]
                            end) args ;;
      kvs <- mapM (fun kw => match kw with
                             | (Some k, x) => v <- eval x ;; ret [(k, v)]
                             | (None, x) => v <- eval x ;; spread_keywords v
                             end) kws ;;
      if no_dup (map fst (List.concat kvs))
      then call fv (List.concat avs) (List.concat kvs)
      else fail TypeError
  | EList es => vs <- mapM eval es ;; ret (VList vs)
  | ETuple es => vs <- mapM eval es ;; ret (VTuple vs)
  | EDict items =>
      kvs <- mapM (fun it => match it with
                             | (Some k, x) =>
                                 kv <- eval k ;; v <- eval x ;; ret (kv, v)
                             | (None, _) => fail Unsupported
                             end) items ;;
      d <- dict_of kvs [] ;;
      ret (VDict d)
  | EBinOp l op r => a <- eval l ;; b <- eval r ;; binop a op b
  | EUnaryOp op v => a <- eval v ;; unary op a
  | EJoinedStr parts =>
      vs <- mapM (fun p => match p with
                           | EFormattedValue x => v <- eval x ;; ret (format v)
                           | _ => eval p
                           end) parts ;;
      ret (fstring vs)
  | EFormattedValue _ | EStarred _ | EBoolOp _ _ | ECompare _ _
  | EIfExp _ _ _ | ELambda _ _ | EComp _ _ | EAwait _ | EYield _ =>
      fail Unsupported
  end.

(** Unpacking: a list or a tuple gives its elements to the targets, an
    object of a package its components. *)
Definition assign_each (f : expr -> value -> M unit)
  : list expr -> list value -> M unit :=
  fix go (ts : list expr) (vs : list value) : M unit :=
    match ts, vs with
    | [], [] => ret tt
    | t :: ts', v :: vs' => f t v ;; go ts' vs'
    | _, _ => fail ValueError
    end.

Definition assign_parts (f : expr -> value -> M unit) (v : value)
  : list expr -> nat -> M unit :=
  fix go (ts : list expr) (i : nat) : M unit :=
    match ts with
    | [] => ret tt
    | t :: ts' => f t (VUnpack v i) ;; go ts' (S i)
    end.

(** Assignment to a name, or to a tuple of targets. *)
Fixpoint assign (t : expr) (v : value) : M unit :=
  match t with
  | EName x => store x v
  | ETuple ts | EList ts =>
      match v with
      | VTuple vs | VList vs => assign_each assign ts vs
      | _ => if external v then assign_parts assign v ts 0%nat
             else fail TypeError
      end
  | _ => fail Unsupported
  end.

(** The notebooks have no [try]; its meaning is given so that its absence
    can be seen in the runs.  Which exceptions a handler catches depends on
    classes of the packages: the first handler is taken to catch.  Without a
    handler, [finally] runs and the exception goes on. *)
Fixpoint exec (s : stmt) : M unit :=
  match s with
  | SImport names => iterM import_alias names
  | SImportFrom m names => iterM (import_from m) names
  | SAssign ts e => v <- eval e ;; iterM (fun t => assign t v) ts
  | SExpr e => _ <- eval e ;; ret tt
  | SFor false t i body orelse =>
      iv <- eval i ;;
      match iv with
      | VList vs | VTuple vs =>
          iterM (fun v => assign t v ;; iterM exec body) vs ;;
          iterM exec orelse
      | _ => fail Unsupported
      end
  | SIf test body orelse =>
      tv <- eval test ;;
      b <- truth tv ;;
      if b then iterM exec body else iterM exec orelse
  | STry body handlers orelse finalbody =>
      fun st =>
        flat_map
          (fun r => match r with
                    | Ok _ st' =>
                        (iterM exec orelse ;; iterM exec finalbody) st'
                    | Err e st' =>
                        if catchable e
                        then match handlers with
                             | (_, hb) :: _ =>
                                 (iterM exec hb ;; iterM exec finalbody) st'
                             | [] => (iterM exec finalbody ;; fail e) st'
                             end
                        else [Err e st']
                    end)
          (iterM exec body st)
  | SPass => ret tt
  | _ => fail Unsupported
  end.

(** A cell runs its statements in order; when the last one is an expression,
    Jupyter displays its value unless it is [None]. *)
Fixpoint run_cell (b : list stmt) : M unit :=
  match b with
  | [] => ret tt
  | [SExpr e] => v <- eval e ;; display v
  | s :: b' => exec s ;; run_cell b'
  end.

(** The possible runs of a notebook, from an empty namespace. *)
Definition outcomes (n : notebook) : list (outcome unit) :=
  iterM run_cell (code_cells n) initial.

End Semantics.

(** The runs in which every call returns. *)
Definition runs (n : notebook) : list (outcome unit) := outcomes false n.

(** The runs in which a call into a package may raise. *)
Definition faulty_runs (n : notebook) : list (outcome unit) := outcomes true n.

(** The final states of the runs that complete. *)
Definition finals (n : notebook) : list state :=
  flat_map (fun r => match r with Ok _ st => [st] | Err _ _ => [] end)
           (runs n).

(** A notebook always runs to completion when its calls return. *)
Definition completes (n : notebook) : bool :=
  forallb (fun r => match r with Ok _ _ => true | Err _ _ => false end)
          (runs n).
(** ** Observations on a run *)

(** The names along the access path of a symbolic object. *)
Fixpoint vchain (v : value) : list string :=
  match v with
  | VModule m => [m]
  | VAttr o a => vchain o ++ [a]
  | VCall f _ _ => vchain f
  | VItem o _ => vchain o
  | _ => []
  end.

(** The calls of a run whose callee's access path ends with [p], in the
    order they are made. *)
Definition calls_to (p : list string) (tr : list event) : list value :=
  flat_map (fun ev => match ev with
                      | Called (VCall f a k) =>
                          if ends_with p (vchain f) then [VCall f a k] else []
                      | _ => []
                      end) tr.

Definition displayed (tr : list event) : list value :=
  flat_map (fun ev => match ev with Displayed v => [v] | _ => [] end) tr.

Definition printed (tr : list event) : list (list value) :=
  flat_map (fun ev => match ev with Printed a => [a] | _ => [] end) tr.

Definition call_args (v : value) : list value :=
  match v with VCall _ a _ => a | _ => [] end.

Definition call_kwargs (v : value) : list (string * value) :=
  match v with VCall _ _ k => k | _ => [] end.

Definition call_func (v : value) : value :=
  match v with VCall f _ _ => f | _ => VNone end.

Fixpoint kwarg (k : string) (l : list (string * value)) : option value :=
  match l with
  | [] => None
  | (k', v) :: l' => if String.eqb k k' then Some v else kwarg k l'
  end.

(** Whether [sub] occurs in [s]. *)
Fixpoint contains (sub s : string) : bool :=
  if prefix sub s then true
  else match s with
       | EmptyString => false
       | String _ s' => contains sub s'
       end.

Definition prose_says (sub : string) (c : option cell) : bool :=
  match c with
  | Some (Markdown t) => existsb (contains sub) t
  | _ => false
  end.

(** *** The cross-sections notebook *)

Module CrossSectionsRun.

Definition uxds : value :=
  VCall (VAttr (VModule "uxarray") "open_dataset")
        [VStr "../../test/meshfiles/ugrid/outCSne30/outCSne30.ug";
         VStr "../../test/meshfiles/ugrid/outCSne30/outCSne30_vortex.nc"] [].

Definition psi : value := VItem uxds (VStr "psi").

(** [psi.cross_section.<method>(arg)] *)
Definition section (method : string) (arg : value) : value :=
  VCall (VAttr (VAttr psi "cross_section") method) [arg] [].

(** The title a plot of [v] is given, when [v] is such a plot overlaid with
    another element. *)
Definition plot_title (v : value) : option value :=
  match v with
  | VBinOp p Mult _ => kwarg "title" (call_kwargs p)
  | _ => None
  end.

Definition plotted (v : value) : value :=
  match v with
  | VBinOp (VCall (VAttr o _) _ _) Mult _ => o
  | _ => VNone
  end.

End CrossSectionsRun.

(** ** What a cell does *)

Definition body (c : cell) : list stmt :=
  match c with Code b => b | Markdown _ => [] end.

Definition is_import (s : stmt) : bool :=
  match s with SImport _ | SImportFrom _ _ => true | _ => false end.

Definition is_assign (s : stmt) : bool :=
  match s with SAssign _ _ => true | _ => false end.

Definition is_print (e : expr) : bool :=
  match e with
  | ECall (EName f) _ _ => String.eqb f "print"
  | _ => false
  end.

(** The calls of a block other than [print]: the notebooks define no
    function, so each of them is a call into a package. *)
Definition package_calls (b : list stmt) : list expr :=
  filter (fun e => is_call e && negb (is_print e)) (block_exprs b).

Definition imports (b : list stmt) : bool := existsb is_import b.

Definition imports_only (b : list stmt) : bool := forallb is_import b.

Definition calls_package (b : list stmt) : bool :=
  match package_calls b with [] => false | _ => true end.

Definition prints (b : list stmt) : bool := existsb is_print (block_exprs b).

Definition ends_in_expression (b : list stmt) : bool :=
  match last b SPass with SExpr _ => true | _ => false end.

(** The calls that return [None]: [warnings.filterwarnings], and
    [to_netcdf] given the path to write to. *)
Definition returns_none_expr (e : expr) : bool :=
  match e with
  | ECall (EAttribute (EName "warnings") "filterwarnings") _ _ => true
  | ECall (EAttribute _ "to_netcdf") (_ :: _) _ => true
  | _ => false
  end.

(** A cell ends in a value when its last statement is an expression other
    than a [print] or a call that returns [None]: Jupyter renders the
    value below the cell. *)
Definition ends_in_value (b : list stmt) : bool :=
  match last b SPass with
  | SExpr e => negb (is_print e) && negb (returns_none_expr e)
  | _ => false
  end.

(** A cell shows something when it ends in a value or prints. *)
Definition shows (b : list stmt) : bool := ends_in_value b || prints b.

(** The two kinds of cell the specification allows, read generously: a
    cell that imports (whatever else it sets up), or a cell that calls into
    a package and shows something. *)
Definition tutorial_cell (b : list stmt) : bool :=
  imports b || (calls_package b && shows b).

(** A cell fetches data over the network when it calls
    [urllib.request.urlretrieve], or [get] of [geocat.datafiles], which the
    subsetting notebook imports as [geodf]. *)
Definition downloads (b : list stmt) : bool :=
  invokes ["urllib"; "request"; "urlretrieve"] b || invokes ["geodf"; "get"] b.

Definition merely_assigns (b : list stmt) : bool :=
  forallb is_assign b && negb (calls_package b).

(** A literal of raw data: a list of numbers, or a list of such lists. *)
Definition is_number (e : expr) : bool :=
  match e with
  | EInt _ | EFloat _ _ | EUnaryOp USub (EInt _)
  | EUnaryOp USub (EFloat _ _) => true
  | _ => false
  end.

Definition is_number_row (e : expr) : bool :=
  match e with
  | EList (x :: es) => forallb is_number (x :: es)
  | _ => false
  end.

Definition is_raw_data (e : expr) : bool :=
  is_number_row e
  || match e with
     | EList (x :: es) => forallb is_number_row (x :: es)
     | _ => false
     end.

(** [np.array(<raw data>)], transposed or not. *)
Definition is_array (e : expr) : bool :=
  match e with
  | ECall (EAttribute (EName "np") "array") [lit] []
  | EAttribute (ECall (EAttribute (EName "np") "array") [lit] []) "T" =>
      is_raw_data lit
  | _ => false
  end.

(** Data written out in the cell: raw data, an array of raw data, or an
    [xr.DataArray] whose [data] is such an array. *)
Definition is_literal_data (e : expr) : bool :=
  is_raw_data e || is_array e
  || match e with
     | ECall (EAttribute (EName "xr") "DataArray") [] kws =>
         existsb (fun kw => match kw with
                            | (Some "data", v) => is_array v
                            | _ => false
                            end) kws
     | _ => false
     end.

(** A cell defines raw data when it binds a name to data written out in
    it. *)
Definition defines_raw_data (b : list stmt) : bool :=
  existsb (fun s => match s with
                    | SAssign [EName _] v => is_literal_data v
                    | _ => false
                    end) (block_stmts b).

(** A cell passes raw data when it gives a raw literal to a call as an
    argument. *)
Definition passes_raw_data (b : list stmt) : bool :=
  existsb (fun e => match e with
                    | ECall (EAttribute (EName m) f) args _ =>
                        negb (String.eqb m "np" && String.eqb f "array")
                        && existsb is_raw_data args
                    | ECall _ args _ => existsb is_raw_data args
                    | _ => false
                    end) (block_exprs b).

(** An assignment [x = np.array(<raw data>)]. *)
Definition assigns_array (s : stmt) : bool :=
  match s with
  | SAssign [EName _] (ECall (EAttribute (EName m) f) [lit] []) =>
      String.eqb m "np" && String.eqb f "array" && is_raw_data lit
  | _ => false
  end.

(** How many code cells of the repository satisfy [p]. *)
Definition how_many (p : list stmt -> bool) : nat :=
  List.length (filter p all_code_cells).

(** ** Statement kinds *)

(** An import, an assignment or an expression statement. *)
Definition is_plain (s : stmt) : bool :=
  match s with
  | SImport _ | SImportFrom _ _ | SAssign _ _ | SExpr _ => true
  | _ => false
  end.

Definition is_control (s : stmt) : bool :=
  match s with
  | SFor _ _ _ _ _ | SWhile _ _ _ | SIf _ _ _ | STry _ _ _ _ | SWith _ _ _
  | SBreak | SContinue | SReturn _ | SRaise _ => true
  | _ => false
  end.

Definition is_control_expr (e : expr) : bool :=
  match e with
  | EIfExp _ _ _ | EBoolOp _ _ | EComp _ _ | ELambda _ _ => true
  | _ => false
  end.

(** A block is straight-line when it neither branches nor loops. *)
Definition straight_line (b : list stmt) : bool :=
  negb (existsb is_control (block_stmts b))
  && negb (existsb is_control_expr (block_exprs b)).

(** The statements of the one cell that is not straight-line: a [for] with
    an [if] in it, neither with an [else]. *)
Definition is_loop_or_test (s : stmt) : bool :=
  match s with
  | SFor false _ _ _ [] | SIf _ _ [] => true
  | _ => false
  end.

Definition is_definition (s : stmt) : bool :=
  match s with
  | SFunctionDef _ _ _ _ | SClassDef _ _ _ => true
  | _ => false
  end.

(** A block defines something of its own when it has a [def], a [class] or
    a [lambda]. *)
Definition defines (b : list stmt) : bool :=
  existsb is_definition (block_stmts b)
  || existsb (fun e => match e with ELambda _ _ => true | _ => false end)
             (block_exprs b).

(** Exception handling: [try] with its [except] and [finally] clauses, and
    [with], whose context manager may swallow an exception. *)
Definition handles_exceptions (s : stmt) : bool :=
  match s with
  | STry _ _ _ _ | SWith _ _ _ => true
  | _ => false
  end.

(** A statement without a handler in it. *)
Definition handler_free (s : stmt) : bool :=
  negb (existsb handles_exceptions (substmts s)).

Definition is_async (s : stmt) : bool :=
  match s with
  | SFor a _ _ _ _ | SWith a _ _ | SFunctionDef a _ _ _ => a
  | _ => false
  end.

Definition is_async_expr (e : expr) : bool :=
  match e with
  | EAwait _ | EYield _ => true
  | EComp _ gens => existsb (fun g => match g with (a, _, _) => a end) gens
  | _ => false
  end.

(** ** Imports, keywords and bindings *)

(** The modules a block imports. *)
Definition imported (b : list stmt) : list string :=
  flat_map (fun s => match s with
                     | SImport names => map name names
                     | SImportFrom m _ => [m]
                     | _ => []
                     end) (block_stmts b).

(** The packages of Python's standard library for threads, processes,
    coroutines, signals and timers. *)
Definition concurrency_packages : list string :=
  ["threading"; "_thread"; "asyncio"; "concurrent"; "multiprocessing";
   "subprocess"; "signal"; "sched"; "queue"; "selectors"].

Definition is_concurrency_package (m : string) : bool :=
  existsb (String.eqb (before_dot m)) concurrency_packages.

(** The names of the keyword arguments a block passes, each with the access
    path of the callee and the argument. *)
Definition keyword_sites (b : list stmt) : list (string * list string * expr) :=
  flat_map (fun e => match e with
                     | ECall f _ kws =>
                         flat_map (fun kw => match kw with
                                             | (Some k, v) => [(k, chain f, v)]
                                             | (None, _) => []
                                             end) kws
                     | _ => []
                     end) (block_exprs b).

Definition sites_of (k : string) (b : list stmt) : list (list string * expr) :=
  flat_map (fun s => match s with
                     | (k', p, v) => if String.eqb k k' then [(p, v)] else []
                     end) (keyword_sites b).

(** The names an assignment target binds. *)
Fixpoint target_names (t : expr) : list string :=
  match t with
  | EName x => [x]
  | ETuple ts | EList ts => flat_map target_names ts
  | _ => []
  end.

(** The names a block binds, once per binding statement, in order. *)
Definition bindings (b : list stmt) : list string :=
  flat_map (fun s => match s with
                     | SImport names =>
                         map (fun a => match asname a with
                                       | Some x => x
                                       | None => before_dot (name a)
                                       end) names
                     | SImportFrom _ names =>
                         map (fun a => match asname a with
                                       | Some x => x
                                       | None => name a
                                       end) names
                     | SAssign ts _ => flat_map target_names ts
                     | SFor _ t _ _ _ => target_names t
                     | _ => []
                     end) (block_stmts b).

Fixpoint dedup (l : list string) : list string :=
  match l with
  | [] => []
  | x :: l' => if existsb (String.eqb x) l' then dedup l' else x :: dedup l'
  end.

Definition count (x : string) (l : list string) : nat :=
  List.length (filter (String.eqb x) l).

(** The variables of a notebook that a later statement binds again. *)
Definition rebound (n : notebook) : list string :=
  let bs := flat_map bindings (code_cells n) in
  dedup (filter (fun x => Nat.ltb 1 (count x bs)) bs).

(** Statements that change an object in place or reach into an enclosing
    scope. *)
Definition mutates (s : stmt) : bool :=
  match s with
  | SAugAssign _ _ _ | SDelete _ | SGlobal _ | SNonlocal _ => true
  | SAssign ts _ =>
      existsb (fun t => match t with
                        | EAttribute _ _ | ESubscript _ _ => true
                        | _ => false
                        end) ts
  | _ => false
  end.

(** The names of everything the cells call, each once. *)
Definition called_names : list string :=
  dedup (flat_map
           (fun b => flat_map (fun e => match e with
                                        | ECall f _ _ => [last (chain f) ""]
                                        | _ => []
                                        end) (block_exprs b))
           all_code_cells).

(** ** Files

    Of the callables the notebooks call, three store a file, as their
    packages document: [to_netcdf] writes to the path it is given,
    [urlretrieve] to its [filename], and [get] of [geocat.datafiles]
    fetches the file it is asked for, keeps a copy of it and returns the
    path of the copy; that copy is named here by what was asked for.  The
    loaders of the toolkit and of xarray read the paths they are given.
    What the other callables do to files is not in the notebooks. *)

Definition last_attr (f : value) : string :=
  match f with VAttr _ a => a | _ => "" end.

Definition strings_of (vs : list value) : list string :=
  flat_map (fun v => match v with VStr s => [s] | _ => [] end) vs.

(** The file a value names as a path: a string, or what
    [geocat.datafiles.get] has fetched. *)
Definition path_of (v : value) : list string :=
  match v with
  | VStr s => [s]
  | VCall (VAttr (VModule "geocat.datafiles") "get") [VStr s] _ => [s]
  | _ => []
  end.

Definition written_by (v : value) : list string :=
  match v with
  | VCall (VAttr (VModule "geocat.datafiles") "get") args _ => strings_of args
  | VCall f args kwargs =>
      if String.eqb (last_attr f) "to_netcdf" then strings_of args
      else if String.eqb (last_attr f) "urlretrieve"
           then match kwarg "filename" kwargs with
                | Some w => strings_of [w]
                | None => strings_of (skipn 1 args)
                end
           else []
  | _ => []
  end.

Definition loaders : list string :=
  ["open_dataset"; "open_mfdataset"; "open_grid"; "from_healpix"].

Definition read_by (v : value) : list string :=
  match v with
  | VCall f args kwargs =>
      if existsb (String.eqb (last_attr f)) loaders
      then flat_map path_of args ++ flat_map path_of (map snd kwargs)
      else []
  | _ => []
  end.

Definition event_call (ev : event) : list value :=
  match ev with Called v => [v] | _ => [] end.

Definition made_calls (st : state) : list value :=
  flat_map event_call (trace st).

(** The names of the callables whose calls store a file in a run. *)
Definition storing (tr : list event) : list string :=
  flat_map (fun v => match written_by v with
                     | [] => []
                     | _ => [last_attr (call_func v)]
                     end) (flat_map event_call tr).

Definition written (tr : list event) : list string :=
  flat_map written_by (flat_map event_call tr).

Definition loaded (tr : list event) : list string :=
  flat_map read_by (flat_map event_call tr).

(** The paths a run loads after it has written them, one per load. *)
Fixpoint reread_from (before : list string) (tr : list event) : list string :=
  match tr with
  | [] => []
  | Called v :: tr' =>
      filter (fun s => existsb (String.eqb s) before) (read_by v)
        ++ reread_from (before ++ written_by v) tr'
  | _ :: tr' => reread_from before tr'
  end.

Definition reread (tr : list event) : list string := reread_from [] tr.

Definition disjoint (l1 l2 : list string) : bool :=
  forallb (fun x => negb (existsb (String.eqb x) l2)) l1.

Definition subset_of (l1 l2 : list string) : bool :=
  forallb (fun x => existsb (String.eqb x) l2) l1.

(** The files a notebook may write and load, over all its runs. *)
Definition may_write (n : notebook) : list string :=
  dedup (flat_map (fun st => written (trace st)) (finals n)).

Definition may_load (n : notebook) : list string :=
  dedup (flat_map (fun st => loaded (trace st)) (finals n)).

(** Neither notebook loads what the other writes. *)
Definition independent (n m : notebook) : bool :=
  disjoint (may_write n) (may_load m) && disjoint (may_write m) (may_load n).

Definition oqu_files : list string :=
  ["oQU480.grid.nc"; "oQU480.data.nc"; "oQU120.grid.nc"; "oQU120.data.nc"].

(** Of a call [x.m(kw).to_netcdf(args)]: the method [m], its keywords, and
    the arguments of [to_netcdf]. *)
Definition saved_as (v : value)
  : string * list (string * value) * list value :=
  match v with
  | VCall (VAttr (VCall (VAttr _ m) _ kw) _) args _ => (m, kw, args)
  | _ => ("", [], [])
  end.

(** ** Packages *)

(** Whether a called object comes from an imported module. *)
Fixpoint from_package (v : value) : bool :=
  match v with
  | VModule _ => true
  | VAttr o _ | VItem o _ | VUnpack o _ | VUnaryOp _ o => from_package o
  | VCall f _ _ => from_package f
  | VBinOp l _ r => from_package l || from_package r
  | _ => false
  end.

Definition calls_packages_only (tr : list event) : bool :=
  forallb (fun v => from_package (call_func v)) (flat_map event_call tr).

(** ** The capabilities the notebooks demonstrate *)

Inductive capability :=
| CrossSection
| HealpixConstruction
| HealpixLoading
| WeightedMeans
| GeometryFrame
| RemapNearestNeighbor
| RemapInverseDistance
| SpatialHashQuery
| CustomTopology
| SubsetBoundingBox
| SubsetBoundingCircle
| SubsetNearestNeighbor
| DualMeshConstruction.

Definition method_of (c : capability) : list string :=
  match c with
  | CrossSection => ["cross_section"; "constant_latitude"]
  | HealpixConstruction => ["Grid"; "from_healpix"]
  | HealpixLoading => ["UxDataset"; "from_healpix"]
  | WeightedMeans => ["weighted_mean"]
  | GeometryFrame => ["to_geodataframe"]
  | RemapNearestNeighbor => ["remap"; "nearest_neighbor"]
  | RemapInverseDistance => ["remap"; "inverse_distance_weighted"]
  | SpatialHashQuery => ["get_spatial_hash"; "query"]
  | CustomTopology => ["Grid"; "from_topology"]
  | SubsetBoundingBox => ["subset"; "bounding_box"]
  | SubsetBoundingCircle => ["subset"; "bounding_circle"]
  | SubsetNearestNeighbor => ["subset"; "nearest_neighbor"]
  | DualMeshConstruction => ["get_dual"]
  end.

(** ** Equality of values *)

(** A decision of equality as a test. *)
Definition same {A} (dec : forall x y : A, {x = y} + {x <> y}) (a b : A)
  : bool :=
  if dec a b then true else false.

Definition strings_dec := list_eq_dec string_dec.

Definition rows_dec := list_eq_dec strings_dec.

Definition operator_eq_dec (a b : operator) : {a = b} + {a <> b}.
Proof. decide equality. Defined.

Definition unaryop_eq_dec (a b : unaryop) : {a = b} + {a <> b}.
Proof. decide equality. Defined.

Fixpoint value_eq_dec (a b : value) {struct a} : {a = b} + {a <> b}.
Proof.
  destruct a as [n|m e|s|c| |l|l|d|x|x|o t|o i|f l k|u op v|op v|v i|l],
           b as [n'|m' e'|s'|c'| |l'|l'|d'|x'|x'|o' t'|o' i'|f' l' k'
                |u' op' v'|op' v'|v' i'|l'];
    try (right; discriminate).
  - destruct (Z.eq_dec n n'); [left; congruence | right; congruence].
  - destruct (Z.eq_dec m m'); [|right; congruence].
    destruct (Z.eq_dec e e'); [left; congruence | right; congruence].
  - destruct (string_dec s s'); [left; congruence | right; congruence].
  - destruct (bool_dec c c'); [left; congruence | right; congruence].
  - left; reflexivity.
  - destruct (list_eq_dec value_eq_dec l l');
      [left; congruence | right; congruence].
  - destruct (list_eq_dec value_eq_dec l l');
      [left; congruence | right; congruence].
  - assert (D : {d = d'} + {d <> d'}).
    { revert d'. induction d as [|[p1 p2] d IH]; intros [|[q1 q2] d'];
        try (right; discriminate); [left; reflexivity|].
      destruct (value_eq_dec p1 q1); [|right; congruence].
      destruct (value_eq_dec p2 q2); [|right; congruence].
      destruct (IH d'); [left; congruence | right; congruence]. }
    destruct D; [left; congruence | right; congruence].
  - destruct (string_dec x x'); [left; congruence | right; congruence].
  - destruct (string_dec x x'); [left; congruence | right; congruence].
  - destruct (value_eq_dec o o'); [|right; congruence].
    destruct (string_dec t t'); [left; congruence | right; congruence].
  - destruct (value_eq_dec o o'); [|right; congruence].
    destruct (value_eq_dec i i'); [left; congruence | right; congruence].
  - destruct (value_eq_dec f f'); [|right; congruence].
    destruct (list_eq_dec value_eq_dec l l'); [|right; congruence].
    assert (D : {k = k'} + {k <> k'}).
    { revert k'. induction k as [|[p1 p2] k IH]; intros [|[q1 q2] k'];
        try (right; discriminate); [left; reflexivity|].
      destruct (string_dec p1 q1); [|right; congruence].
      destruct (value_eq_dec p2 q2); [|right; congruence].
      destruct (IH k'); [left; congruence | right; congruence]. }
    destruct D; [left; congruence | right; congruence].
  - destruct (value_eq_dec u u'); [|right; congruence].
    destruct (operator_eq_dec op op'); [|right; congruence].
    destruct (value_eq_dec v v'); [left; congruence | right; congruence].
  - destruct (unaryop_eq_dec op op'); [|right; congruence].
    destruct (value_eq_dec v v'); [left; congruence | right; congruence].
  - destruct (value_eq_dec v v'); [|right; congruence].
    destruct (Nat.eq_dec i i'); [left; congruence | right; congruence].
  - destruct (list_eq_dec value_eq_dec l l');
      [left; congruence | right; congruence].
Defined.

(** ** Exceptions

    How a run ends when nothing catches what a call raises: it completes
    and no exception was raised on the way, or it ends in the exception of a
    package call, which is the last call made, and nothing ran after it. *)

Definition is_raising (ev : event) : bool :=
  match ev with Raising _ => true | _ => false end.

Definition uncaught (o : outcome unit) : bool :=
  match o with
  | Ok _ st => negb (existsb is_raising (trace st))
  | Err (Raised c) st =>
      match rev (trace st) with
      | Raising c2 :: Called c1 :: before =>
          same value_eq_dec c c1 && same value_eq_dec c c2
          && negb (existsb is_raising before)
      | _ => false
      end
  | Err _ _ => false
  end.

(** The exceptions a list of runs ends in. *)
Definition raised (os : list (outcome unit)) : list value :=
  flat_map (fun o => match o with Err (Raised c) _ => [c] | _ => [] end) os.

(** A cell with a handler, for comparison. *)
Definition guarded_cell : list stmt :=
  [ SImport [{| name := "uxarray"; asname := Some "ux" |}];
    STry [ SExpr (ECall (EAttribute (EName "ux") "open_grid")
                        [EStr "grid.nc"] []) ]
         [ (None, [SPass]) ] [] [] ].

(** A stretch of a trace in which nothing is raised. *)
Definition raises_nothing (tr : list event) : Prop :=
  existsb is_raising tr = false.

(** How an outcome relates to the state the computation started in, when
    nothing catches: the trace has grown; it holds [Raising x] only when the
    outcome is the exception of [x], and then as its last event. *)
Definition uncaught_from {A} (st : state) (o : outcome A) : Prop :=
  match o with
  | Err (Raised x) st' =>
      exists tr, trace st' = trace st ++ tr ++ [Raising x] /\ raises_nothing tr
  | Ok _ st' | Err _ st' =>
      exists tr, trace st' = trace st ++ tr /\ raises_nothing tr
  end.

Definition propagates {A} (c : M A) : Prop :=
  forall st o, In o (c st) -> uncaught_from st o.

(** ** Named objects of the runs *)

Definition np_array (rows : list value) : value :=
  VCall (VAttr (VModule "numpy") "array") [VList rows] [].

Definition ux (a : string) : value := VAttr (VModule "uxarray") a.

Definition from_healpix (kwargs : list (string * value)) : value :=
  VCall (VAttr (ux "Grid") "from_healpix") [] kwargs.

Definition mean_of (v : value) : value :=
  VCall (VAttr (VAttr v "data") "mean") [] [].

(** ** The statements of the specification that the notebooks do not meet,
    as they are written *)

(** Every cell imports, or calls into a package and shows something; none
    downloads, defines raw data or merely assigns. *)
Definition spec_cell_kinds : Prop :=
  Forall (fun b => tutorial_cell b = true
                   /\ downloads b = false
                   /\ defines_raw_data b = false
                   /\ merely_assigns b = false) all_code_cells.

(** No run of a notebook loads a file it has written. *)
Definition spec_no_file_read_back : Prop :=
  Forall (fun n => Forall (fun st => reread (trace st) = []) (finals n))
         repository.

(** Every cell is straight-line code and no notebook variable is bound
    twice. *)
Definition spec_straight_line_no_mutable_state : Prop :=
  Forall (fun b => straight_line b = true) all_code_cells
  /\ Forall (fun n => rebound n = []) repository.

(** * Further observations

    What follows looks at the code of the notebooks cell by cell: the loop
    that fetches the data files of the remapping notebook, which cells
    later cells need, which names are bound for nothing, what each plot is
    titled with, which files are opened, and whether the literals of the
    custom-topology notebook make a mesh. *)

(** ** The download loop of the remapping notebook *)

(** The [for] statement of the data cell. *)
Definition download_loop : stmt := nth 7 (body Remapping.cell_10) SPass.

Definition loop_body : list stmt :=
  match download_loop with
  | SFor _ _ _ b _ => b
  | _ => []
  end.

(** One turn of the loop: [filename] is bound, then the body runs. *)
Definition iteration (faults : bool) (v : value) : M unit :=
  assign (EName "filename") v ;; iterM (exec faults) loop_body.

Definition mesh_url : string :=
  "https://github.com/ProjectPythia/unstructured-grid-viz-cookbook/raw/main/meshfiles/".

Definition isfile_call (f : string) : value :=
  VCall (VAttr (VAttr (VModule "os") "path") "isfile") [VStr f] [].

Definition urlretrieve_call (f : string) : value :=
  VCall (VAttr (VAttr (VModule "urllib") "request") "urlretrieve")
        [VStr (mesh_url ++ f)] [("filename", VStr f)].

(** What the loop does to the outside when it is told, file by file,
    whether the file is there: it asks for every file, and fetches those
    that are not there. *)
Fixpoint loop_events (w : list (string * bool)) : list event :=
  match w with
  | [] => []
  | (f, there) :: rest =>
      Called (isfile_call f)
        :: (if there then [] else [Called (urlretrieve_call f)])
        ++ loop_events rest
  end.

(** Every way in which the files of a list can be there or not. *)
Fixpoint worlds (names : list string) : list (list (string * bool)) :=
  match names with
  | [] => [[]]
  | f :: rest => map (cons (f, true)) (worlds rest)
                 ++ map (cons (f, false)) (worlds rest)
  end.

Definition missing (w : list (string * bool)) : list string :=
  flat_map (fun p : string * bool => if snd p then [] else [fst p]) w.

(** How the loop can end when a call may raise: as above, or with the
    exception of a check or of a download, nothing having been done about
    the files after it.  Each end is given with the events of the loop. *)
Fixpoint loop_ends (names : list string) : list (list event * option error) :=
  match names with
  | [] => [([], None)]
  | f :: rest =>
      let after (evs : list event) :=
        map (fun p : list event * option error => (evs ++ fst p, snd p))
            (loop_ends rest) in
      after [Called (isfile_call f)]
      ++ after [Called (isfile_call f); Called (urlretrieve_call f)]
      ++ [ ( [ Called (isfile_call f); Called (urlretrieve_call f);
               Raising (urlretrieve_call f) ],
             Some (Raised (urlretrieve_call f)) );
           ( [ Called (isfile_call f); Raising (isfile_call f) ],
             Some (Raised (isfile_call f)) ) ]
  end.

(** An outcome, as its trace and the error it ends in. *)
Definition ending (r : outcome unit) : list event * option error :=
  match r with
  | Ok _ st => (trace st, None)
  | Err e st => (trace st, Some e)
  end.

(** The names the loop binds. *)
Definition loop_names : list string := ["filename"; "url"; "_"; "headers"].

(** [st'] has the bindings of [st], but for the names of the loop. *)
Definition keeps (st st' : state) : Prop :=
  forall x, ~ In x loop_names -> lookup x (env st') = lookup x (env st).

(** The state of the remapping notebook when it reaches the loop. *)
Definition before_the_loop : state :=
  match (iterM (run_cell false) (firstn 4 (code_cells Remapping.nb)) ;;
         iterM (exec false) (firstn 7 (body Remapping.cell_10))) initial with
  | [Ok _ st] => st
  | _ => initial
  end.

(** *** The runs of the notebook, one per set of missing files *)

(** Equality of values, events and bindings as tests. *)
Definition list_eqb {A} (eqb : A -> A -> bool) : list A -> list A -> bool :=
  fix go (l l' : list A) : bool :=
    match l, l' with
    | [], [] => true
    | x :: r, y :: r' => eqb x y && go r r'
    | _, _ => false
    end.

Fixpoint value_eqb (a b : value) {struct a} : bool :=
  match a, b with
  | VInt n, VInt m => Z.eqb n m
  | VFloat m e, VFloat m' e' => Z.eqb m m' && Z.eqb e e'
  | VStr s, VStr t => String.eqb s t
  | VBool x, VBool y => Bool.eqb x y
  | VNone, VNone => true
  | VList l, VList l' | VTuple l, VTuple l' | VFormat l, VFormat l' =>
      list_eqb value_eqb l l'
  | VDict d, VDict d' =>
      list_eqb (fun p q => match p, q with
                           | (k, v), (k', v') =>
                               value_eqb k k' && value_eqb v v'
                           end) d d'
  | VBuiltin x, VBuiltin y | VModule x, VModule y => String.eqb x y
  | VAttr o t, VAttr o' t' => value_eqb o o' && String.eqb t t'
  | VItem o i, VItem o' i' => value_eqb o o' && value_eqb i i'
  | VCall f l k, VCall f' l' k' =>
      value_eqb f f' && list_eqb value_eqb l l'
      && list_eqb (fun p q => match p, q with
                              | (x, v), (x', v') =>
                                  String.eqb x x' && value_eqb v v'
                              end) k k'
  | VBinOp u op v, VBinOp u' op' v' =>
      value_eqb u u' && same operator_eq_dec op op' && value_eqb v v'
  | VUnaryOp op v, VUnaryOp op' v' =>
      same unaryop_eq_dec op op' && value_eqb v v'
  | VUnpack v i, VUnpack v' i' => value_eqb v v' && Nat.eqb i i'
  | _, _ => false
  end.

Definition event_eqb (a b : event) : bool :=
  match a, b with
  | Called v, Called w | Raising v, Raising w | Displayed v, Displayed w =>
      value_eqb v w
  | Printed l, Printed m => list_eqb value_eqb l m
  | _, _ => false
  end.

Definition binding_eqb (a b : string * value) : bool :=
  String.eqb (fst a) (fst b) && value_eqb (snd a) (snd b).

Definition events_eqb := list_eqb event_eqb.

Definition bindings_eqb := list_eqb binding_eqb.

Definition is_download (ev : event) : bool :=
  match ev with
  | Called v => String.eqb (last_attr (call_func v)) "urlretrieve"
  | _ => false
  end.

Definition without_downloads (tr : list event) : list event :=
  filter (fun ev => negb (is_download ev)) tr.

(** The run of the remapping notebook in which every file is there. *)
Definition all_there : state := hd initial (finals Remapping.nb).

(** A namespace with some names only, and without some names. *)
Definition only (names : list string) (e : list (string * value))
  : list (string * value) :=
  filter (fun p => existsb (String.eqb (fst p)) names) e.

Definition forget (names : list string) (e : list (string * value))
  : list (string * value) :=
  filter (fun p => negb (existsb (String.eqb (fst p)) names)) e.

(** ** Running a notebook again *)

(** A second run of a notebook in the kernel that a run has left: from the
    namespace of [st], with a fresh trace. *)
Definition rerun (n : notebook) (st : state) : list (outcome unit) :=
  iterM (run_cell false) (code_cells n) {| env := env st; trace := [] |}.

(** The states in which runs complete, and their traces. *)
Definition completed (os : list (outcome unit)) : list state :=
  flat_map (fun r => match r with Ok _ s => [s] | Err _ _ => [] end) os.

Definition traces (os : list (outcome unit)) : list (list event) :=
  map trace (completed os).

Definition all_complete (os : list (outcome unit)) : bool :=
  forallb (fun r => match r with Ok _ _ => true | Err _ _ => false end) os.

(** ** Cells that later cells need *)

(** A notebook without its cell number [i] (prose cells count). *)
Definition drop_cell (i : nat) (n : notebook) : notebook :=
  {| file := file n;
     first_line := first_line n;
     cells := firstn i (cells n) ++ skipn (S i) (cells n) |}.

(** The cells a notebook cannot be run without: when one of them is
    skipped, some run does not complete. *)
Definition needed (n : notebook) : list nat :=
  filter (fun i => negb (completes (drop_cell i n)))
         (seq 0 (List.length (cells n))).

(** The errors the runs of a notebook end in. *)
Definition errors (n : notebook) : list error :=
  flat_map (fun r => match r with Ok _ _ => [] | Err e _ => [e] end) (runs n).

Definition is_name_error (e : error) : bool :=
  match e with NameError _ => true | _ => false end.

(** Skipping the cell ends every run in a [NameError]. *)
Definition breaks_names (n : notebook) (i : nat) : bool :=
  match errors (drop_cell i n) with
  | [] => false
  | es => forallb is_name_error es
          && Nat.eqb (List.length es) (List.length (runs (drop_cell i n)))
  end.

(** ** Names that are bound and never read *)

(** The names an expression reads. *)
Definition loads (e : expr) : list string :=
  flat_map (fun x => match x with EName s => [s] | _ => [] end) (subexprs e).

(** An assignment target reads nothing when it is a name or a tuple of
    names; an attribute or an item as target reads its object. *)
Definition target_loads (t : expr) : list string :=
  match t with
  | EName _ => []
  | ETuple ts | EList ts =>
      flat_map (fun x => match x with EName _ => [] | _ => loads x end) ts
  | _ => loads t
  end.

Definition stmt_loads (s : stmt) : list string :=
  match s with
  | SAssign ts v => flat_map target_loads ts ++ loads v
  | SFor _ t i _ _ => target_loads t ++ loads i
  | _ => flat_map loads (stmt_exprs s ++ handler_exprs s)
  end.

Definition reads (b : list stmt) : list string :=
  flat_map stmt_loads (block_stmts b).

(** The names a notebook binds and no cell of it reads. *)
Definition unused (n : notebook) : list string :=
  let rd := flat_map reads (code_cells n) in
  filter (fun x => negb (existsb (String.eqb x) rd))
         (dedup (flat_map bindings (code_cells n))).

(** The attributes a block reads or calls. *)
Definition attributes (b : list stmt) : list string :=
  flat_map (fun e => match e with EAttribute _ a => [a] | _ => [] end)
           (block_exprs b).

Definition uses_attribute (a : string) (n : notebook) : bool :=
  existsb (fun b => existsb (String.eqb a) (attributes b)) (code_cells n).

(** ** Prose *)

(** Whether some prose cell of the notebook has [s] in it. *)
Definition mentions (s : string) (n : notebook) : bool :=
  existsb (fun c => prose_says s (Some c)) (cells n).

(** Whether some code cell of the repository calls something named [m]. *)
Definition called_somewhere (m : string) : bool :=
  existsb (String.eqb m) called_names.

(** The strings a block indexes with. *)
Definition string_keys (b : list stmt) : list string :=
  flat_map (fun e => match e with ESubscript _ (EStr s) => [s] | _ => [] end)
           (block_exprs b).

(** The positional arguments of the calls a block makes to a method of the
    accessor [a], as in [x.a.method(...)]. *)
Definition positional_through (a : string) (b : list stmt)
  : list (list expr) :=
  flat_map (fun e => match e with
                     | ECall (EAttribute (EAttribute _ a') _) args _ =>
                         if String.eqb a a' then [args] else []
                     | _ => []
                     end)
           (block_exprs b).

(** ** Titles

    A plot is given a title by the keyword [title] of the plotting call or
    of a later [opts].  [titled v] lists the titles that occur in the
    displayed value [v], each with the object the call is made on: for
    [x.plot(title=t)], [x.plot.polygons(title=t)] and
    [x.hvplot.points(title=t)] this is [x]. *)

Definition title_of (kw : list (string * value)) : list string :=
  match kwarg "title" kw with Some (VStr t) => [t] | _ => [] end.

Fixpoint receiver (f : value) : value :=
  match f with
  | VAttr o a =>
      if String.eqb a "plot" || String.eqb a "hvplot" then o else receiver o
  | _ => f
  end.

Fixpoint titled (v : value) : list (string * value) :=
  match v with
  | VBinOp l _ r => titled l ++ titled r
  | VCall f args kw =>
      titled f ++ flat_map titled args
        ++ map (fun t => (t, receiver f)) (title_of kw)
  | VAttr o _ | VItem o _ => titled o
  | _ => []
  end.

(** The titled plots a run displays, in order. *)
Definition shown (st : state) : list (string * value) :=
  flat_map titled (displayed (trace st)).

(** *** The cross-sections notebook *)

(** The integers of an argument: the argument itself, or the elements of a
    list. *)
Definition numbers (v : value) : list Z :=
  match v with
  | VInt n => [n]
  | VList l | VTuple l =>
      flat_map (fun x => match x with VInt n => [n] | _ => [] end) l
  | _ => []
  end.

(** The coordinate a slicing method is named after. *)
Definition coordinate (m : string) : string :=
  if contains "latitude" m then "latitude"
  else if contains "longitude" m then "longitude"
  else m.

(** A title fits the slice it is put on when it names the coordinate of the
    slicing method and every number the method was given. *)
Definition title_fits (p : string * value) : bool :=
  match p with
  | (t, VCall (VAttr (VAttr _ "cross_section") m) [arg] []) =>
      contains (coordinate m) t
      && forallb (fun n => contains (string_of_Z n) t) (numbers arg)
  | _ => false
  end.

(** *** The HoloViz notebook *)

(** The backend a title speaks of. *)
Definition backend_named (t : string) : option string :=
  if contains "Matplotlib Backend" t then Some "matplotlib"
  else if contains "Bokeh Backend" t then Some "bokeh"
  else None.

(** The titles given in a run, each with the backend that the last
    [hv.extension] before it has selected. *)
Fixpoint titles_under (current : option string) (tr : list event)
  : list (string * option string) :=
  match tr with
  | [] => []
  | Called (VCall f args kw) :: tr' =>
      if same strings_dec (vchain f) ["holoviews"; "extension"]
      then titles_under (hd_error (strings_of args)) tr'
      else map (fun t => (t, current)) (title_of kw)
           ++ titles_under current tr'
  | _ :: tr' => titles_under current tr'
  end.

Definition option_string_dec (a b : option string) : {a = b} + {a <> b}.
Proof. decide equality. apply string_dec. Defined.

Definition backend_fits (p : string * option string) : bool :=
  same option_string_dec (backend_named (fst p)) (snd p).

(** ** Files that are opened *)

Definition test_tree : string := "../../test/meshfiles/".

Definition checked_by (v : value) : list string :=
  match v with
  | VCall f args _ =>
      if String.eqb (last_attr f) "isfile" then strings_of args else []
  | _ => []
  end.

Definition is_loader (v : value) : bool :=
  existsb (String.eqb (last_attr (call_func v))) loaders.

(** A loader takes its paths as positional arguments.  A path is accounted
    for when it lies in the test tree of the repository, or names a file
    that the run has stored (written, downloaded or fetched through
    [geocat.datafiles]) or has asked about before it opens it. *)
Definition accounted (known : list string) (a : value) : bool :=
  match path_of a with
  | [p] => prefix test_tree p || existsb (String.eqb p) known
  | _ => false
  end.

Fixpoint opens_known (known : list string) (tr : list event) : bool :=
  match tr with
  | [] => true
  | Called v :: tr' =>
      (if is_loader v then forallb (accounted known) (call_args v) else true)
      && forallb (fun kv => match path_of (snd kv) with
                            | [] => true
                            | _ => false
                            end)
                 (if is_loader v then call_kwargs v else [])
      && opens_known (known ++ written_by v ++ checked_by v) tr'
  | _ :: tr' => opens_known known tr'
  end.

(** The paths a run opens, in order. *)
Definition opened (tr : list event) : list value :=
  flat_map (fun v => if is_loader v then call_args v else [])
           (flat_map event_call tr).

(** The files every run of every notebook opens, each once. *)
Definition opened_files : list string :=
  dedup (flat_map (fun n =>
                     flat_map (fun st => flat_map path_of (opened (trace st)))
                              (finals n)) repository).

(** ** Plots that are made and not shown *)

(** Every value that occurs in a value, itself first. *)
Fixpoint subvalues (v : value) : list value :=
  v ::
  match v with
  | VList l | VTuple l | VFormat l => flat_map subvalues l
  | VDict items =>
      flat_map (fun kv => subvalues (fst kv) ++ subvalues (snd kv)) items
  | VAttr o _ | VUnaryOp _ o | VUnpack o _ => subvalues o
  | VItem o i => subvalues o ++ subvalues i
  | VCall f args kw =>
      subvalues f ++ flat_map subvalues args
        ++ flat_map (fun kv => subvalues (snd kv)) kw
  | VBinOp l _ r => subvalues l ++ subvalues r
  | _ => []
  end.

Definition occurs_in (c v : value) : bool :=
  existsb (value_eqb c) (subvalues v).

(** A call of a plotting method: [plot] or [hvplot] is on its path. *)
Definition is_plot (v : value) : bool :=
  existsb (fun a => String.eqb a "plot" || String.eqb a "hvplot")
          (vchain (call_func v)).

(** The plots a run makes that are part of nothing it displays. *)
Definition never_shown (st : state) : list value :=
  filter (fun c => is_plot c
                   && negb (existsb (occurs_in c) (displayed (trace st))))
         (made_calls st).

(** The expression statements of a cell whose value Jupyter drops: all but
    one that ends the cell. *)
Definition dropped (b : list stmt) : list expr :=
  flat_map (fun s => match s with SExpr e => [e] | _ => [] end)
           (removelast b).

(** Calls made for what they do, not for their value. *)
Definition for_effect (e : expr) : bool :=
  existsb (String.eqb (last (chain e) ""))
          ["print"; "extension"; "filterwarnings"].

(** The access paths of the expressions a notebook evaluates for their
    value and drops. *)
Definition dropped_values (n : notebook) : list (list string) :=
  flat_map (fun b => map chain
                         (filter (fun e => negb (for_effect e)) (dropped b)))
           (code_cells n).

(** The calls of [p] that are part of what a run displays. *)
Definition shown_calls (p : list string) (st : state) : list value :=
  filter (fun v => match v with
                   | VCall f _ _ => ends_with p (vchain f)
                   | _ => false
                   end)
         (flat_map subvalues (displayed (trace st))).

(** ** The mesh literals of the custom-topology notebook *)

(** The rows given to [np.array]. *)
Definition array_rows (v : value) : option (list value) :=
  match v with
  | VCall (VAttr (VModule "numpy") "array") [VList rows] [] => Some rows
  | _ => None
  end.

Definition int_of (v : value) : option Z :=
  match v with VInt n => Some n | _ => None end.

(** A connectivity row of a mesh with [n] nodes: integers, each the index
    of a node or the fill value, at least three of them indices, and the
    fill values, if any, at the end. *)
Definition is_index (n : nat) (v : value) : bool :=
  match v with
  | VInt i => (0 <=? i)%Z && (i <? Z.of_nat n)%Z
  | _ => false
  end.

Definition is_fill (fill : option value) (v : value) : bool :=
  match fill, v with
  | Some (VInt f), VInt i => (f =? i)%Z
  | _, _ => false
  end.

Fixpoint padded (n : nat) (fill : option value) (row : list value) : bool :=
  match row with
  | [] => true
  | v :: row' =>
      if is_index n v then padded n fill row'
      else forallb (is_fill fill) row
  end.

Definition row_ok (n width : nat) (fill : option value) (row : value) : bool :=
  match row with
  | VList es =>
      Nat.eqb (List.length es) width
      && padded n fill es
      && Nat.leb 3 (List.length (filter (is_index n) es))
  | _ => false
  end.

Definition row_width (rows : list value) : nat :=
  match rows with
  | VList es :: _ => List.length es
  | _ => 0
  end.

(** The numbers of nodes and faces a call of [Grid.from_topology] gives,
    when its arrays make a mesh: as many latitudes as longitudes, all
    numbers, and rows of connectivity of one width that are as above. *)
Definition mesh_size (c : value) : option (nat * nat) :=
  let kw := call_kwargs c in
  match kwarg "node_lon" kw, kwarg "node_lat" kw,
        kwarg "face_node_connectivity" kw with
  | Some lon, Some lat, Some conn =>
      match array_rows lon, array_rows lat, array_rows conn with
      | Some xs, Some ys, Some rows =>
          let n := List.length xs in
          if Nat.eqb (List.length ys) n
             && forallb numeric xs && forallb numeric ys
             && forallb (row_ok n (row_width rows) (kwarg "fill_value" kw))
                        rows
          then Some (n, List.length rows)
          else None
      | _, _, _ => None
      end
  | _, _, _ => None
  end.

(** Whether a fill value occurs in the connectivity of a call. *)
Definition has_fill (c : value) : bool :=
  match kwarg "face_node_connectivity" (call_kwargs c) with
  | Some conn =>
      match array_rows conn with
      | Some rows =>
          existsb (fun row => match row with
                              | VList es =>
                                  existsb (fun v => match v with
                                                    | VInt i => (i <? 0)%Z
                                                    | _ => false
                                                    end) es
                              | _ => false
                              end) rows
      | None => false
      end
  | None => false
  end.

(** A call without one of its keywords. *)
Definition without_keyword (k : string) (c : value) : value :=
  match c with
  | VCall f args kw =>
      VCall f args (filter (fun p => negb (String.eqb k (fst p))) kw)
  | _ => c
  end.

(** *** Data for the mesh *)

Definition same_width (rows : list value) : bool :=
  forallb (fun row => match row with
                      | VList es => Nat.eqb (List.length es) (row_width rows)
                      | _ => false
                      end) rows.

(** A data array of xarray built from a transposed literal: its name, its
    shape and its dimensions.  The literal has rows of one width; transposed,
    it has as many entries along its first dimension as a row is long, and
    as many along its second as there are rows. *)
Definition data_array (v : value)
  : list (string * (nat * nat) * list string) :=
  match v with
  | VCall (VAttr (VModule "xarray") "DataArray") [] kw =>
      match kwarg "name" kw, kwarg "data" kw, kwarg "dims" kw with
      | Some (VStr n), Some (VAttr a "T"), Some (VList ds) =>
          match array_rows a with
          | Some rows =>
              if same_width rows
              then [(n, (row_width rows, List.length rows), strings_of ds)]
              else []
          | None => []
          end
      | _, _, _ => []
      end
  | _ => []
  end.

(** An argument that is passed by position or by keyword. *)
Definition argument (i : nat) (k : string) (c : value) : option value :=
  match kwarg k (call_kwargs c) with
  | Some v => Some v
  | None => nth_error (call_args c) i
  end.

Fixpoint mapped (d : string) (m : list (value * value)) : option string :=
  match m with
  | [] => None
  | (VStr k, VStr u) :: m' => if String.eqb d k then Some u else mapped d m'
  | _ :: m' => mapped d m'
  end.

(** The size of a dimension of the grid. *)
Definition grid_size (g : value) (u : string) : option nat :=
  match mesh_size g with
  | Some (nodes, faces) =>
      if String.eqb u "n_node" then Some nodes
      else if String.eqb u "n_face" then Some faces
      else None
  | None => None
  end.

Definition option_nat_dec (a b : option nat) : {a = b} + {a <> b}.
Proof. decide equality. apply Nat.eq_dec. Defined.

(** What [from_xarray(data, grid, ugrid_dims)] is given: for every data
    array in [data], its name, its dimensions with their sizes, and for
    each dimension the size of the grid dimension it is mapped to, if it is
    mapped. *)
Definition matched (c : value)
  : list (string * list (string * nat * option (option nat))) :=
  match argument 0 "ds" c, argument 1 "uxgrid" c,
        argument 2 "ugrid_dims" c with
  | Some d, Some g, Some (VDict m) =>
      map (fun a =>
             match a with
             | (n, (s0, s1), ds) =>
                 (n, map (fun p => (fst p, snd p,
                                    option_map (grid_size g)
                                               (mapped (fst p) m)))
                         (combine ds [s0; s1]))
             end)
          (flat_map data_array (subvalues d))
  | _, _, _ => []
  end.

(** A dimension fits when it is not mapped, or is mapped to a grid
    dimension of its own size. *)
Definition dimension_fits (p : string * nat * option (option nat)) : bool :=
  match p with
  | (_, _, None) => true
  | (_, s, Some g) => same option_nat_dec g (Some s)
  end.

(** *** Regions of the subsetting notebook *)

(** [(c - d, c + d)] is the interval about [c] of half-width [d]. *)
Definition interval_about (v : value) : option (value * value) :=
  match v with
  | VTuple [VBinOp c Sub d; VBinOp c' Add d'] =>
      if same value_eq_dec c c' && same value_eq_dec d d'
      then Some (c, d) else None
  | _ => None
  end.

(** The centre a subsetting call looks about, with the half-width of the
    box or the radius of the circle. *)
Definition region (c : value) : option (value * value * option value) :=
  match call_func c, call_args c with
  | VAttr _ "bounding_box", [lon; lat] =>
      match interval_about lon, interval_about lat with
      | Some (x, d), Some (y, d') =>
          if same value_eq_dec d d' then Some (x, y, Some d) else None
      | _, _ => None
      end
  | VAttr _ "bounding_circle", [VList [x; y]; r] => Some (x, y, Some r)
  | VAttr _ "nearest_neighbor", [VList [x; y]] => Some (x, y, None)
  | _, _ => None
  end.

(** ** Named objects of further runs *)

Module RemappingRun.

Definition uxds_480 : value :=
  VCall (ux "open_dataset") [VStr "oQU480.grid.nc"; VStr "oQU480.data.nc"] [].

Definition uxds_120 : value :=
  VCall (ux "open_dataset") [VStr "oQU120.grid.nc"; VStr "oQU120.data.nc"] [].

Definition depth (u : value) : value := VItem u (VStr "bottomDepth").

(** [src["bottomDepth"].remap.<method>(dst.uxgrid, remap_to="face centers",
    ...)] *)
Definition remapped (method : string) (src dst : value)
           (more : list (string * value)) : value :=
  VCall (VAttr (VAttr (depth src) "remap") method) [VAttr dst "uxgrid"]
        (("remap_to", VStr "face centers") :: more).

Definition up (method : string) (more : list (string * value)) : value :=
  remapped method uxds_480 uxds_120 more.

Definition down (method : string) (more : list (string * value)) : value :=
  remapped method uxds_120 uxds_480 more.

(** The four plots of a comparison cell: the data that is remapped and the
    result, each whole and zoomed. *)
Definition comparison (a b : string) (src result : value)
  : list (string * value) :=
  [ (("Bottom Depth (" ++ a ++ ")")%string, depth src);
    (("Remapped Bottom Depth (" ++ a ++ " to " ++ b ++ ")")%string, result);
    (("Zoomed (" ++ a ++ ")")%string, depth src);
    (("Zoomed Remap (" ++ a ++ " to " ++ b ++ ")")%string, result) ].

End RemappingRun.

Module SubsetRun.

Definition fetched (path : string) : value :=
  VCall (VAttr (VModule "geocat.datafiles") "get") [VStr path] [].

Definition grid_file : value :=
  fetched "netcdf_files/MPAS/FalkoJudt/dyamond_1/30km/x1.655362.grid_subset.nc".

Definition data_file : value :=
  fetched
    "netcdf_files/MPAS/FalkoJudt/dyamond_1/30km/diag.2016-08-20_00.00.00_subset.nc".

Definition uxds : value := VCall (ux "open_dataset") [grid_file; data_file] [].

(** [uxds["relhum_200hPa"][0]] *)
Definition field : value := VItem (VItem uxds (VStr "relhum_200hPa")) (VInt 0).

Definition extreme (m : string) : value :=
  VCall (VAttr (VAttr field "values") m) [] [].

End SubsetRun.

Module DualMeshRun.

Definition uxds : value :=
  VCall (ux "open_dataset")
        [ VStr "../../test/meshfiles/mpas/QU/mesh.QU.1920km.151026.nc";
          VStr "../../test/meshfiles/mpas/QU/mesh.QU.1920km.151026.nc" ] [].

Definition dual (v : value) : value := VCall (VAttr v "get_dual") [] [].

Definition to_faces (v : value) : value :=
  VCall (VAttr v "topological_mean") [] [("destination", VStr "face")].

End DualMeshRun.

Module WeightedMeanRun.

Definition opened (data : string) : value :=
  VCall (ux "open_mfdataset")
        [ VStr "../../test/meshfiles/ugrid/quad-hexagon/grid.nc";
          VStr ("../../test/meshfiles/ugrid/quad-hexagon/" ++ data) ] [].

Definition face_data : value :=
  VItem (opened "random-face-data.nc") (VStr "random_data_face").

Definition edge_data : value :=
  VItem (opened "random-edge-data.nc") (VStr "random_data_edge").

Definition values_of (method : string) (v : value) : value :=
  VAttr (VCall (VAttr v method) [] []) "values".

End WeightedMeanRun.

Module HealpixRun.

Definition psi : value :=
  VItem (VCall (ux "open_dataset")
               [ VStr "../../test/meshfiles/ugrid/outCSne30/outCSne30.ug";
                 VStr "../../test/meshfiles/ugrid/outCSne30/outCSne30_vortex.nc" ]
               [])
        (VStr "psi").

Definition hp_grid : value := from_healpix [("zoom", VInt 5)].

Definition psi_hp : value :=
  VCall (VAttr (VAttr psi "remap") "nearest_neighbor") []
        [("destination_grid", hp_grid)].

End HealpixRun.

(** * Properties *)

(** ** General facts *)

Lemma forallb_Forall_true {A} (p : A -> bool) (l : list A) :
  forallb p l = true -> Forall (fun x => p x = true) l.
Proof.
  induction l as [|x l IH]; simpl; intros H; constructor.
  - apply andb_true_iff in H. tauto.
  - apply IH. apply andb_true_iff in H. tauto.
Qed.

Lemma forallb_Forall_false {A} (p : A -> bool) (l : list A) :
  existsb p l = false -> Forall (fun x => p x = false) l.
Proof.
  induction l as [|x l IH]; simpl; intros H; constructor.
  - apply orb_false_iff in H. tauto.
  - apply IH. apply orb_false_iff in H. tauto.
Qed.

Lemma Forall_check {A} (d : A -> bool) (P : A -> Prop) (l : list A) :
  (forall x, d x = true -> P x) -> forallb d l = true -> Forall P l.
Proof.
  intros H Hl. apply forallb_Forall_true in Hl.
  induction Hl; constructor; auto.
Qed.

Lemma same_eq {A} (dec : forall x y : A, {x = y} + {x <> y}) (a b : A) :
  same dec a b = true -> a = b.
Proof. unfold same. destruct (dec a b); [auto | discriminate]. Qed.

Lemma code_cell_in (n : notebook) (c : cell) :
  In n repository -> In c (cells n) ->
  match c with Code _ => True | Markdown _ => False end ->
  In (body c) all_code_cells.
Proof.
  intros Hn Hc Hk. unfold all_code_cells.
  apply in_flat_map. exists n. split; [exact Hn|].
  unfold code_cells. apply in_flat_map. exists c. split; [exact Hc|].
  destruct c; [contradiction | simpl; auto].
Qed.

(** The monad laws the runner relies on. *)
Lemma bind_ret_l {A B} (a : A) (k : A -> M B) (st : state) :
  bind (ret a) k st = k a st.
Proof. unfold bind, ret. simpl. apply app_nil_r. Qed.

Lemma bind_ext {A B} (c : M A) (k k' : A -> M B) (st : state) :
  (forall a st', k a st' = k' a st') -> bind c k st = bind c k' st.
Proof.
  intros H. unfold bind. induction (c st) as [|r rs IH]; simpl; [reflexivity|].
  rewrite IH. f_equal. destruct r as [a st'|e st']; [apply H | reflexivity].
Qed.

Lemma bind_assoc {A B C} (c : M A) (k : A -> M B) (h : B -> M C) (st : state) :
  bind (bind c k) h st = bind c (fun a => bind (k a) h) st.
Proof.
  unfold bind. induction (c st) as [|r rs IH]; simpl; [reflexivity|].
  rewrite flat_map_app, IH. f_equal.
  destruct r as [a st'|e st']; simpl; reflexivity.
Qed.

(** Running two lists of cells one after the other is running their
    concatenation. *)
Lemma iterM_app {A} (f : A -> M unit) (l1 l2 : list A) (st : state) :
  iterM f (l1 ++ l2) st = bind (iterM f l1) (fun _ => iterM f l2) st.
Proof.
  revert st. induction l1 as [|a l1 IH]; intros st.
  - simpl. rewrite bind_ret_l. reflexivity.
  - simpl. rewrite bind_assoc. apply bind_ext. intros _ st'. apply IH.
Qed.

Ltac in_list := repeat (first [left; reflexivity | right]).

(** ** Exceptions propagate where nothing handles them *)

Lemma raises_nothing_app (t1 t2 : list event) :
  raises_nothing t1 -> raises_nothing t2 -> raises_nothing (t1 ++ t2).
Proof.
  unfold raises_nothing. intros H1 H2.
  rewrite existsb_app, H1, H2. reflexivity.
Qed.

Lemma uncaught_from_refl {A} (a : A) (st : state) : uncaught_from st (Ok a st).
Proof. exists []. split; [symmetry; apply app_nil_r | reflexivity]. Qed.

Lemma uncaught_from_fail {A} (e : error) (st : state) :
  (forall x, e <> Raised x) -> uncaught_from st (@Err A e st).
Proof.
  intros H.
  destruct e;
    try (exists []; split; [symmetry; apply app_nil_r | reflexivity]).
  destruct (H c eq_refl).
Qed.

Lemma uncaught_from_trans {A B} (st st' : state) (a : A) (o : outcome B) :
  uncaught_from st (Ok a st') -> uncaught_from st' o -> uncaught_from st o.
Proof.
  intros (t1 & E1 & C1) H.
  assert (G : forall st'' t2,
             trace st'' = trace st' ++ t2 -> raises_nothing t2 ->
             exists tr, trace st'' = trace st ++ tr /\ raises_nothing tr).
  { intros st'' t2 E2 C2. exists (t1 ++ t2).
    split; [|apply raises_nothing_app; auto].
    rewrite E2, E1. symmetry. apply app_assoc. }
  destruct o as [b st''|e st'']; simpl in *.
  - destruct H as (t2 & E2 & C2). eauto.
  - destruct e; try solve [destruct H as (t2 & E2 & C2); eauto].
    destruct H as (t2 & E2 & C2). exists (t1 ++ t2).
    split; [|apply raises_nothing_app; auto].
    rewrite E2, E1. rewrite <- !app_assoc. reflexivity.
Qed.

(** *** The monad *)

Lemma propagates_ret {A} (a : A) : propagates (ret a).
Proof. intros st o [<-|[]]. apply uncaught_from_refl. Qed.

Lemma propagates_fail {A} (e : error) :
  (forall x, e <> Raised x) -> propagates (@fail A e).
Proof. intros H st o [<-|[]]. apply uncaught_from_fail. exact H. Qed.

Lemma propagates_bind {A B} (c : M A) (k : A -> M B) :
  propagates c -> (forall a, propagates (k a)) -> propagates (bind c k).
Proof.
  intros Hc Hk st o H. unfold bind in H.
  apply in_flat_map in H. destruct H as (r & Hr & H).
  pose proof (Hc _ _ Hr) as W.
  destruct r as [a st'|e st'].
  - eapply uncaught_from_trans; [exact W | apply (Hk a _ _ H)].
  - destruct H as [<-|[]]. exact W.
Qed.

Lemma propagates_either : propagates either.
Proof. intros st o [<-|[<-|[]]]; apply uncaught_from_refl. Qed.

Lemma propagates_emit (ev : event) :
  is_raising ev = false -> propagates (emit ev).
Proof.
  intros E st o [<-|[]]. exists [ev]. split; [reflexivity|].
  unfold raises_nothing. simpl. rewrite E. reflexivity.
Qed.

Lemma propagates_store (x : string) (v : value) : propagates (store x v).
Proof.
  intros st o [<-|[]]. exists [].
  split; [symmetry; apply app_nil_r | reflexivity].
Qed.

Lemma propagates_load (x : string) : propagates (load x).
Proof.
  intros st o H. unfold load in H.
  destruct (lookup x (env st)); [|destruct (existsb _ _)];
    destruct H as [<-|[]];
    first [apply uncaught_from_refl | apply uncaught_from_fail; discriminate].
Qed.

Lemma propagates_mapM {A B} (f : A -> M B) (l : list A) :
  (forall x, In x l -> propagates (f x)) -> propagates (mapM f l).
Proof.
  induction l as [|a l IH]; intros H; simpl.
  - apply propagates_ret.
  - apply propagates_bind; [apply H; left; reflexivity|]. intros b.
    apply propagates_bind; [apply IH; intros x Hx; apply H; right; exact Hx|].
    intros bs. apply propagates_ret.
Qed.

Lemma propagates_iterM {A} (f : A -> M unit) (l : list A) :
  (forall x, In x l -> propagates (f x)) -> propagates (iterM f l).
Proof.
  induction l as [|a l IH]; intros H; simpl.
  - apply propagates_ret.
  - apply propagates_bind; [apply H; left; reflexivity|]. intros _.
    apply IH. intros x Hx. apply H. right. exact Hx.
Qed.

(** One step through a computation made of the operations above. *)
Ltac propagates_step :=
  first
    [ apply propagates_ret
    | apply propagates_fail; discriminate
    | apply propagates_either
    | apply propagates_store
    | apply propagates_load
    | apply propagates_emit; reflexivity
    | apply propagates_bind; [|intros ?]
    | match goal with
      | |- propagates (match ?x with _ => _ end) => destruct x
      | |- propagates (if ?x then _ else _) => destruct x
      end ].

Ltac propagates_prim := repeat propagates_step.

(** [c1 ;; c2], the first part by [tac1], the second by [tac2]. *)
Ltac in_turn tac1 tac2 := apply propagates_bind; [tac1 | intros ?; tac2].

(** *** The operations on values *)

Lemma propagates_index l n : propagates (index l n).
Proof. unfold index. propagates_prim. Qed.

Lemma propagates_dict_get k items : propagates (dict_get k items).
Proof.
  induction items as [|[k' v] items IH]; simpl; propagates_prim. exact IH.
Qed.

Lemma propagates_dict_set k v items : propagates (dict_set k v items).
Proof.
  induction items as [|[k' v'] items IH]; simpl; propagates_prim. exact IH.
Qed.

Lemma propagates_dict_of items : forall acc, propagates (dict_of items acc).
Proof.
  induction items as [|[k v] items IH]; intros acc; simpl; propagates_prim.
  - apply propagates_dict_set.
  - apply IH.
Qed.

Lemma propagates_spread v : propagates (spread v).
Proof. unfold spread. propagates_prim. Qed.

Lemma propagates_spread_keywords v : propagates (spread_keywords v).
Proof.
  unfold spread_keywords.
  destruct v; try (apply propagates_fail; discriminate).
  apply propagates_mapM. intros [k w] _. propagates_prim.
Qed.

Lemma propagates_subscript v i : propagates (subscript v i).
Proof.
  unfold subscript. destruct v; propagates_prim;
    try apply propagates_index; try apply propagates_dict_get.
Qed.

Lemma propagates_attribute v a : propagates (attribute v a).
Proof. unfold attribute. propagates_prim. Qed.

Lemma propagates_binop l op r : propagates (binop l op r).
Proof. unfold binop. destruct l, r; propagates_prim. Qed.

Lemma propagates_truth v : propagates (truth v).
Proof. unfold truth. propagates_prim. Qed.

Lemma propagates_unary op v : propagates (unary op v).
Proof.
  unfold unary. destruct op, v; propagates_prim; apply propagates_truth.
Qed.

Lemma propagates_display v : propagates (display v).
Proof. unfold display. propagates_prim. Qed.

Lemma propagates_import_alias a : propagates (import_alias a).
Proof. unfold import_alias. propagates_prim. Qed.

Lemma propagates_import_from m a : propagates (import_from m a).
Proof. unfold import_from. propagates_prim. Qed.

(** The one place an exception comes from: it is the last event of the
    outcome it ends. *)
Lemma propagates_returns faults c : propagates (returns faults c).
Proof.
  unfold returns. destruct faults; [|apply propagates_ret].
  intros st o [<-|[<-|[]]]; [apply uncaught_from_refl|].
  exists []. split; reflexivity.
Qed.

Lemma propagates_call faults f args kwargs :
  propagates (call faults f args kwargs).
Proof. unfold call. destruct f; propagates_prim; apply propagates_returns. Qed.

(** *** Expressions, by induction on the expression *)

(** An element of a list of sub-terms is its head, left to [tac], or an
    element of its tail, for which the induction hypothesis stands. *)
Ltac head_or_tail Hin IH tac :=
  first [ solve [destruct Hin]
        | destruct Hin as [<-|Hin]; [tac | apply IH; exact Hin] ].

Fixpoint propagates_eval (faults : bool) (e : expr) {struct e}
  : propagates (eval faults e).
Proof.
  pose (rec := propagates_eval faults).
  destruct e as [x|n|m x|s|b| |v a|v i|f args kws|es|es|items|l op r|op v
                |op es|l rest|t b o|parts|v|v|ps v|elt gens|v|v];
    simpl; try (apply propagates_fail; discriminate);
    try apply propagates_ret.
  - apply propagates_load.
  - in_turn ltac:(apply rec) ltac:(apply propagates_attribute).
  - in_turn ltac:(apply rec)
            ltac:(in_turn ltac:(apply rec) ltac:(apply propagates_subscript)).
  - in_turn ltac:(apply rec) idtac.
    apply propagates_bind.
    { apply propagates_mapM.
      induction args as [|arg args IH]; intros y Hy;
        head_or_tail Hy IH idtac.
      pose proof (rec arg) as Ha.
      destruct arg;
        try (in_turn ltac:(exact Ha) ltac:(apply propagates_ret)).
      in_turn ltac:(apply rec) ltac:(apply propagates_spread). }
    intros avs. apply propagates_bind.
    { apply propagates_mapM.
      induction kws as [|[k y] kws IH]; intros z Hz;
        head_or_tail Hz IH idtac.
      destruct k.
      - in_turn ltac:(apply rec) ltac:(apply propagates_ret).
      - in_turn ltac:(apply rec) ltac:(apply propagates_spread_keywords). }
    intros kvs.
    destruct (no_dup _);
      [apply propagates_call | apply propagates_fail; discriminate].
  - in_turn idtac ltac:(apply propagates_ret).
    apply propagates_mapM.
    induction es as [|x es IH]; intros y Hy;
      head_or_tail Hy IH ltac:(apply rec).
  - in_turn idtac ltac:(apply propagates_ret).
    apply propagates_mapM.
    induction es as [|x es IH]; intros y Hy;
      head_or_tail Hy IH ltac:(apply rec).
  - apply propagates_bind.
    { apply propagates_mapM.
      induction items as [|[k y] items IH]; intros z Hz;
        head_or_tail Hz IH idtac.
      destruct k; [|apply propagates_fail; discriminate].
      in_turn ltac:(apply rec)
              ltac:(in_turn ltac:(apply rec) ltac:(apply propagates_ret)). }
    intros kvs.
    in_turn ltac:(apply propagates_dict_of) ltac:(apply propagates_ret).
  - in_turn ltac:(apply rec)
            ltac:(in_turn ltac:(apply rec) ltac:(apply propagates_binop)).
  - in_turn ltac:(apply rec) ltac:(apply propagates_unary).
  - in_turn idtac ltac:(apply propagates_ret).
    apply propagates_mapM.
    induction parts as [|part parts IH]; intros y Hy;
      head_or_tail Hy IH idtac.
    pose proof (rec part) as Ha.
    destruct part; try exact Ha.
    in_turn ltac:(apply rec) ltac:(apply propagates_ret).
Qed.

(** *** Assignment *)

Lemma propagates_assign_each (f : expr -> value -> M unit) (ts : list expr) :
  (forall t w, In t ts -> propagates (f t w)) ->
  forall vs, propagates (assign_each f ts vs).
Proof.
  induction ts as [|t ts IH]; intros H [|v vs]; simpl; propagates_prim.
  - apply H. left. reflexivity.
  - apply IH. intros t' w Hin. apply H. right. exact Hin.
Qed.

Lemma propagates_assign_parts (f : expr -> value -> M unit) (v : value)
      (ts : list expr) :
  (forall t w, In t ts -> propagates (f t w)) ->
  forall i, propagates (assign_parts f v ts i).
Proof.
  induction ts as [|t ts IH]; intros H i; simpl; propagates_prim.
  - apply H. left. reflexivity.
  - apply IH. intros t' w Hin. apply H. right. exact Hin.
Qed.

Fixpoint propagates_assign (t : expr) (v : value) {struct t}
  : propagates (assign t v).
Proof.
  destruct t as [x|n|m x|s|b| |o a|o i|f args kws|es|es|items|l op r|op o
                |op es|l rest|c b o|parts|o|o|ps o|elt gens|o|o];
    simpl; try (apply propagates_fail; discriminate).
  - apply propagates_store.
  - assert (H : forall t w, In t es -> propagates (assign t w)).
    { induction es as [|a es IH]; intros t w Hin;
        head_or_tail Hin IH ltac:(apply propagates_assign). }
    destruct v; try (apply propagates_assign_each; exact H);
      destruct (external _);
      first [ apply propagates_assign_parts; exact H
            | apply propagates_fail; discriminate ].
  - assert (H : forall t w, In t es -> propagates (assign t w)).
    { induction es as [|a es IH]; intros t w Hin;
        head_or_tail Hin IH ltac:(apply propagates_assign). }
    destruct v; try (apply propagates_assign_each; exact H);
      destruct (external _);
      first [ apply propagates_assign_parts; exact H
            | apply propagates_fail; discriminate ].
Qed.

(** *** Statements, by induction on the statement *)

Lemma handler_free_body (l : list stmt) (s : stmt) :
  existsb handles_exceptions (flat_map substmts l) = false ->
  In s l -> handler_free s = true.
Proof.
  intros H Hin. unfold handler_free. apply negb_true_iff.
  destruct (existsb handles_exceptions (substmts s)) eqn:E; [|reflexivity].
  apply existsb_exists in E. destruct E as (x & Hx & E).
  assert (X : existsb handles_exceptions (flat_map substmts l) = true).
  { apply existsb_exists. exists x. split; [|exact E].
    apply in_flat_map. exists s. auto. }
  congruence.
Qed.

Lemma handler_free_tail (s : stmt) (l : list stmt) :
  existsb handles_exceptions (flat_map substmts (s :: l)) = false ->
  existsb handles_exceptions (flat_map substmts l) = false.
Proof.
  simpl. rewrite existsb_app. intros H.
  apply orb_false_iff in H. tauto.
Qed.

Fixpoint propagates_exec (faults : bool) (s : stmt) {struct s} :
  handler_free s = true -> propagates (exec faults s).
Proof.
  intros H. unfold handler_free in H. apply negb_true_iff in H.
  destruct s as [names|m names|ts e|t op e|t a e|e|a t i body orelse
                |c body orelse|c body orelse|a items body
                |body hs orelse final|e|c|a nm ps body|nm bases body|e|ts
                |ns|ns| | | ];
    simpl; try (apply propagates_fail; discriminate);
    try apply propagates_ret.
  - apply propagates_iterM. intros; apply propagates_import_alias.
  - apply propagates_iterM. intros; apply propagates_import_from.
  - in_turn ltac:(apply propagates_eval) idtac.
    apply propagates_iterM. intros; apply propagates_assign.
  - in_turn ltac:(apply propagates_eval) ltac:(apply propagates_ret).
  - (* for *)
    simpl in H. rewrite existsb_app in H. apply orb_false_iff in H.
    destruct H as [Hb Ho].
    assert (B : forall s', In s' body -> propagates (exec faults s')).
    { clear Ho. induction body as [|b body IH]; intros s' Hin;
        [destruct Hin | destruct Hin as [<-|Hin]].
      - apply propagates_exec.
        apply (@handler_free_body (b :: body)); [exact Hb | left; reflexivity].
      - apply IH; [exact (handler_free_tail _ _ Hb) | exact Hin]. }
    assert (O : forall s', In s' orelse -> propagates (exec faults s')).
    { clear Hb B. induction orelse as [|b orelse IH]; intros s' Hin;
        [destruct Hin | destruct Hin as [<-|Hin]].
      - apply propagates_exec.
        apply (@handler_free_body (b :: orelse));
          [exact Ho | left; reflexivity].
      - apply IH; [exact (handler_free_tail _ _ Ho) | exact Hin]. }
    destruct a; [apply propagates_fail; discriminate|].
    in_turn ltac:(apply propagates_eval) idtac.
    assert (L : forall vs,
               propagates
                 (iterM (fun v => assign t v ;; iterM (exec faults) body) vs ;;
                  iterM (exec faults) orelse)).
    { intros vs.
      in_turn idtac ltac:(apply propagates_iterM; exact O).
      apply propagates_iterM. intros v _.
      in_turn ltac:(apply propagates_assign)
              ltac:(apply propagates_iterM; exact B). }
    match goal with
    | |- propagates (match ?iv with _ => _ end) =>
        destruct iv; try (apply propagates_fail; discriminate); apply L
    end.
  - (* if *)
    simpl in H. rewrite existsb_app in H. apply orb_false_iff in H.
    destruct H as [Hb Ho].
    assert (B : forall s', In s' body -> propagates (exec faults s')).
    { clear Ho. induction body as [|b body IH]; intros s' Hin;
        [destruct Hin | destruct Hin as [<-|Hin]].
      - apply propagates_exec.
        apply (@handler_free_body (b :: body)); [exact Hb | left; reflexivity].
      - apply IH; [exact (handler_free_tail _ _ Hb) | exact Hin]. }
    assert (O : forall s', In s' orelse -> propagates (exec faults s')).
    { clear Hb B. induction orelse as [|b orelse IH]; intros s' Hin;
        [destruct Hin | destruct Hin as [<-|Hin]].
      - apply propagates_exec.
        apply (@handler_free_body (b :: orelse));
          [exact Ho | left; reflexivity].
      - apply IH; [exact (handler_free_tail _ _ Ho) | exact Hin]. }
    in_turn ltac:(apply propagates_eval)
            ltac:(in_turn ltac:(apply propagates_truth) idtac).
    match goal with
    | |- propagates (if ?b then _ else _) =>
        destruct b; apply propagates_iterM; assumption
    end.
  - (* try *)
    simpl in H. discriminate.
Qed.

Lemma propagates_run_cell (faults : bool) (b : list stmt) :
  existsb handles_exceptions (block_stmts b) = false ->
  propagates (run_cell faults b).
Proof.
  induction b as [|s b IH]; intros H; [apply propagates_ret|].
  assert (Hs : handler_free s = true)
    by (apply (@handler_free_body (s :: b)); [exact H | left; reflexivity]).
  assert (Hb : existsb handles_exceptions (block_stmts b) = false)
    by exact (handler_free_tail _ _ H).
  assert (G : propagates (exec faults s ;; run_cell faults b))
    by (apply propagates_bind;
        [apply propagates_exec; exact Hs | intros _; apply IH; exact Hb]).
  destruct s; try exact G. destruct b; [|exact G].
  simpl. in_turn ltac:(apply propagates_eval) ltac:(apply propagates_display).
Qed.

(** Exceptions propagate: in a notebook without a handler, whether or not
    its calls may raise, the trace of a run holds [Raising x] only when the
    run ends in the exception of [x], and then as its last event.  Nothing
    runs after an exception, and no run goes on after one. *)
Theorem exceptions_propagate (faults : bool) (n : notebook) :
  Forall (fun b => existsb handles_exceptions (block_stmts b) = false)
         (code_cells n) ->
  Forall (uncaught_from initial) (outcomes faults n).
Proof.
  intros H. apply Forall_forall. intros o Ho.
  unfold outcomes in Ho.
  assert (P : propagates (iterM (run_cell faults) (code_cells n))).
  { apply propagates_iterM. intros b Hb. apply propagates_run_cell.
    rewrite Forall_forall in H. apply H. exact Hb. }
  apply P. exact Ho.
Qed.

(** Pick the final state of a notebook that has a single run. *)
Ltac the_run n :=
  let rs := eval vm_compute in (runs n) in
  match rs with
  | [Ok _ ?st] => exists st
  end.

Ltac the_final n :=
  let sts := eval vm_compute in (finals n) in
  match sts with
  | [?st] => exists st
  end.

Ltac by_running := repeat split; vm_compute; reflexivity.

(** Prove a property of every final state of a notebook, one run at a
    time. *)
Ltac all_finals :=
  match goal with
  | |- Forall _ ?l =>
      let v := eval vm_compute in l in
      replace l with v by (vm_compute; reflexivity);
      repeat (apply Forall_cons; [ by_running | ]);
      apply Forall_nil
  end.

(** ** What the notebooks invoke *)

(** C2.  For each capability the specification enumerates (cross-sectional
    slicing, HEALPix grid construction and loading, geometric weighted means,
    geometry-frame conversion, nearest-neighbour and inverse-distance-weighted
    remapping, spatial-hash point location, custom topology from raw arrays,
    bounding-box, bounding-circle and nearest-neighbour subsetting, dual-mesh
    construction), some code cell of some notebook of the repository calls
    the corresponding method of the toolkit, and a run of that notebook
    makes the call. *)
Theorem C2_every_capability_is_invoked :
  forall c : capability,
    exists n b st,
      In n repository /\ In b (code_cells n) /\
      invokes (method_of c) b = true /\
      In st (finals n) /\ calls_to (method_of c) (trace st) <> [].
Proof.
  intros c.
  assert (H : existsb
                (fun n =>
                   existsb (invokes (method_of c)) (code_cells n)
                   && existsb (fun st =>
                                 match calls_to (method_of c) (trace st) with
                                 | [] => false
                                 | _ => true
                                 end) (finals n))
                repository = true)
    by (destruct c; vm_compute; reflexivity).
  apply existsb_exists in H. destruct H as (n & Hn & H).
  apply andb_prop in H. destruct H as [Hb Hs].
  apply existsb_exists in Hb. destruct Hb as (b & Hb & Hi).
  apply existsb_exists in Hs. destruct Hs as (st & Hst & Hc).
  exists n, b, st. repeat split; auto.
  intros E. rewrite E in Hc. discriminate.
Qed.

(** ** Error handling *)

(** With a handler around it, a call that raises is followed by a run
    that completes: the semantics can tell a notebook that catches from one
    that does not. *)
Lemma a_handler_is_seen_in_the_runs :
  existsb handles_exceptions (block_stmts guarded_cell) = true /\
  forallb uncaught (run_cell true guarded_cell initial) = false.
Proof. split; vm_compute; reflexivity. Qed.

(** A call into a package may raise, whatever the call and the state. *)
Lemma a_package_call_may_raise (f : value) (args : list value)
      (kwargs : list (string * value)) (st : state) :
  external f = true ->
  exists st',
    In (Err (Raised (VCall f args kwargs)) st') (call true f args kwargs st) /\
    trace st' = trace st ++ [ Called (VCall f args kwargs);
                              Raising (VCall f args kwargs) ].
Proof.
  intros H. eexists. split.
  - unfold call.
    destruct f; try discriminate H; simpl; right; left; reflexivity.
  - simpl. rewrite <- app_assoc. reflexivity.
Qed.

(** C4.  No code cell of any notebook holds an exception-handling construct:
    no [try] statement (with its [except] and [finally] clauses) and no
    [with] statement occurs at any depth of any cell.  So, when calls into
    packages may raise, an exception is never caught: every run of every
    notebook either completes, and then nothing was raised, or ends in the
    exception of the last call it made, nothing having run after it; no run
    ends in any other error.  In the notebooks that have one run when calls
    return, each call of that run ends one of the runs. *)
Theorem C4_no_exception_handling :
  Forall (fun b => existsb handles_exceptions (block_stmts b) = false)
         all_code_cells /\
  Forall (fun n => Forall (uncaught_from initial) (faulty_runs n))
         repository /\
  Forall (fun n => forallb uncaught (faulty_runs n) = true) repository /\
  Forall (fun n => exists st,
                     runs n = [Ok tt st] /\
                     rev (raised (faulty_runs n)) = made_calls st)
         [ CrossSections.nb; Healpix.nb; DualMesh.nb; WeightedMean.nb;
           Holoviz.nb; SpatialHashing.nb; CustomGrid.nb; Subset.nb ].
Proof.
  assert (H : Forall (fun b => existsb handles_exceptions (block_stmts b)
                               = false) all_code_cells).
  { apply (forallb_Forall_false
             (fun b => existsb handles_exceptions (block_stmts b))).
    vm_compute. reflexivity. }
  split; [exact H|]. split; [|split].
  - unfold all_code_cells in H. apply Forall_flat_map in H.
    apply (Forall_impl _ (@exceptions_propagate true) H).
  - apply (forallb_Forall_true (fun n => forallb uncaught (faulty_runs n))).
    vm_compute. reflexivity.
  - repeat (apply Forall_cons;
            [ match goal with
              | |- exists st, runs ?n = _ /\ _ => the_run n; by_running
              end | ]).
    apply Forall_nil.
Qed.

(** ** Single notebooks *)

(** C7.  The single-triangle example of the custom-topology notebook is
    made of literals only: three node longitudes, three node latitudes and
    one connectivity row of three node indices, each wrapped in [np.array];
    the three arrays are passed as they are to [ux.Grid.from_topology],
    whose result is bound to [uxgrid_tri].  No cell of any notebook defines
    a class or a function. *)
Theorem C7_single_triangle_literals :
  exists st,
    runs CustomGrid.nb = [Ok tt st] /\
    List.length (body CustomGrid.cell_04) = 3 /\
    forallb assigns_array (body CustomGrid.cell_04) = true /\
    firstn 3 (calls_to ["numpy"; "array"] (trace st)) =
      [ np_array [VFloat (-200) (-1); VFloat 0 (-1); VFloat 200 (-1)];
        np_array [VFloat (-100) (-1); VFloat 100 (-1); VFloat (-100) (-1)];
        np_array [VList [VInt 0; VInt 1; VInt 2]] ] /\
    lookup "uxgrid_tri" (env st) =
      Some (VCall (VAttr (ux "Grid") "from_topology") []
              [ ("node_lon",
                 np_array [VFloat (-200) (-1); VFloat 0 (-1); VFloat 200 (-1)]);
                ("node_lat",
                 np_array [VFloat (-100) (-1); VFloat 100 (-1);
                           VFloat (-100) (-1)]);
                ("face_node_connectivity",
                 np_array [VList [VInt 0; VInt 1; VInt 2]]) ]) /\
    Forall (fun b => defines b = false) all_code_cells.
Proof.
  the_run CustomGrid.nb.
  repeat split; try (vm_compute; reflexivity).
  apply (forallb_Forall_false defines). vm_compute. reflexivity.
Qed.

(** C8.  In the cross-sections notebook the cell of the longitude-interval
    example binds [lons] to [[-25, 25]] but passes [lats], which is
    [[-20, 20]], to [cross_section.constant_longitude_interval].  In the one
    run the notebook has, [uxda_constant_lon_interval] is therefore the slice
    over [[-20, 20]], and the plot of it, the last thing displayed, is titled
    with [lons]: between -25 and 25 degrees longitude. *)
Theorem C8_longitude_interval_is_sliced_with_lats :
  exists st,
    runs CrossSections.nb = [Ok tt st] /\
    nth_error (cells CrossSections.nb) 17 =
      Some (Code
        [ SAssign [EName "lons"] (EList [EUnaryOp USub (EInt 25); EInt 25]);
          SAssign [EName "uxda_constant_lon_interval"]
            (ECall
              (EAttribute
                (EAttribute (ESubscript (EName "uxds") (EStr "psi"))
                            "cross_section")
                "constant_longitude_interval")
              [EName "lats"] []) ]) /\
    lookup "lats" (env st) = Some (VList [VInt (-20); VInt 20]) /\
    lookup "lons" (env st) = Some (VList [VInt (-25); VInt 25]) /\
    calls_to ["constant_longitude_interval"] (trace st) =
      [ CrossSectionsRun.section "constant_longitude_interval"
          (VList [VInt (-20); VInt 20]) ] /\
    lookup "uxda_constant_lon_interval" (env st) =
      Some (CrossSectionsRun.section "constant_longitude_interval"
              (VList [VInt (-20); VInt 20])) /\
    CrossSectionsRun.plotted (last (displayed (trace st)) VNone) =
      CrossSectionsRun.section "constant_longitude_interval"
        (VList [VInt (-20); VInt 20]) /\
    CrossSectionsRun.plot_title (last (displayed (trace st)) VNone) =
      Some (VStr "Cross Section between -25 and 25 degrees longitude").
Proof.
  the_run CrossSections.nb. by_running.
Qed.

(** C9.  The first call of the spatial-hashing notebook to
    [get_spatial_hash] passes the string ["False"] as [reconstruct], the
    second passes nothing.  The string is not the boolean [False] that the
    prose of the notebook gives as the default of this [bool] parameter, and
    being a non-empty string it is true where [False] is false. *)
Theorem C9_reconstruct_is_the_string_False :
  exists st,
    runs SpatialHashing.nb = [Ok tt st] /\
    map call_kwargs (calls_to ["get_spatial_hash"] (trace st)) =
      [ [("reconstruct", VStr "False")]; [] ] /\
    VStr "False" <> VBool false /\
    (forall s, truth (VStr "False") s = [Ok true s]) /\
    (forall s, truth (VBool false) s = [Ok false s]) /\
    prose_says "`reconstruct` is a bool variable"
               (nth_error (cells SpatialHashing.nb) 4) = true /\
    prose_says "The default parameter is `False`."
               (nth_error (cells SpatialHashing.nb) 4) = true.
Proof.
  the_run SpatialHashing.nb.
  repeat split; try (vm_compute; reflexivity).
  discriminate.
Qed.

(** C10.  In the HEALPix notebook the prose that says [pixels_only] can be
    set to [True] if the boundaries are to be computed upfront is followed by
    a cell that calls [Grid.from_healpix(zoom=3, pixels_only=False)]; the
    prose about asking for no connectivity upfront is followed by a cell that
    reads [face_node_connectivity] of
    [Grid.from_healpix(zoom=3, pixels_only=True)].  In the code, boundaries
    upfront is [pixels_only=False], the opposite of the prose. *)
Theorem C10_pixels_only_code_contradicts_prose :
  exists st,
    runs Healpix.nb = [Ok tt st] /\
    prose_says "requires the boundaries of each cell to be defined"
               (nth_error (cells Healpix.nb) 5) = true /\
    prose_says "- ``node_lon``: "
               (nth_error (cells Healpix.nb) 5) = true /\
    prose_says "- ``node_lat``: "
               (nth_error (cells Healpix.nb) 5) = true /\
    prose_says "- ``face_node_connectivity``: "
               (nth_error (cells Healpix.nb) 5) = true /\
    prose_says
      "``pixels_only``, is provided which can be set to ``True`` if you require the boundaries to be computed upfront."
      (nth_error (cells Healpix.nb) 5) = true /\
    nth_error (cells Healpix.nb) 6 =
      Some (Code
        [ SExpr
            (ECall
              (EAttribute (EAttribute (EName "ux") "Grid") "from_healpix")
              []
              [ (Some "zoom", EInt 3);
                (Some "pixels_only", EBool false) ]) ]) /\
    prose_says
      "specifying that you do not want the connectivity upfront, they can still be constructed when desired"
      (nth_error (cells Healpix.nb) 7) = true /\
    nth_error (cells Healpix.nb) 8 =
      Some (Code
        [ SExpr
            (EAttribute
              (ECall
                (EAttribute (EAttribute (EName "ux") "Grid") "from_healpix")
                []
                [ (Some "zoom", EInt 3); (Some "pixels_only", EBool true) ])
              "face_node_connectivity") ]) /\
    firstn 3 (displayed (trace st)) =
      [ from_healpix [("zoom", VInt 3)];
        from_healpix [("zoom", VInt 3); ("pixels_only", VBool false)];
        VAttr (from_healpix [("zoom", VInt 3); ("pixels_only", VBool true)])
              "face_node_connectivity" ].
Proof.
  the_run Healpix.nb. by_running.
Qed.

(** ** The cross-section means *)

(** The cross-sections notebook takes the cross-section of [psi] at latitude
    0 and prints two means, that of all of [psi] and that of the
    cross-section.  What the two numbers are is computed by the toolkit from
    the data files, outside the notebooks. *)
Lemma cross_sections_prints_two_means :
  exists st,
    runs CrossSections.nb = [Ok tt st] /\
    lookup "lat" (env st) = Some (VInt 0) /\
    calls_to ["constant_latitude"] (trace st) =
      [ CrossSectionsRun.section "constant_latitude" (VInt 0) ] /\
    printed (trace st) =
      [ [ VFormat [ VStr "Global Mean: "; mean_of CrossSectionsRun.psi ] ];
        [ VFormat [ VStr "Mean at "; VStr "0"; VStr " degrees lat: ";
                    mean_of (CrossSectionsRun.section "constant_latitude"
                                                      (VInt 0)) ] ] ].
Proof.
  the_run CrossSections.nb. by_running.
Qed.

(** ** Where the notebooks differ from the specification *)

(** C1, as written, fails: the data cell of the remapping notebook neither
    imports nor shows anything and downloads files with
    [urllib.request.urlretrieve]; the cell of the cross-sections notebook
    that binds [lat] calls the toolkit and shows nothing; a cell of the
    custom-topology notebook assigns raw numeric literals; another merely
    assigns a dictionary. *)
Lemma C1_counterexample :
  In (body Remapping.cell_10) all_code_cells /\
  tutorial_cell (body Remapping.cell_10) = false /\
  downloads (body Remapping.cell_10) = true /\
  In (body CrossSections.cell_05) all_code_cells /\
  tutorial_cell (body CrossSections.cell_05) = false /\
  In (body CustomGrid.cell_04) all_code_cells /\
  tutorial_cell (body CustomGrid.cell_04) = false /\
  defines_raw_data (body CustomGrid.cell_04) = true /\
  In (body CustomGrid.cell_17) all_code_cells /\
  merely_assigns (body CustomGrid.cell_17) = true /\
  ~ spec_cell_kinds.
Proof.
  assert (H10 : In (body Remapping.cell_10) all_code_cells).
  { apply (@code_cell_in Remapping.nb); [in_list | in_list | exact I]. }
  assert (H05 : In (body CrossSections.cell_05) all_code_cells).
  { apply (@code_cell_in CrossSections.nb); [in_list | in_list | exact I]. }
  assert (H04 : In (body CustomGrid.cell_04) all_code_cells).
  { apply (@code_cell_in CustomGrid.nb); [in_list | in_list | exact I]. }
  assert (H17 : In (body CustomGrid.cell_17) all_code_cells).
  { apply (@code_cell_in CustomGrid.nb); [in_list | in_list | exact I]. }
  repeat split; try assumption; try (vm_compute; reflexivity).
  intros H. unfold spec_cell_kinds in H. rewrite Forall_forall in H.
  destruct (H _ H10) as [Ht _]. vm_compute in Ht. discriminate.
Qed.

(** C1, amended.  Every code cell consists of import statements,
    assignments and expression statements only, except the data cell of the
    remapping notebook, which also loops over file names and, in an [if],
    downloads the missing ones with [urllib.request.urlretrieve]; it is the
    only cell that calls [urlretrieve].  One more cell fetches data over
    the network: the cell of the subsetting notebook that obtains its two
    files with [geocat.datafiles.get].  No cell defines a function, a class
    or a lambda, and in every run every call other than [print] is to a
    callable that comes from an imported package.  A cell shows something
    when it prints or ends in an expression other than a [print] or a call
    that returns [None]; in every run of every notebook, as many values
    are displayed as the notebook has cells that end in such an
    expression, and the cell that saves with [to_netcdf] shows nothing.
    Of the 123 code cells, 11 import packages (3 do nothing else); of the
    other 112, 57 call into a package and show a value, 34 call into a
    package and show nothing, 15 show a value without a call, and 6 merely
    assign variables.  8 cells bind a name to data written out in the cell,
    a list of numbers, bare or in [np.array] or [xr.DataArray]; one more
    cell, the query of the spatial-hashing notebook, passes a list of
    numbers to a call. *)
Theorem C1_what_the_cells_do :
  filter (fun b => negb (forallb is_plain (block_stmts b))) all_code_cells
    = [body Remapping.cell_10] /\
  forallb (fun s => is_plain s || is_loop_or_test s)
          (block_stmts (body Remapping.cell_10)) = true /\
  filter (invokes ["urllib"; "request"; "urlretrieve"]) all_code_cells
    = [body Remapping.cell_10] /\
  filter downloads all_code_cells
    = [body Remapping.cell_10; body Subset.cell_03] /\
  Forall (fun b => defines b = false) all_code_cells /\
  Forall (fun n => completes n = true /\
                   Forall (fun st => calls_packages_only (trace st) = true)
                          (finals n)) repository /\
  Forall (fun n =>
            Forall (fun st => List.length (displayed (trace st))
                              = List.length (filter ends_in_value
                                                    (code_cells n)))
                   (finals n)) repository /\
  shows (body Healpix.cell_20) = false /\
  how_many (fun _ => true) = 123 /\
  how_many imports = 11 /\
  how_many imports_only = 3 /\
  how_many (fun b => negb (imports b) && calls_package b && shows b) = 57 /\
  how_many (fun b => negb (imports b) && calls_package b && negb (shows b))
    = 34 /\
  how_many (fun b => negb (imports b) && negb (calls_package b) && shows b)
    = 15 /\
  how_many (fun b => negb (imports b) && negb (calls_package b)
                     && negb (shows b)) = 6 /\
  how_many merely_assigns = 6 /\
  filter defines_raw_data all_code_cells =
    [ body CrossSections.cell_14; body CrossSections.cell_17;
      body CustomGrid.cell_04; body CustomGrid.cell_09;
      body CustomGrid.cell_15; body CustomGrid.cell_21;
      body Subset.cell_18; body Subset.cell_21 ] /\
  filter passes_raw_data all_code_cells = [body SpatialHashing.cell_07].
Proof.
  split; [vm_compute; reflexivity|].
  split; [vm_compute; reflexivity|].
  split; [vm_compute; reflexivity|].
  split; [vm_compute; reflexivity|].
  split; [apply (forallb_Forall_false defines); vm_compute; reflexivity|].
  split.
  { repeat (apply Forall_cons;
            [ split;
              [ vm_compute; reflexivity
              | apply (forallb_Forall_true
                         (fun st => calls_packages_only (trace st)));
                vm_compute; reflexivity ]
            | ]).
    apply Forall_nil. }
  split.
  { apply (Forall_check
             (fun n => forallb
                         (fun st => Nat.eqb
                                      (List.length (displayed (trace st)))
                                      (List.length (filter ends_in_value
                                                           (code_cells n))))
                         (finals n))).
    - intros n H. apply (Forall_check _ _ _ (fun st => proj1 (Nat.eqb_eq _ _)) H).
    - vm_compute. reflexivity. }
  repeat match goal with |- _ /\ _ => split end; vm_compute; reflexivity.
Qed.

(** C3, as written, fails: a cell of the HEALPix notebook writes
    [psi_healpix.nc] with [to_netcdf], and two later cells load the file; in
    the one run of the notebook the file is written and then loaded twice. *)
Lemma C3_counterexample :
  In Healpix.nb repository /\
  nth_error (cells Healpix.nb) 20 = Some Healpix.cell_20 /\
  invokes ["to_netcdf"] (body Healpix.cell_20) = true /\
  nth_error (cells Healpix.nb) 22 = Some Healpix.cell_22 /\
  invokes ["UxDataset"; "from_healpix"] (body Healpix.cell_22) = true /\
  nth_error (cells Healpix.nb) 24 = Some Healpix.cell_24 /\
  invokes ["xr"; "open_dataset"] (body Healpix.cell_24) = true /\
  (exists st,
     finals Healpix.nb = [st] /\
     written (trace st) = ["psi_healpix.nc"] /\
     reread (trace st) = ["psi_healpix.nc"; "psi_healpix.nc"]) /\
  ~ spec_no_file_read_back.
Proof.
  assert (Hin : In Healpix.nb repository) by in_list.
  split; [exact Hin|].
  do 6 (split; [vm_compute; reflexivity|]).
  split.
  - the_final Healpix.nb. by_running.
  - intros H. unfold spec_no_file_read_back in H. rewrite Forall_forall in H.
    specialize (H _ Hin).
    assert (E : existsb (fun st => match reread (trace st) with
                                   | [] => false
                                   | _ => true
                                   end) (finals Healpix.nb) = true)
      by (vm_compute; reflexivity).
    apply existsb_exists in E. destruct E as (st & Hst & E).
    rewrite Forall_forall in H. rewrite (H _ Hst) in E. discriminate.
Qed.

(** C3, amended.  The notebooks define no file format of their own.  The
    things their cells call have 51 distinct names, and three of them name
    callables that their packages document as storing a file: [to_netcdf],
    [urlretrieve] and [get] of [geocat.datafiles]; in the runs, the calls
    that store a file are calls of these three, made by three notebooks,
    and each of the three notebooks loads what it has stored.  The HEALPix
    notebook saves the remapped variable with
    [to_xarray(grid_format="HEALPix")] and [to_netcdf("psi_healpix.nc")],
    formats of the toolkit and of xarray, and loads the file with
    [ux.UxDataset.from_healpix] and [xr.open_dataset].  The remapping
    notebook has 16 runs, one for each way in which its four data files
    can be there or not, a file being there when [os.path.isfile] is true
    of it: a run downloads with [urlretrieve] exactly the files that are
    not there, and opens the four files with [ux.open_dataset].  The
    subsetting notebook fetches its two files with [geocat.datafiles.get]
    and opens the copies with [ux.open_dataset].  In the runs of the six
    other notebooks none of the three callables is called.  The keywords
    [zoom], [k] and [power] are passed only to [Grid.from_healpix], to
    [remap.inverse_distance_weighted] and [subset.nearest_neighbor], with
    [zoom=3], [k=30] and [power=5] among them; [lat] is bound to 0 and
    passed to [cross_section.constant_latitude]. *)
Theorem C3_files_written_and_read_back :
  called_names =
    [ "constant_latitude"; "constant_longitude"; "constant_latitude_interval";
      "constant_longitude_interval"; "grid"; "to_netcdf"; "to_xarray";
      "to_dataset"; "from_healpix"; "edges"; "mesh"; "isfile"; "urlretrieve";
      "inverse_distance_weighted"; "topological_mean"; "get_dual";
      "open_mfdataset"; "relabel"; "weighted_mean"; "to_geodataframe";
      "points"; "paths"; "cols"; "Layout"; "opts"; "Orthographic"; "polygons";
      "Robinson"; "open_grid"; "query"; "get_spatial_hash"; "from_topology";
      "DataArray"; "array"; "Dataset"; "from_xarray"; "extension";
      "filterwarnings"; "get"; "open_dataset"; "min"; "max"; "coastline";
      "states"; "PlateCarree"; "bounding_box"; "nearest_neighbor"; "plot";
      "print"; "mean"; "bounding_circle" ] /\
  dedup (flat_map (fun n => flat_map (fun st => storing (trace st))
                                     (finals n)) repository)
    = ["to_netcdf"; "urlretrieve"; "get"] /\
  Forall (fun n => Forall (fun st => written (trace st) = []) (finals n))
         [ CrossSections.nb; DualMesh.nb; WeightedMean.nb; Holoviz.nb;
           SpatialHashing.nb; CustomGrid.nb ] /\
  (exists st,
     runs Subset.nb = [Ok tt st] /\
     map call_func (filter (fun v => match written_by v with
                                     | [] => false
                                     | _ => true
                                     end) (made_calls st)) =
       [ VAttr (VModule "geocat.datafiles") "get";
         VAttr (VModule "geocat.datafiles") "get" ] /\
     written (trace st) =
       [ "netcdf_files/MPAS/FalkoJudt/dyamond_1/30km/diag.2016-08-20_00.00.00_subset.nc";
         "netcdf_files/MPAS/FalkoJudt/dyamond_1/30km/x1.655362.grid_subset.nc" ] /\
     reread (trace st) =
       [ "netcdf_files/MPAS/FalkoJudt/dyamond_1/30km/x1.655362.grid_subset.nc";
         "netcdf_files/MPAS/FalkoJudt/dyamond_1/30km/diag.2016-08-20_00.00.00_subset.nc" ]) /\
  (exists st,
     runs Healpix.nb = [Ok tt st] /\
     map saved_as (calls_to ["to_netcdf"] (trace st)) =
       [ ("to_xarray", [("grid_format", VStr "HEALPix")],
          [VStr "psi_healpix.nc"]) ] /\
     calls_to ["UxDataset"; "from_healpix"] (trace st) =
       [ VCall (VAttr (ux "UxDataset") "from_healpix")
               [VStr "psi_healpix.nc"] [] ] /\
     calls_to ["xarray"; "open_dataset"] (trace st) =
       [ VCall (VAttr (VModule "xarray") "open_dataset")
               [VStr "psi_healpix.nc"] [] ] /\
     written (trace st) = ["psi_healpix.nc"] /\
     reread (trace st) = ["psi_healpix.nc"; "psi_healpix.nc"]) /\
  completes Remapping.nb = true /\
  List.length (finals Remapping.nb) = 16 /\
  map (fun st => written (trace st)) (finals Remapping.nb)
    = map missing (worlds oqu_files) /\
  Forall (fun st =>
            subset_of (written (trace st)) oqu_files = true /\
            map written_by (calls_to ["urllib"; "request"; "urlretrieve"]
                                     (trace st))
              = map (fun f => [f]) (written (trace st)) /\
            reread (trace st) = written (trace st) /\
            map (fun v => strings_of (call_args v))
                (skipn 1 (calls_to ["uxarray"; "open_dataset"] (trace st)))
              = [ ["oQU480.grid.nc"; "oQU480.data.nc"];
                  ["oQU120.grid.nc"; "oQU120.data.nc"] ])
         (finals Remapping.nb) /\
  forallb (fun s => ends_with ["Grid"; "from_healpix"] (fst s))
          (flat_map (sites_of "zoom") all_code_cells) = true /\
  forallb (fun s => ends_with ["remap"; "inverse_distance_weighted"] (fst s)
                    || ends_with ["subset"; "nearest_neighbor"] (fst s))
          (flat_map (sites_of "k") all_code_cells) = true /\
  forallb (fun s => ends_with ["remap"; "inverse_distance_weighted"] (fst s))
          (flat_map (sites_of "power") all_code_cells) = true /\
  In (["ux"; "Grid"; "from_healpix"], EInt 3)
     (flat_map (sites_of "zoom") all_code_cells) /\
  In (["uxds"; "subset"; "nearest_neighbor"], EInt 30)
     (flat_map (sites_of "k") all_code_cells) /\
  In (["uxds_120"; "remap"; "inverse_distance_weighted"], EInt 5)
     (flat_map (sites_of "power") all_code_cells) /\
  (exists st,
     runs CrossSections.nb = [Ok tt st] /\
     lookup "lat" (env st) = Some (VInt 0) /\
     calls_to ["constant_latitude"] (trace st) =
       [ CrossSectionsRun.section "constant_latitude" (VInt 0) ]).
Proof.
  split; [vm_compute; reflexivity|].
  split; [vm_compute; reflexivity|].
  split; [|split; [|split; [|split; [|split; [|split; [|split]]]]]].
  - repeat (apply Forall_cons; [ all_finals | ]). apply Forall_nil.
  - the_run Subset.nb.
    repeat match goal with |- _ /\ _ => split end; vm_compute; reflexivity.
  - the_run Healpix.nb. by_running.
  - vm_compute. reflexivity.
  - vm_compute. reflexivity.
  - vm_compute. reflexivity.
  - apply (Forall_check
             (fun st =>
                subset_of (written (trace st)) oqu_files
                && same rows_dec
                     (map written_by
                          (calls_to ["urllib"; "request"; "urlretrieve"]
                                    (trace st)))
                     (map (fun f => [f]) (written (trace st)))
                && same strings_dec (reread (trace st)) (written (trace st))
                && same rows_dec
                     (map (fun v => strings_of (call_args v))
                          (skipn 1 (calls_to ["uxarray"; "open_dataset"]
                                             (trace st))))
                     [ ["oQU480.grid.nc"; "oQU480.data.nc"];
                       ["oQU120.grid.nc"; "oQU120.data.nc"] ])).
    + intros st H.
      apply andb_prop in H. destruct H as [H H4].
      apply andb_prop in H. destruct H as [H H3].
      apply andb_prop in H. destruct H as [H1 H2].
      repeat split; [exact H1 | | |]; eapply same_eq; eassumption.
    + vm_compute. reflexivity.
  - repeat split; try (vm_compute; reflexivity).
    + vm_compute. in_list.
    + vm_compute. in_list.
    + vm_compute. in_list.
    + the_run CrossSections.nb. by_running.
Qed.

(** C5, as written, fails: the data cell of the remapping notebook loops and
    branches, and the HoloViz notebook binds [plot_kwargs] again and again,
    so the namespace a later cell reads has changed. *)
Lemma C5_counterexample :
  In (body Remapping.cell_10) all_code_cells /\
  straight_line (body Remapping.cell_10) = false /\
  In Holoviz.nb repository /\
  rebound Holoviz.nb = ["plot_kwargs"] /\
  count "plot_kwargs" (flat_map bindings (code_cells Holoviz.nb)) = 8 /\
  ~ spec_straight_line_no_mutable_state.
Proof.
  assert (H10 : In (body Remapping.cell_10) all_code_cells).
  { apply (@code_cell_in Remapping.nb); [in_list | in_list | exact I]. }
  split; [exact H10|].
  split; [vm_compute; reflexivity|].
  split; [in_list|].
  split; [vm_compute; reflexivity|].
  split; [vm_compute; reflexivity|].
  intros [H _]. rewrite Forall_forall in H.
  specialize (H _ H10). vm_compute in H. discriminate.
Qed.

(** C5, amended.  Every notebook is a sequential program without threads,
    asynchronous operations, coroutines or timeouts: no cell has an [async]
    construct, [await] or [yield], none of the fifteen modules imported is a
    concurrency package, and no call passes a [timeout].  Every cell is
    straight-line code except the data cell of the remapping notebook.  No
    notebook depends on another: each runs to completion from an empty
    namespace in every one of its runs, and no notebook loads a file that
    another writes.  The notebooks do have mutable state of their own, their
    top-level namespace: in four of them more than one statement binds the
    same variable ([result], [unweighted_result]; [plot_kwargs];
    [node_lon], [node_lat], [face_node_connectivity], [ugrid_dims];
    [center_coord]), the HoloViz
    notebook switches the plotting backend eight times with
    [hv.extension]; but no cell assigns to an attribute or an item, uses an
    augmented assignment, [del], [global] or [nonlocal]. *)
Theorem C5_sequential_and_independent :
  Forall (fun b => existsb is_async (block_stmts b) = false /\
                   existsb is_async_expr (block_exprs b) = false)
         all_code_cells /\
  dedup (flat_map imported all_code_cells) =
    [ "geoviews"; "os"; "urllib.request"; "pathlib"; "hvplot.pandas";
      "matplotlib"; "matplotlib.pyplot"; "numpy"; "xarray"; "warnings";
      "cartopy.crs"; "geocat.datafiles"; "geoviews.feature"; "holoviews";
      "uxarray" ] /\
  existsb is_concurrency_package (flat_map imported all_code_cells) = false /\
  flat_map (sites_of "timeout") all_code_cells = [] /\
  filter (fun b => negb (straight_line b)) all_code_cells
    = [body Remapping.cell_10] /\
  Forall (fun n => completes n = true) repository /\
  ForallOrdPairs (fun n m => independent n m = true) repository /\
  map rebound repository =
    [ []; []; []; []; ["result"; "unweighted_result"]; ["plot_kwargs"]; [];
      ["node_lon"; "node_lat"; "face_node_connectivity"; "ugrid_dims"];
      ["center_coord"] ] /\
  (exists st,
     runs Holoviz.nb = [Ok tt st] /\
     map call_args (calls_to ["holoviews"; "extension"] (trace st)) =
       [ [VStr "matplotlib"]; [VStr "bokeh"]; [VStr "matplotlib"];
         [VStr "bokeh"]; [VStr "matplotlib"]; [VStr "bokeh"];
         [VStr "matplotlib"]; [VStr "matplotlib"] ]) /\
  Forall (fun b => existsb mutates (block_stmts b) = false) all_code_cells.
Proof.
  split.
  { apply (Forall_check
             (fun b => negb (existsb is_async (block_stmts b))
                       && negb (existsb is_async_expr (block_exprs b)))).
    - intros b H. apply andb_prop in H. destruct H as [H1 H2].
      apply negb_true_iff in H1. apply negb_true_iff in H2. auto.
    - vm_compute. reflexivity. }
  split; [vm_compute; reflexivity|].
  split; [vm_compute; reflexivity|].
  split; [vm_compute; reflexivity|].
  split; [vm_compute; reflexivity|].
  split; [apply (forallb_Forall_true completes); vm_compute; reflexivity|].
  split.
  { repeat (apply FOP_cons;
            [ repeat (apply Forall_cons; [vm_compute; reflexivity|]);
              apply Forall_nil | ]).
    apply FOP_nil. }
  split; [vm_compute; reflexivity|].
  split; [the_run Holoviz.nb; by_running|].
  apply (forallb_Forall_false (fun b => existsb mutates (block_stmts b))).
  vm_compute. reflexivity.
Qed.

(** * Further properties *)

(** ** Equality tests *)

Fixpoint value_eqb_eq (a b : value) {struct a} : value_eqb a b = true -> a = b.
Proof.
  destruct a as [n|m e|s|c| |l|l|d|x|x|o t|o i|f l k|u op v|op v|v i|l],
           b as [n'|m' e'|s'|c'| |l'|l'|d'|x'|x'|o' t'|o' i'|f' l' k'
                |u' op' v'|op' v'|v' i'|l'];
    simpl; intros H; try discriminate H.
  - apply Z.eqb_eq in H. congruence.
  - apply andb_prop in H. destruct H as [H1 H2].
    apply Z.eqb_eq in H1. apply Z.eqb_eq in H2. congruence.
  - apply String.eqb_eq in H. congruence.
  - apply Bool.eqb_prop in H. congruence.
  - reflexivity.
  - f_equal. revert l' H.
    induction l as [|x l IH]; intros [|y l'] H; simpl in H;
      try discriminate H; [reflexivity|].
    apply andb_prop in H. destruct H as [H1 H2].
    rewrite (value_eqb_eq x y H1), (IH l' H2). reflexivity.
  - f_equal. revert l' H.
    induction l as [|x l IH]; intros [|y l'] H; simpl in H;
      try discriminate H; [reflexivity|].
    apply andb_prop in H. destruct H as [H1 H2].
    rewrite (value_eqb_eq x y H1), (IH l' H2). reflexivity.
  - f_equal. revert d' H.
    induction d as [|[p1 p2] d IH]; intros [|[q1 q2] d'] H; simpl in H;
      try discriminate H; [reflexivity|].
    apply andb_prop in H. destruct H as [H1 H2].
    apply andb_prop in H1. destruct H1 as [H0 H1].
    rewrite (value_eqb_eq p1 q1 H0), (value_eqb_eq p2 q2 H1), (IH d' H2).
    reflexivity.
  - apply String.eqb_eq in H. congruence.
  - apply String.eqb_eq in H. congruence.
  - apply andb_prop in H. destruct H as [H1 H2].
    apply String.eqb_eq in H2. rewrite (value_eqb_eq o o' H1), H2.
    reflexivity.
  - apply andb_prop in H. destruct H as [H1 H2].
    rewrite (value_eqb_eq o o' H1), (value_eqb_eq i i' H2). reflexivity.
  - apply andb_prop in H. destruct H as [H Hk].
    apply andb_prop in H. destruct H as [Hf Hl].
    rewrite (value_eqb_eq f f' Hf). clear Hf.
    assert (El : l = l').
    { clear Hk. revert l' Hl.
      induction l as [|x l IH]; intros [|y l'] H; simpl in H;
        try discriminate H; [reflexivity|].
      apply andb_prop in H. destruct H as [H1 H2].
      rewrite (value_eqb_eq x y H1), (IH l' H2). reflexivity. }
    assert (Ek : k = k').
    { clear Hl El. revert k' Hk.
      induction k as [|[p1 p2] k IH]; intros [|[q1 q2] k'] H; simpl in H;
        try discriminate H; [reflexivity|].
      apply andb_prop in H. destruct H as [H1 H2].
      apply andb_prop in H1. destruct H1 as [H0 H1].
      apply String.eqb_eq in H0.
      rewrite H0, (value_eqb_eq p2 q2 H1), (IH k' H2). reflexivity. }
    rewrite El, Ek. reflexivity.
  - apply andb_prop in H. destruct H as [H H3].
    apply andb_prop in H. destruct H as [H1 H2].
    apply same_eq in H2.
    rewrite (value_eqb_eq u u' H1), H2, (value_eqb_eq v v' H3). reflexivity.
  - apply andb_prop in H. destruct H as [H1 H2].
    apply same_eq in H1. rewrite H1, (value_eqb_eq v v' H2). reflexivity.
  - apply andb_prop in H. destruct H as [H1 H2].
    apply Nat.eqb_eq in H2. rewrite (value_eqb_eq v v' H1), H2. reflexivity.
  - f_equal. revert l' H.
    induction l as [|x l IH]; intros [|y l'] H; simpl in H;
      try discriminate H; [reflexivity|].
    apply andb_prop in H. destruct H as [H1 H2].
    rewrite (value_eqb_eq x y H1), (IH l' H2). reflexivity.
Qed.

Lemma list_eqb_eq {A} (eqb : A -> A -> bool) :
  (forall x y, eqb x y = true -> x = y) ->
  forall l l', list_eqb eqb l l' = true -> l = l'.
Proof.
  intros sound. induction l as [|x l IH]; intros [|y l'] H; simpl in H;
    try discriminate H; [reflexivity|].
  apply andb_prop in H. destruct H as [H1 H2].
  rewrite (sound x y H1), (IH l' H2). reflexivity.
Qed.

Lemma event_eqb_eq (a b : event) : event_eqb a b = true -> a = b.
Proof.
  destruct a, b; simpl; intros H; try discriminate H; f_equal;
    first [ apply value_eqb_eq; exact H
          | apply (list_eqb_eq value_eqb value_eqb_eq); exact H ].
Qed.

Lemma binding_eqb_eq (a b : string * value) : binding_eqb a b = true -> a = b.
Proof.
  destruct a as [x v], b as [y w]. unfold binding_eqb. simpl. intros H.
  apply andb_prop in H. destruct H as [H1 H2].
  apply String.eqb_eq in H1. apply value_eqb_eq in H2. congruence.
Qed.

Lemma events_eqb_eq (a b : list event) : events_eqb a b = true -> a = b.
Proof. apply (list_eqb_eq event_eqb event_eqb_eq). Qed.

Lemma bindings_eqb_eq (a b : list (string * value)) :
  bindings_eqb a b = true -> a = b.
Proof. apply (list_eqb_eq binding_eqb binding_eqb_eq). Qed.

(** ** The download loop *)

Lemma lookup_update_eq (x : string) (v : value) (l : list (string * value)) :
  lookup x (update x v l) = Some v.
Proof.
  induction l as [|[y w] l IH]; simpl.
  - rewrite String.eqb_refl. reflexivity.
  - destruct (String.eqb x y) eqn:E; simpl.
    + rewrite String.eqb_refl. reflexivity.
    + rewrite E. exact IH.
Qed.

Lemma lookup_update_ne (x y : string) (v : value) (l : list (string * value)) :
  String.eqb x y = false -> lookup x (update y v l) = lookup x l.
Proof.
  intros H. induction l as [|[z w] l IH]; simpl.
  - rewrite H. reflexivity.
  - destruct (String.eqb y z) eqn:E; simpl.
    + apply String.eqb_eq in E. subst z. rewrite H. reflexivity.
    + destruct (String.eqb x z); [reflexivity | exact IH].
Qed.

Lemma lookup_update_other (x y : string) (v : value)
      (l : list (string * value)) :
  x <> y -> lookup x (update y v l) = lookup x l.
Proof. intros H. apply lookup_update_ne. apply String.eqb_neq. exact H. Qed.

Lemma append_empty (s : string) : (s ++ "")%string = s.
Proof. induction s; simpl; congruence. Qed.

Lemma keeps_refl (st : state) : keeps st st.
Proof. intros x _. reflexivity. Qed.

Lemma keeps_trans (a b c : state) : keeps a b -> keeps b c -> keeps a c.
Proof. intros H1 H2 x Hx. rewrite (H2 x Hx). apply (H1 x Hx). Qed.

Lemma os_is_kept : ~ In "os" loop_names.
Proof. simpl. intros [H|[H|[H|[H|[]]]]]; discriminate H. Qed.

Lemma urllib_is_kept : ~ In "urllib" loop_names.
Proof. simpl. intros [H|[H|[H|[H|[]]]]]; discriminate H. Qed.

(** Evaluate one turn of the loop in a namespace of which only the
    bindings of [os] and [urllib] are known. *)
Ltac one_turn Hos Hurl :=
  unfold iteration, loop_body, download_loop; simpl;
  unfold bind, store, load; simpl;
  repeat (progress (simpl;
                    repeat first [ rewrite lookup_update_eq
                                 | rewrite lookup_update_ne by reflexivity
                                 | rewrite Hos | rewrite Hurl ])).

Ltac kept :=
  let x := fresh "x" in
  let Hx := fresh "Hx" in
  intros x Hx; simpl in *;
  repeat (rewrite lookup_update_other
            by (let E := fresh in intros E; apply Hx; subst x; simpl; tauto));
  reflexivity.

(** One turn when calls return: the file is asked for; either it is there,
    or it is fetched from the cookbook under its own name. *)
Lemma iteration_outcomes (f : string) (st : state) :
  lookup "os" (env st) = Some (VModule "os") ->
  lookup "urllib" (env st) = Some (VModule "urllib") ->
  exists st1 st2,
    iteration false (VStr f) st = [Ok tt st1; Ok tt st2] /\
    trace st1 = trace st ++ [Called (isfile_call f)] /\
    trace st2 = trace st ++ [Called (isfile_call f);
                             Called (urlretrieve_call f)] /\
    keeps st st1 /\ keeps st st2.
Proof.
  intros Hos Hurl. one_turn Hos Hurl.
  do 2 eexists. split; [reflexivity|].
  unfold fstring, isfile_call, urlretrieve_call, mesh_url. simpl.
  rewrite append_empty. rewrite <- app_assoc. simpl.
  split; [reflexivity|]. split; [reflexivity|]. split; kept.
Qed.

Lemma iterations_outcomes (names : list string) :
  forall st,
    lookup "os" (env st) = Some (VModule "os") ->
    lookup "urllib" (env st) = Some (VModule "urllib") ->
    exists sts,
      iterM (iteration false) (map VStr names) st = map (Ok tt) sts /\
      map trace sts
        = map (fun w => trace st ++ loop_events w) (worlds names) /\
      Forall (keeps st) sts.
Proof.
  induction names as [|f rest IH]; intros st Hos Hurl.
  - exists [st]. simpl. rewrite app_nil_r.
    repeat split. constructor; [apply keeps_refl | constructor].
  - destruct (@iteration_outcomes f st Hos Hurl)
      as (st1 & st2 & E & T1 & T2 & K1 & K2).
    destruct (IH st1) as (sts1 & E1 & Tr1 & Ks1);
      [ rewrite (K1 _ os_is_kept); exact Hos
      | rewrite (K1 _ urllib_is_kept); exact Hurl |].
    destruct (IH st2) as (sts2 & E2 & Tr2 & Ks2);
      [ rewrite (K2 _ os_is_kept); exact Hos
      | rewrite (K2 _ urllib_is_kept); exact Hurl |].
    exists (sts1 ++ sts2).
    change (iterM (iteration false) (map VStr (f :: rest)) st)
      with (bind (iteration false (VStr f))
                 (fun _ => iterM (iteration false) (map VStr rest)) st).
    unfold bind. rewrite E. simpl. rewrite app_nil_r.
    rewrite E1, E2. rewrite !map_app, !map_map, Tr1, Tr2, T1, T2.
    split; [reflexivity|]. split.
    + f_equal; apply map_ext; intros w; rewrite <- app_assoc; reflexivity.
    + apply Forall_app. split.
      * apply (Forall_impl _ (fun s => @keeps_trans st st1 s K1) Ks1).
      * apply (Forall_impl _ (fun s => @keeps_trans st st2 s K2) Ks2).
Qed.

Lemma loop_unfolds (faults : bool) (st : state) :
  exec faults download_loop st =
  bind (load "filenames")
       (fun iv => match iv with
                  | VList vs | VTuple vs =>
                      iterM (iteration faults) vs ;; ret tt
                  | _ => fail Unsupported
                  end) st.
Proof. reflexivity. Qed.

(** X1.  The download loop of the remapping notebook, for any list of file
    names and from any state in which [os] and [urllib] are the imported
    modules and [filenames] is the list.  When calls return, the loop has
    one run for each way in which the files can be there or not, and every
    run completes.  In a run, [os.path.isfile] is asked about every file of
    the list, once and in order; a file is fetched exactly when it is not
    there, right after it was asked about, with
    [urllib.request.urlretrieve] from the cookbook's address followed by
    the file's name, and is saved under that name.  The loop binds
    [filename], [url], [_] and [headers] and leaves every other name as it
    was. *)
Theorem download_loop_fetches_the_missing_files
        (names : list string) (st : state) :
  lookup "os" (env st) = Some (VModule "os") ->
  lookup "urllib" (env st) = Some (VModule "urllib") ->
  lookup "filenames" (env st) = Some (VList (map VStr names)) ->
  exists sts,
    exec false download_loop st = map (Ok tt) sts /\
    map trace sts = map (fun w => trace st ++ loop_events w) (worlds names) /\
    Forall (keeps st) sts.
Proof.
  intros Hos Hurl Hnames.
  destruct (@iterations_outcomes names st Hos Hurl) as (sts & E & T & K).
  exists sts. split; [|split; assumption].
  rewrite loop_unfolds.
  unfold bind at 1. unfold load. rewrite Hnames. cbn [flat_map].
  rewrite app_nil_r. unfold bind. rewrite E. clear.
  induction sts as [|s sts IH]; simpl; [reflexivity | rewrite IH; reflexivity].
Qed.

(** The loop as the notebook reaches it, with its four data files. *)
Lemma download_loop_in_the_notebook :
  lookup "os" (env before_the_loop) = Some (VModule "os") /\
  lookup "urllib" (env before_the_loop) = Some (VModule "urllib") /\
  lookup "filenames" (env before_the_loop)
    = Some (VList (map VStr oqu_files)) /\
  exists sts,
    exec false download_loop before_the_loop = map (Ok tt) sts /\
    map trace sts
      = map (fun w => trace before_the_loop ++ loop_events w)
            (worlds oqu_files) /\
    Forall (keeps before_the_loop) sts.
Proof.
  split; [vm_compute; reflexivity|].
  split; [vm_compute; reflexivity|].
  split; [vm_compute; reflexivity|].
  apply (@download_loop_fetches_the_missing_files oqu_files before_the_loop);
    vm_compute; reflexivity.
Defined.

(** One turn when a call may raise: as before, or the download raises, or
    the check does. *)
Lemma faulty_iteration_outcomes (f : string) (st : state) :
  lookup "os" (env st) = Some (VModule "os") ->
  lookup "urllib" (env st) = Some (VModule "urllib") ->
  exists st1 st2 st3 st4,
    iteration true (VStr f) st =
      [ Ok tt st1; Ok tt st2;
        Err (Raised (urlretrieve_call f)) st3;
        Err (Raised (isfile_call f)) st4 ] /\
    trace st1 = trace st ++ [Called (isfile_call f)] /\
    trace st2 = trace st ++ [Called (isfile_call f);
                             Called (urlretrieve_call f)] /\
    trace st3 = trace st ++ [Called (isfile_call f);
                             Called (urlretrieve_call f);
                             Raising (urlretrieve_call f)] /\
    trace st4 = trace st ++ [Called (isfile_call f);
                             Raising (isfile_call f)] /\
    keeps st st1 /\ keeps st st2.
Proof.
  intros Hos Hurl. one_turn Hos Hurl.
  do 4 eexists.
  unfold fstring, isfile_call, urlretrieve_call, mesh_url. simpl.
  rewrite append_empty. rewrite <- !app_assoc. simpl.
  split; [reflexivity|].
  split; [reflexivity|]. split; [reflexivity|].
  split; [reflexivity|]. split; [reflexivity|]. split; kept.
Qed.

Lemma faulty_iterations_outcomes (names : list string) :
  forall st,
    lookup "os" (env st) = Some (VModule "os") ->
    lookup "urllib" (env st) = Some (VModule "urllib") ->
    map ending (iterM (iteration true) (map VStr names) st)
      = map (fun p => (trace st ++ fst p, snd p)) (loop_ends names).
Proof.
  induction names as [|f rest IH]; intros st Hos Hurl.
  - simpl. rewrite app_nil_r. reflexivity.
  - destruct (@faulty_iteration_outcomes f st Hos Hurl)
      as (st1 & st2 & st3 & st4 & E & T1 & T2 & T3 & T4 & K1 & K2).
    change (iterM (iteration true) (map VStr (f :: rest)) st)
      with (bind (iteration true (VStr f))
                 (fun _ => iterM (iteration true) (map VStr rest)) st).
    unfold bind. rewrite E. cbn [flat_map]. rewrite app_nil_r.
    rewrite !map_app.
    rewrite (IH st1), (IH st2);
      [ | rewrite (K2 _ os_is_kept); exact Hos
        | rewrite (K2 _ urllib_is_kept); exact Hurl
        | rewrite (K1 _ os_is_kept); exact Hos
        | rewrite (K1 _ urllib_is_kept); exact Hurl ].
    cbn [loop_ends]. rewrite !map_app, !map_map. cbn [map ending fst snd].
    rewrite T1, T2, T3, T4.
    f_equal; [|f_equal].
    + apply map_ext. intros [evs e]. cbn [fst snd].
      rewrite <- app_assoc. reflexivity.
    + apply map_ext. intros [evs e]. cbn [fst snd].
      rewrite <- app_assoc. reflexivity.
Qed.

Lemma ending_of_bind_ret (c : M unit) (st : state) :
  map ending (bind c (fun _ => ret tt) st) = map ending (c st).
Proof.
  unfold bind. induction (c st) as [|[[] s|e s] l IH]; simpl;
    [reflexivity | rewrite IH; reflexivity | rewrite IH; reflexivity].
Qed.

(** X2.  The same loop when a call into a package may raise.  A run of the
    loop ends in one of three ways only.  It completes, having asked about
    every file and fetched the missing ones.  Or [os.path.isfile] raises
    for some file, or [urllib.request.urlretrieve] does: the files before
    it have been dealt with as usual, the exception is the last thing
    that happens, and no file after it is asked about or fetched.  The
    loop itself raises nothing. *)
Theorem download_loop_stops_at_the_first_failure
        (names : list string) (st : state) :
  lookup "os" (env st) = Some (VModule "os") ->
  lookup "urllib" (env st) = Some (VModule "urllib") ->
  lookup "filenames" (env st) = Some (VList (map VStr names)) ->
  map ending (exec true download_loop st)
    = map (fun p => (trace st ++ fst p, snd p)) (loop_ends names).
Proof.
  intros Hos Hurl Hnames.
  rewrite loop_unfolds.
  unfold bind at 1. unfold load. rewrite Hnames. cbn [flat_map].
  rewrite app_nil_r. rewrite ending_of_bind_ret.
  apply faulty_iterations_outcomes; assumption.
Qed.

(** The faulty loop as the notebook reaches it. *)
Lemma faulty_download_loop_in_the_notebook :
  lookup "os" (env before_the_loop) = Some (VModule "os") /\
  lookup "urllib" (env before_the_loop) = Some (VModule "urllib") /\
  lookup "filenames" (env before_the_loop)
    = Some (VList (map VStr oqu_files)) /\
  map ending (exec true download_loop before_the_loop)
    = map (fun p => (trace before_the_loop ++ fst p, snd p))
          (loop_ends oqu_files).
Proof.
  split; [vm_compute; reflexivity|].
  split; [vm_compute; reflexivity|].
  split; [vm_compute; reflexivity|].
  apply (@download_loop_stops_at_the_first_failure oqu_files before_the_loop);
    vm_compute; reflexivity.
Defined.

(** ** The runs of the remapping notebook *)

(** X3.  The remapping notebook has sixteen runs, one for each set of its
    four data files that can be missing; in a run, the files fetched are
    those that are missing.  The runs differ in nothing else: with the
    downloads left out, every run makes the calls, and displays the
    values, of the run in which no file is missing, and it ends with the
    bindings of that run, but for [url], [_] and [headers], which only a
    run that fetches a file binds. *)
Theorem remapping_runs_differ_only_in_downloads :
  List.length (finals Remapping.nb) = 16 /\
  map (fun st => written (trace st)) (finals Remapping.nb)
    = map missing (worlds oqu_files) /\
  nth_error (finals Remapping.nb) 0 = Some all_there /\
  map (fun st => map fst (only ["url"; "_"; "headers"] (env st)))
      (finals Remapping.nb)
    = map (fun w => match missing w with
                    | [] => []
                    | _ :: _ => ["url"; "_"; "headers"]
                    end)
          (worlds oqu_files) /\
  Forall (fun st =>
            without_downloads (trace st) = trace all_there /\
            forget ["url"; "_"; "headers"] (env st) = env all_there)
         (finals Remapping.nb).
Proof.
  split; [vm_compute; reflexivity|].
  split; [vm_compute; reflexivity|].
  split; [vm_compute; reflexivity|].
  split; [vm_compute; reflexivity|].
  apply (Forall_check
           (fun st =>
              events_eqb (without_downloads (trace st)) (trace all_there)
              && bindings_eqb (forget ["url"; "_"; "headers"] (env st))
                              (env all_there))).
  - intros st H. apply andb_prop in H. destruct H as [H1 H2].
    split; [apply events_eqb_eq | apply bindings_eqb_eq]; assumption.
  - vm_compute. reflexivity.
Qed.

(** X4.  In every run of the remapping notebook the variables named
    [upsampling...] hold the 480km bottom depth remapped onto the grid of
    the 120km dataset, those named [downsampling...] the 120km bottom depth
    remapped onto the grid of the 480km dataset, always to face centers,
    with the method and the [power] and [k] that the name and the title of
    the plot say.  Every comparison cell shows the data that is remapped
    and the result, each whole and zoomed, under titles that give the two
    resolutions in the direction of the remapping.  The prose before the
    first comparison announces a comparison with the original 120km mesh;
    the cell shows the 480km data and the result, not the 120km data. *)
Theorem remapping_goes_the_way_its_titles_say :
  prose_says
    "comparison of the original 120km mesh compared to the remapped one"
    (nth_error (cells Remapping.nb) 19) = true /\
  Forall
    (fun st =>
       only [ "upsampling"; "downsampling"; "upsampling_idw";
              "downsampling_idw"; "downsampling_idw_low";
              "downsampling_idw_high"; "upsampling_idw_low";
              "upsampling_idw_high" ] (env st)
       = [ ("upsampling", RemappingRun.up "nearest_neighbor" []);
           ("downsampling", RemappingRun.down "nearest_neighbor" []);
           ("upsampling_idw",
            RemappingRun.up "inverse_distance_weighted" []);
           ("downsampling_idw",
            RemappingRun.down "inverse_distance_weighted" []);
           ("downsampling_idw_low",
            RemappingRun.down "inverse_distance_weighted"
                              [("power", VInt 1); ("k", VInt 2)]);
           ("downsampling_idw_high",
            RemappingRun.down "inverse_distance_weighted"
                              [("power", VInt 5); ("k", VInt 128)]);
           ("upsampling_idw_low",
            RemappingRun.up "inverse_distance_weighted"
                            [("power", VInt 1); ("k", VInt 2)]);
           ("upsampling_idw_high",
            RemappingRun.up "inverse_distance_weighted"
                            [("power", VInt 5); ("k", VInt 128)]) ] /\
       skipn 3 (shown st)
       = [ ("Bottom Depth (480km)",
            RemappingRun.depth RemappingRun.uxds_480);
           ("Bottom Depth (120km)",
            RemappingRun.depth RemappingRun.uxds_120) ]
         ++ RemappingRun.comparison "480km" "120km" RemappingRun.uxds_480
              (RemappingRun.up "nearest_neighbor" [])
         ++ RemappingRun.comparison "120km" "480km" RemappingRun.uxds_120
              (RemappingRun.down "nearest_neighbor" [])
         ++ RemappingRun.comparison "480km" "120km" RemappingRun.uxds_480
              (RemappingRun.up "inverse_distance_weighted" [])
         ++ RemappingRun.comparison "120km" "480km" RemappingRun.uxds_120
              (RemappingRun.down "inverse_distance_weighted" [])
         ++ [ ("Zoomed 480km (power=1, k=2)",
               RemappingRun.down "inverse_distance_weighted"
                                 [("power", VInt 1); ("k", VInt 2)]);
              ("Zoomed 480km (power=5, k=128)",
               RemappingRun.down "inverse_distance_weighted"
                                 [("power", VInt 5); ("k", VInt 128)]);
              ("Zoomed 120km (power=1, k=2)",
               RemappingRun.up "inverse_distance_weighted"
                               [("power", VInt 1); ("k", VInt 2)]);
              ("Zoomed 120km (power=5, k=128)",
               RemappingRun.up "inverse_distance_weighted"
                               [("power", VInt 5); ("k", VInt 128)]) ])
    (finals Remapping.nb).
Proof.
  split; [vm_compute; reflexivity|].
  match goal with
  | |- Forall (fun st => _ = ?vars /\ _ = ?plots) _ =>
      apply (Forall_check
               (fun st =>
                  bindings_eqb
                    (only [ "upsampling"; "downsampling"; "upsampling_idw";
                            "downsampling_idw"; "downsampling_idw_low";
                            "downsampling_idw_high"; "upsampling_idw_low";
                            "upsampling_idw_high" ] (env st)) vars
                  && bindings_eqb (skipn 3 (shown st)) plots))
  end.
  - intros st H. apply andb_prop in H. destruct H as [H1 H2].
    split; apply bindings_eqb_eq; assumption.
  - vm_compute. reflexivity.
Qed.

(** ** Cells, names and plots *)

(** Prove a conjunction of closed equations, each by evaluation. *)
Ltac evaluate :=
  repeat match goal with |- _ /\ _ => split end; vm_compute; reflexivity.

(** X5.  The cells a notebook cannot be run without, as far as its names
    go, calls into packages returning: when one of them is skipped, every
    run ends in [NameError], a later cell reading a name that the cell
    binds; when any other cell is skipped, every run still completes.  The
    cells are numbered as in the notebook, prose cells included, from 0.
    In the HoloViz notebook one of them is the cell that plots the edges
    with matplotlib: it is there, not in the import cell, that
    [cartopy.crs] is imported as [ccrs], which only the two cells on
    geographic projections read, and without it the notebook ends in
    [NameError] for [ccrs].  In the cross-sections notebook the
    longitude-interval cell needs the latitude-interval cell, whose [lats]
    it reads: without the two latitude-interval cells the notebook ends
    in [NameError] for [lats].  In the custom-topology and the subsetting
    notebook the cells that bind a name again are not needed. *)
Theorem cells_that_later_cells_need :
  map needed repository =
    [ [1; 2; 5; 11; 14; 17];
      [1; 12; 16; 22];
      [2; 5; 6; 10; 11; 20; 25; 34; 38; 42; 45];
      [2; 3; 6; 7; 14; 18; 26];
      [1; 3];
      [1; 3; 6; 8; 19];
      [1; 3];
      [1; 4; 6; 11; 15; 17; 21; 23; 26];
      [1; 3; 4; 5; 6; 15; 16; 18; 19; 31] ] /\
  forallb (fun n => forallb (breaks_names n) (needed n)) repository = true /\
  imported (body Holoviz.cell_19) = ["cartopy.crs"] /\
  imported (body Holoviz.cell_01) =
    [ "warnings"; "holoviews"; "hvplot.pandas"; "matplotlib";
      "matplotlib.pyplot"; "numpy"; "uxarray" ] /\
  errors (drop_cell 19 Holoviz.nb) = [NameError "ccrs"] /\
  errors (drop_cell 14 (drop_cell 15 CrossSections.nb))
    = [NameError "lats"] /\
  bindings (body CustomGrid.cell_09)
    = ["node_lon"; "node_lat"; "face_node_connectivity"] /\
  bindings (body Subset.cell_21) = ["center_coord"].
Proof. evaluate. Qed.

(** X6.  The names a notebook binds and never reads.  Among them are
    seven imports ([gv] in the cross-sections notebook, [Path] in the
    remapping notebook, [ccrs] and [xr] in the weighted-mean notebook,
    [matplotlib], [plt] and [np] in the HoloViz notebook, besides [hvplot],
    imported for what the import does) and [data_var] of the remapping
    notebook, which is bound to ["bottomDepth"] while the cells index
    with the literal.  In the spatial-hashing notebook [spatial_hash] is
    bound and never read: the prose says that the variable is used for the
    query, the query cell calls [uxgrid.get_spatial_hash()] again. *)
Theorem names_bound_and_never_read :
  map unused repository =
    [ ["gv"]; []; ["Path"; "data_var"; "_"; "headers"]; [];
      ["ccrs"; "xr"]; ["hvplot"; "matplotlib"; "plt"; "np"];
      ["spatial_hash"]; []; [] ] /\
  nth_error (body Remapping.cell_10) 1
    = Some (SAssign [EName "data_var"] (EStr "bottomDepth")) /\
  dedup (flat_map string_keys (code_cells Remapping.nb))
    = ["t2m"; "480km"; "120km"; "bottomDepth"] /\
  count_occ string_dec (flat_map string_keys (code_cells Remapping.nb))
            "bottomDepth" = 19 /\
  (exists st,
     runs SpatialHashing.nb = [Ok tt st] /\
     prose_says "Now we can use that variable to query"
                (nth_error (cells SpatialHashing.nb) 6) = true /\
     map call_func (calls_to ["query"] (trace st)) =
       [ VAttr (VCall (VAttr (VCall (ux "open_grid")
                                    [VStr "../../test/meshfiles/ugrid/quad-hexagon/grid.nc"]
                                    [])
                             "get_spatial_hash") [] [])
               "query" ] /\
     List.length (calls_to ["get_spatial_hash"] (trace st)) = 2).
Proof.
  split; [vm_compute; reflexivity|].
  split; [reflexivity|].
  split; [vm_compute; reflexivity|].
  split; [vm_compute; reflexivity|].
  the_run SpatialHashing.nb. evaluate.
Qed.

(** X7.  Jupyter shows the value of the expression that ends a cell and
    drops the value of any other expression statement.  Apart from [print],
    [hv.extension] and [warnings.filterwarnings], which are called for what
    they do, two expression statements of the repository are not the last
    of their cell.  In the HEALPix notebook the plot of the source data,
    titled ["Source Data"], is followed by the assignment of [hp_grid]: the
    run makes the plot and displays nothing of it.  In the HoloViz notebook
    the first [gdf_data.hvplot.polygons] of the bokeh cell is followed by
    the layout: of the six calls of [polygons] the run makes, five are
    displayed. *)
Theorem plots_made_and_not_shown :
  map dropped_values repository =
    [ []; [["source_uxds"; "plot"]]; []; []; [];
      [["gdf_data"; "hvplot"; "polygons"]]; []; []; [] ] /\
  is_assign (last (body Healpix.cell_12) SPass) = true /\
  (exists st,
     runs Healpix.nb = [Ok tt st] /\
     map (fun c => kwarg "title" (call_kwargs c)) (never_shown st)
       = [Some (VStr "Source Data")] /\
     map fst (shown st) =
       [ "zoom=2"; "zoom=3"; "zoom=4"; "Source Grid (CSne30)";
         "Destination Grid (HEALPix)"; "Remapped Data" ]) /\
  (exists st,
     runs Holoviz.nb = [Ok tt st] /\
     List.length (calls_to ["hvplot"; "polygons"] (trace st)) = 6 /\
     List.length (shown_calls ["hvplot"; "polygons"] st) = 5).
Proof.
  split; [vm_compute; reflexivity|].
  split; [reflexivity|].
  split; [the_run Healpix.nb | the_run Holoviz.nb]; evaluate.
Qed.

(** ** Files *)

(** X8.  Every file that a run of a notebook opens with a loader of the
    toolkit or of xarray is accounted for when it is opened: its path lies
    in the test tree of the repository, or names a file that the run has
    stored (written with [to_netcdf], downloaded with [urlretrieve] or
    fetched with [geocat.datafiles.get]), or has asked about with
    [os.path.isfile], earlier.  This holds of every run of every notebook.
    Fifteen files are opened: eight of the test tree, [psi_healpix.nc], the
    four data files of the remapping notebook and the two that the
    subsetting notebook fetches.  It is the cell that writes
    [psi_healpix.nc] which accounts for the two loads of that file: without
    it the HEALPix notebook opens a file that nothing accounts for. *)
Theorem every_opened_file_is_accounted_for :
  Forall (fun n =>
            Forall (fun st => opens_known [] (trace st) = true) (finals n))
         repository /\
  opened_files =
    [ "psi_healpix.nc";
      "../../test/meshfiles/ugrid/quad-hexagon/triangulated-grid.nc";
      "../../test/meshfiles/ugrid/quad-hexagon/data.nc";
      "oQU480.grid.nc"; "oQU480.data.nc"; "oQU120.grid.nc"; "oQU120.data.nc";
      "../../test/meshfiles/mpas/QU/mesh.QU.1920km.151026.nc";
      "../../test/meshfiles/ugrid/quad-hexagon/random-face-data.nc";
      "../../test/meshfiles/ugrid/quad-hexagon/random-edge-data.nc";
      "../../test/meshfiles/ugrid/outCSne30/outCSne30.ug";
      "../../test/meshfiles/ugrid/outCSne30/outCSne30_vortex.nc";
      "../../test/meshfiles/ugrid/quad-hexagon/grid.nc";
      "netcdf_files/MPAS/FalkoJudt/dyamond_1/30km/x1.655362.grid_subset.nc";
      "netcdf_files/MPAS/FalkoJudt/dyamond_1/30km/diag.2016-08-20_00.00.00_subset.nc" ] /\
  List.length opened_files = 15 /\
  List.length (filter (prefix test_tree) opened_files) = 8 /\
  Forall (fun n =>
            Forall (fun st =>
                      List.length (flat_map path_of (opened (trace st)))
                      = List.length (opened (trace st)))
                   (finals n))
         repository /\
  completes (drop_cell 20 Healpix.nb) = true /\
  forallb (fun st => opens_known [] (trace st))
          (finals (drop_cell 20 Healpix.nb)) = false.
Proof.
  split.
  { apply (Forall_check
             (fun n => forallb (fun st => opens_known [] (trace st))
                               (finals n))).
    - intros n H. apply forallb_Forall_true in H. exact H.
    - vm_compute. reflexivity. }
  do 3 (split; [vm_compute; reflexivity|]).
  split; [|evaluate].
  apply (Forall_check
           (fun n => forallb
                       (fun st =>
                          Nat.eqb
                            (List.length
                               (flat_map path_of (opened (trace st))))
                            (List.length (opened (trace st))))
                       (finals n))).
  - intros n H.
    apply (Forall_check _ _ _ (fun st => proj1 (Nat.eqb_eq _ _)) H).
  - vm_compute. reflexivity.
Qed.

(** ** Titles *)

(** X9.  The four cross-section plots of the cross-sections notebook, each
    with the slice it shows.  The titles of the first three say what was
    sliced: the f-string puts in the value of [lat], of [lon], and the two
    elements of [lats], and these are the arguments of
    [constant_latitude], [constant_longitude] and
    [constant_latitude_interval].  The title of the fourth does not. *)
Theorem cross_section_titles_name_what_is_sliced :
  exists st,
    runs CrossSections.nb = [Ok tt st] /\
    skipn 1 (shown st) =
      [ ("Cross Section at 0 degrees latitude",
         CrossSectionsRun.section "constant_latitude" (VInt 0));
        ("Cross Section at 90 degrees longitude",
         CrossSectionsRun.section "constant_longitude" (VInt 90));
        ("Cross Section between -20 and 20 degrees latitude",
         CrossSectionsRun.section "constant_latitude_interval"
                                  (VList [VInt (-20); VInt 20]));
        ("Cross Section between -25 and 25 degrees longitude",
         CrossSectionsRun.section "constant_longitude_interval"
                                  (VList [VInt (-20); VInt 20])) ] /\
    map title_fits (skipn 1 (shown st)) = [true; true; true; false].
Proof. the_run CrossSections.nb. evaluate. Qed.

(** X10.  The HoloViz notebook switches the plotting backend with
    [hv.extension] at the head of every plotting cell, and every title that
    names a backend is given while that backend is the one selected: the
    five plots titled Matplotlib Backend are made under ["matplotlib"], the
    four titled Bokeh Backend under ["bokeh"]. *)
Theorem holoviz_titles_name_the_backend_in_force :
  exists st,
    runs Holoviz.nb = [Ok tt st] /\
    titles_under None (trace st) =
      [ ("Node Plot (Matplotlib Backend)", Some "matplotlib");
        ("Node Plot (Bokeh Backend)", Some "bokeh");
        ("Edge Plot (Matplotlib Backend)", Some "matplotlib");
        ("Edge Plot (Bokeh Backend)", Some "bokeh");
        ("Filled Polygon Plot (Matplotlib Backend, Rasterized)",
         Some "matplotlib");
        ("Filled Polygon Plot (Bokeh Backend, Rasterized)", Some "bokeh");
        ("Filled Polygon Plot (Bokeh Backend, Vector)", Some "bokeh");
        ("Filled Polygon Plot (Matplotlib Backend, Rasterized, Orthographic Projection)",
         Some "matplotlib");
        ("Filled Polygon Plot (Matplotlib Backend, Rasterized, Robinson Projection)",
         Some "matplotlib") ] /\
    forallb backend_fits (titles_under None (trace st)) = true /\
    backend_fits ("Node Plot (Bokeh Backend)", Some "matplotlib") = false.
Proof. the_run Holoviz.nb. evaluate. Qed.

(** ** The custom-topology notebook *)

(** X11.  The two calls of [Grid.from_topology] are given arrays that make
    a mesh: as many node latitudes as node longitudes, all numbers;
    connectivity rows of one width, every entry the index of a node or the
    fill value, at least three indices in a row, and fill values only at
    the end of a row.  The triangle has 3 nodes and 1 face, no fill value
    in its connectivity and none passed.  The mixed mesh has 5 nodes and 2
    faces; its triangle row is padded with -1, the [fill_value] that the
    call passes, and without that keyword the arrays would not make a
    mesh. *)
Theorem custom_meshes_are_well_formed :
  exists st,
    runs CustomGrid.nb = [Ok tt st] /\
    map mesh_size (calls_to ["Grid"; "from_topology"] (trace st))
      = [Some (3, 1)%nat; Some (5, 2)%nat] /\
    map has_fill (calls_to ["Grid"; "from_topology"] (trace st))
      = [false; true] /\
    map (fun c => kwarg "fill_value" (call_kwargs c))
        (calls_to ["Grid"; "from_topology"] (trace st))
      = [None; Some (VInt (-1))] /\
    map (fun c => mesh_size (without_keyword "fill_value" c))
        (calls_to ["Grid"; "from_topology"] (trace st))
      = [Some (3, 1)%nat; None] /\
    prose_says
      "The `fill_value` parameter must be passed in when working with a mixed topology grid."
      (nth_error (cells CustomGrid.nb) 10) = true.
Proof. the_run CustomGrid.nb. evaluate. Qed.

(** X12.  The data arrays of the custom-topology notebook fit the triangle
    they are attached to.  Both calls of [from_xarray] are given the
    triangle grid, though [node_lon], [node_lat] and
    [face_node_connectivity] have been bound to the mixed mesh by then.
    Each array is a transposed literal with the dimensions [time] and
    [cell] or [vertex]: [temp] has 4 entries in time and 1 per cell,
    [vorticity] 4 in time and 3 per vertex.  The mapping passed with them,
    the one in force at the call, sends [cell] to [n_face] and [vertex] to
    [n_node], of which the triangle has 1 and 3; [time] is not mapped. *)
Theorem custom_data_fits_the_triangle :
  exists st,
    runs CustomGrid.nb = [Ok tt st] /\
    map matched (calls_to ["from_xarray"] (trace st)) =
      [ [ ("temp", [ ("time", 4, None); ("cell", 1, Some (Some 1)) ]) ];
        [ ("temp", [ ("time", 4, None); ("cell", 1, Some (Some 1)) ]);
          ("vorticity",
           [ ("time", 4, None); ("vertex", 3, Some (Some 3)) ]) ] ]%nat /\
    forallb (forallb (fun a => forallb dimension_fits (snd a)))
            (map matched (calls_to ["from_xarray"] (trace st))) = true /\
    map (argument 1 "uxgrid") (calls_to ["from_xarray"] (trace st))
      = map Some (firstn 1 (calls_to ["Grid"; "from_topology"] (trace st))
                  ++ firstn 1 (calls_to ["Grid"; "from_topology"]
                                        (trace st))) /\
    map (argument 2 "ugrid_dims") (calls_to ["from_xarray"] (trace st)) =
      [ Some (VDict [(VStr "cell", VStr "n_face")]);
        Some (VDict [ (VStr "cell", VStr "n_face");
                      (VStr "vertex", VStr "n_node") ]) ] /\
    lookup "ugrid_dims" (env st)
      = Some (VDict [ (VStr "cell", VStr "n_face");
                      (VStr "vertex", VStr "n_node") ]) /\
    option_map array_rows (lookup "node_lon" (env st))
      = Some (Some [ VFloat (-200) (-1); VFloat 0 (-1); VFloat 200 (-1);
                     VInt (-20); VInt (-40) ]) /\
    prose_says "There are 4 time steps 0, 1, 2, and 3."
               (nth_error (cells CustomGrid.nb) 27) = true.
Proof. the_run CustomGrid.nb. evaluate. Qed.

(** ** The subsetting notebook *)

(** X13.  All six subsets of the subsetting notebook are taken about one
    point, longitude -87.6298 and latitude 41.8781.  The bounds of the box
    are written as this point minus and plus 2; the two circles have this
    point as centre and radius 2, the half-width of the box; the three
    nearest-neighbour queries, for 30 nodes, 120 face centers and 1 face
    center, start from the same point.  The second assignment of
    [center_coord] binds the value it already has. *)
Theorem subsets_look_about_one_point :
  exists st,
    runs Subset.nb = [Ok tt st] /\
    map region (calls_to ["subset"; "bounding_box"] (trace st)) =
      [ Some (VFloat (-876298) (-4), VFloat 418781 (-4), Some (VInt 2)) ] /\
    map region (calls_to ["subset"; "bounding_circle"] (trace st)) =
      [ Some (VFloat (-876298) (-4), VFloat 418781 (-4), Some (VInt 2));
        Some (VFloat (-876298) (-4), VFloat 418781 (-4), Some (VInt 2)) ] /\
    map region (calls_to ["subset"; "nearest_neighbor"] (trace st)) =
      [ Some (VFloat (-876298) (-4), VFloat 418781 (-4), None);
        Some (VFloat (-876298) (-4), VFloat 418781 (-4), None);
        Some (VFloat (-876298) (-4), VFloat 418781 (-4), None) ] /\
    map call_kwargs (calls_to ["subset"; "nearest_neighbor"] (trace st)) =
      [ [("k", VInt 30); ("element", VStr "nodes")];
        [("k", VInt 120); ("element", VStr "face centers")];
        [("k", VInt 1); ("element", VStr "face centers")] ] /\
    body Subset.cell_21 = firstn 1 (body Subset.cell_18) /\
    bindings (body Subset.cell_21) = ["center_coord"] /\
    lookup "center_coord" (env st)
      = Some (VList [VFloat (-876298) (-4); VFloat 418781 (-4)]).
Proof. the_run Subset.nb. evaluate. Qed.

(** X14.  The subsetting notebook lists its two files data first and grid
    second, and opens them as [datafiles[1], datafiles[0]]: the toolkit is
    given the grid file first.  The colour limits are computed once, as
    the minimum and the maximum of the global field, and every plot of a
    subset is given them, so that the five subset plots share one colour
    scale; the global plot is given none.  All six plots get the width 700
    and the height 350 of [plot_opts]. *)
Theorem subset_plots_share_one_colour_scale :
  exists st,
    runs Subset.nb = [Ok tt st] /\
    lookup "datafiles" (env st)
      = Some (VTuple [SubsetRun.data_file; SubsetRun.grid_file]) /\
    calls_to ["uxarray"; "open_dataset"] (trace st) = [SubsetRun.uxds] /\
    lookup "clim" (env st)
      = Some (VTuple [SubsetRun.extreme "min"; SubsetRun.extreme "max"]) /\
    calls_to ["values"; "min"] (trace st) = [SubsetRun.extreme "min"] /\
    calls_to ["values"; "max"] (trace st) = [SubsetRun.extreme "max"] /\
    map (fun c => (kwarg "clim" (call_kwargs c),
                   kwarg "width" (call_kwargs c),
                   kwarg "height" (call_kwargs c)))
        (calls_to ["plot"] (trace st))
      = (None, Some (VInt 700), Some (VInt 350))
        :: repeat (Some (VTuple [ SubsetRun.extreme "min";
                                  SubsetRun.extreme "max" ]),
                   Some (VInt 700), Some (VInt 350)) 5 /\
    map fst (shown st) =
      [ "Global Grid"; "Bounding Box Subset (Corner Node Query)";
        "Bounding Circle Subset";
        "Nearest Neighbor Subset (Query 30 closest nodes)";
        "Nearest Neighbor Subset (Query 120 Closest Faces)";
        "Nearest Neighbor Subset (Query Closest Face)" ].
Proof. the_run Subset.nb. evaluate. Qed.

(** ** Prose and code *)

(** X15.  Names in the prose that are not the names in the code.  The
    dual-mesh notebook says the dual is constructed with
    [grid.compute_dual()]; the cross-sections notebook names the interval
    methods [constant_lats_interval] and [constant_lons_interval].  No cell
    of the repository calls a method of these names: the cells call
    [get_dual], [constant_latitude_interval] and
    [constant_longitude_interval].  The subsetting notebook calls its
    variable [relhum200hPa] in the prose, and every cell indexes with
    ["relhum_200hPa"].  The remapping notebook describes the parameters
    [destination_grid] and [destination_obj]; its cells pass the
    destination by position, and no cell of the repository passes
    [destination_obj]. *)
Theorem prose_names_that_the_code_does_not_use :
  mentions "`grid.compute_dual()`" DualMesh.nb = true /\
  called_somewhere "compute_dual" = false /\
  called_somewhere "get_dual" = true /\
  mentions "``.cross_section.constant_lats_interval(lats)``"
           CrossSections.nb = true /\
  mentions "``.cross_section.constant_lons_interval(lons)``"
           CrossSections.nb = true /\
  called_somewhere "constant_lats_interval" = false /\
  called_somewhere "constant_lons_interval" = false /\
  called_somewhere "constant_latitude_interval" = true /\
  called_somewhere "constant_longitude_interval" = true /\
  mentions "(`relhum200hPa`)" Subset.nb = true /\
  dedup (flat_map string_keys (code_cells Subset.nb)) = ["relhum_200hPa"] /\
  mentions "`destination_grid` is the grid object" Remapping.nb = true /\
  mentions "`destination_obj` is being deprecated" Remapping.nb = true /\
  flat_map (sites_of "destination_obj") all_code_cells = [] /\
  flat_map (sites_of "destination_grid") (code_cells Remapping.nb) = [] /\
  flat_map (positional_through "remap") (code_cells Remapping.nb)
    = [ [EName "grid"];
        [EAttribute (EName "uxds_120") "uxgrid"];
        [EAttribute (EName "uxds_480") "uxgrid"];
        [EAttribute (EName "uxds_120") "uxgrid"];
        [EAttribute (EName "uxds_480") "uxgrid"];
        [EAttribute (EName "uxds_480") "uxgrid"];
        [EAttribute (EName "uxds_480") "uxgrid"];
        [EAttribute (EName "uxds_120") "uxgrid"];
        [EAttribute (EName "uxds_120") "uxgrid"] ] /\
  map fst (flat_map (sites_of "destination_grid") all_code_cells)
    = [["source_uxds"; "remap"; "nearest_neighbor"]].
Proof. evaluate. Qed.

(** X16.  The dual-mesh notebook takes the dual of all three data
    structures: of the grid, of the two data arrays [latCell] and
    [latVertex], and of the dataset.  The two comparison cells carry the
    same pair of titles.  In the first, the plot titled as face centered on
    the primal mesh is [latCell] and the one titled as node centered on the
    dual mesh is its dual, averaged to faces.  In the second, the plot
    under the first title is [latVertex] averaged to faces, and the plot
    under the second title is the dual of [latVertex], which is plotted as
    it is: by the prose of that section, the data of this dual is face
    centered. *)
Theorem dual_mesh_comparisons_share_their_titles :
  exists st,
    runs DualMesh.nb = [Ok tt st] /\
    map call_func (calls_to ["get_dual"] (trace st)) =
      [ VAttr (VAttr DualMeshRun.uxds "uxgrid") "get_dual";
        VAttr (VItem DualMeshRun.uxds (VStr "latCell")) "get_dual";
        VAttr (VItem DualMeshRun.uxds (VStr "latVertex")) "get_dual";
        VAttr DualMeshRun.uxds "get_dual" ] /\
    firstn 4 (skipn 3 (shown st)) =
      [ ("Face centered data on Primal Mesh",
         VItem DualMeshRun.uxds (VStr "latCell"));
        ("Node Centered Data on Dual Mesh",
         DualMeshRun.to_faces
           (DualMeshRun.dual (VItem DualMeshRun.uxds (VStr "latCell"))));
        ("Face centered data on Primal Mesh",
         DualMeshRun.to_faces (VItem DualMeshRun.uxds (VStr "latVertex")));
        ("Node Centered Data on Dual Mesh",
         DualMeshRun.dual (VItem DualMeshRun.uxds (VStr "latVertex"))) ] /\
    prose_says
      "paired with a face centered variable, the data becomes node centered"
      (nth_error (cells DualMesh.nb) 13) = true /\
    prose_says
      "paired with a node centered variable, the data becomes face centered"
      (nth_error (cells DualMesh.nb) 17) = true.
Proof. the_run DualMesh.nb. evaluate. Qed.

(** X17.  The weighted-mean notebook compares like with like.  It
    displays eight values: the plot of the grid with the two variables,
    and then, for the face-centred and for the edge-centred variable, the
    values of the variable, of its [weighted_mean()] and of its [mean()],
    in this order; the import cell, which ends in
    [warnings.filterwarnings], displays nothing.  [result] and
    [unweighted_result] are bound twice, and each display reads the
    binding of its own cell: the last two values displayed are those of
    the edge variable, which the two names still hold at the end.  Before
    the edge means the notebook displays the weights,
    [edge_node_distances]; the prose of the face section speaks of the
    values and of the areas of the faces, and no cell reads an area. *)
Theorem weighted_and_plain_means_of_the_same_variable :
  exists st,
    runs WeightedMean.nb = [Ok tt st] /\
    List.length (displayed (trace st)) = 8 /\
    existsb is_plot (subvalues (hd VNone (displayed (trace st)))) = true /\
    skipn 1 (displayed (trace st)) =
      [ VAttr WeightedMeanRun.face_data "values";
        WeightedMeanRun.values_of "weighted_mean" WeightedMeanRun.face_data;
        WeightedMeanRun.values_of "mean" WeightedMeanRun.face_data;
        VAttr WeightedMeanRun.edge_data "values";
        VAttr (VAttr (VAttr (WeightedMeanRun.opened "random-edge-data.nc")
                            "uxgrid")
                     "edge_node_distances")
              "data";
        WeightedMeanRun.values_of "weighted_mean" WeightedMeanRun.edge_data;
        WeightedMeanRun.values_of "mean" WeightedMeanRun.edge_data ] /\
    only ["result"; "unweighted_result"] (env st) =
      [ ("result",
         VCall (VAttr WeightedMeanRun.edge_data "weighted_mean") [] []);
        ("unweighted_result",
         VCall (VAttr WeightedMeanRun.edge_data "mean") [] []) ] /\
    rebound WeightedMean.nb = ["result"; "unweighted_result"] /\
    prose_says
      "the data values on each face and the faces' respective areas"
      (nth_error (cells WeightedMean.nb) 5) = true /\
    existsb (fun b => existsb (contains "area") (attributes b))
            (code_cells WeightedMean.nb) = false /\
    uses_attribute "edge_node_distances" WeightedMean.nb = true.
Proof. the_run WeightedMean.nb. evaluate. Qed.

(** X18.  The HEALPix notebook plots the grids of zoom 2, 3 and 4 under
    the titles that name their zoom.  It remaps [psi] by nearest neighbour
    onto the grid of zoom 5, the zoom its prose gives; what it saves to
    [psi_healpix.nc] is this remapped variable, made a dataset and encoded
    in the HEALPix format, and what it then binds to [uxds] and displays
    the grid of is that file loaded with [UxDataset.from_healpix]. *)
Theorem healpix_saves_the_remapped_variable :
  exists st,
    runs Healpix.nb = [Ok tt st] /\
    firstn 3 (shown st) =
      [ ("zoom=2", from_healpix [("zoom", VInt 2)]);
        ("zoom=3", from_healpix [("zoom", VInt 3)]);
        ("zoom=4", from_healpix [("zoom", VInt 4)]) ] /\
    prose_says "to a HEALPix grid with a zoom level of 5"
               (nth_error (cells Healpix.nb) 11) = true /\
    lookup "hp_grid" (env st) = Some HealpixRun.hp_grid /\
    lookup "psi_hp" (env st) = Some HealpixRun.psi_hp /\
    calls_to ["to_netcdf"] (trace st) =
      [ VCall
          (VAttr
             (VCall
                (VAttr (VCall (VAttr HealpixRun.psi_hp "to_dataset") [] [])
                       "to_xarray")
                [] [("grid_format", VStr "HEALPix")])
             "to_netcdf")
          [VStr "psi_healpix.nc"] [] ] /\
    lookup "uxds" (env st)
      = Some (VCall (VAttr (ux "UxDataset") "from_healpix")
                    [VStr "psi_healpix.nc"] []) /\
    last (displayed (trace st)) VNone
      = VAttr (VCall (VAttr (ux "UxDataset") "from_healpix")
                     [VStr "psi_healpix.nc"] [])
              "uxgrid".
Proof. the_run Healpix.nb. evaluate. Qed.

(** ** Running a notebook again *)

(** X19.  No notebook depends on what an earlier run has left in the
    kernel, and none is changed by it.  Run again from the namespace that
    any of its runs ends with, a notebook completes in every run, makes
    the calls, prints and displays the values of a first run, in the same
    order, and ends with the bindings it started from (in the remapping
    notebook but for [url], [_] and [headers], which depend on what the
    second run fetches). *)
Theorem a_second_run_repeats_the_first :
  Forall
    (fun n =>
       Forall
         (fun st =>
            all_complete (rerun n st) = true /\
            traces (rerun n st) = traces (runs n) /\
            Forall (fun s => forget ["url"; "_"; "headers"] (env s)
                             = forget ["url"; "_"; "headers"] (env st))
                   (completed (rerun n st)))
         (finals n))
    repository.
Proof.
  pose (alike := fun (st s : state) =>
                   bindings_eqb (forget ["url"; "_"; "headers"] (env s))
                                (forget ["url"; "_"; "headers"] (env st))).
  pose (check := fun (expected : list (list event)) (n : notebook)
                     (st : state) =>
                   let again := rerun n st in
                   all_complete again
                   && list_eqb events_eqb (traces again) expected
                   && forallb (alike st) (completed again)).
  apply (Forall_check
           (fun n => let expected := traces (runs n) in
                     forallb (check expected n) (finals n))).
  - intros n H. apply (Forall_check (check (traces (runs n)) n)); [|exact H].
    intros st Hst. unfold check in Hst.
    apply andb_prop in Hst. destruct Hst as [Hst H3].
    apply andb_prop in Hst. destruct Hst as [H1 H2].
    split; [exact H1|].
    split; [apply (list_eqb_eq events_eqb events_eqb_eq); exact H2|].
    apply (Forall_check (alike st)); [|exact H3].
    intros s Hs. apply bindings_eqb_eq. exact Hs.
  - vm_compute. reflexivity.
Qed.
